(** * Star-schema construction and KPI derivation of the ride analytics scripts

    A shallow embedding of the analyst scripts

    - [scripts/power_bi_data_preparation.py]  (class [PowerBIDataPreparation]),
    - [scripts/quick_analysis.py]             (a straight-line script),
    - [scripts/comprehensive_bi_analysis.py]  (class [RapidoBusinessIntelligence]),
    - [scripts/fix_weather_dimension.py], [scripts/create_clean_weather_dimension.py]
      and [scripts/check_route_ranking.py]    (straight-line repair and check scripts),

    and the properties their specification states about them, followed by
    further properties of the dimensions and KPIs that the code itself shows.

    Modelling conventions.

    - A pandas DataFrame is a list of rows; the default [RangeIndex] of a frame
      read from CSV is the position of the row in the list.  [ride] is the
      typed view of the columns the computations read; where a script selects
      columns by label, the labels of the frame are an input of their own.
    - Integer columns ([hour], day ordinals) are [Z].
    - Measure columns are binary64 in the scripts.  Here a finite measure is an
      exact rational ([Qc]) and a computed value is an [fnum]: a rational or one
      of the three IEEE special values that numpy's division produces instead of
      raising.  Rounding of binary64 arithmetic is abstracted; zero is unsigned.
      Where a result depends on the representation error that this drops (the
      direction of [round(2)] at an exact tie), the direction is an input.
    - The scalar a reduction returns is a python int on a frame without rows
      and a numpy scalar otherwise ([scalar]); python's [/] on two ints raises
      on a zero divisor.
    - A python call either returns a value or raises: [outcome]. *)

From Stdlib Require Import ZArith QArith Qcanon Qround Lia Lqa.
From stdpp Require Import base decidable option numbers list strings gmap sorting.

Local Open Scope Z_scope.
Local Open Scope string_scope.

(** ** Outcomes of python calls *)

Inductive py_exn : Type :=
  | ValueError (msg : string)
  | ZeroDivisionError
  | KeyError (labels : list string).

Inductive outcome (A : Type) : Type :=
  | Returns (a : A)
  | Raises (e : py_exn).
Arguments Returns {A} a.
Arguments Raises {A} e.

(** Statements in sequence: the first exception ends the run. *)
#[global] Instance outcome_bind : MBind outcome := fun A B f m =>
  match m with
  | Returns a => f a
  | Raises e => Raises e
  end.

(** ** Measures: exact rationals and IEEE special values *)

Module Num.

Inductive fnum : Type :=
  | Fin (q : Qc)
  | PInf
  | NInf
  | NaN.

Definition of_Z (z : Z) : Qc := Q2Qc (inject_Z z).

Definition is_finite (x : fnum) : bool :=
  match x with Fin _ => true | _ => false end.

(** numpy's [true_divide] on float64: a zero divisor yields an infinity whose
    sign is the sign of the dividend, or NaN for [0/0]; nothing is raised. *)
Definition fdiv (a b : fnum) : fnum :=
  match a, b with
  | NaN, _ | _, NaN => NaN
  | Fin x, Fin y =>
      if decide (y = 0%Qc) then
        if decide (x = 0%Qc) then NaN
        else if decide (0 < x)%Qc then PInf else NInf
      else Fin (x / y)%Qc
  | Fin _, (PInf | NInf) => Fin 0%Qc
  | PInf, Fin y => if decide (0 <= y)%Qc then PInf else NInf
  | NInf, Fin y => if decide (0 <= y)%Qc then NInf else PInf
  | (PInf | NInf), (PInf | NInf) => NaN
  end.

Definition fmul (a b : fnum) : fnum :=
  match a, b with
  | NaN, _ | _, NaN => NaN
  | Fin x, Fin y => Fin (x * y)%Qc
  | Fin x, PInf | PInf, Fin x =>
      if decide (x = 0%Qc) then NaN
      else if decide (0 < x)%Qc then PInf else NInf
  | Fin x, NInf | NInf, Fin x =>
      if decide (x = 0%Qc) then NaN
      else if decide (0 < x)%Qc then NInf else PInf
  | PInf, PInf | NInf, NInf => PInf
  | PInf, NInf | NInf, PInf => NaN
  end.

(** Negation, addition and subtraction of float64 values. *)
Definition fneg (a : fnum) : fnum :=
  match a with
  | Fin x => Fin (- x)%Qc
  | PInf => NInf
  | NInf => PInf
  | NaN => NaN
  end.

Definition fadd (a b : fnum) : fnum :=
  match a, b with
  | NaN, _ | _, NaN => NaN
  | Fin x, Fin y => Fin (x + y)%Qc
  | PInf, NInf | NInf, PInf => NaN
  | PInf, _ | _, PInf => PInf
  | NInf, _ | _, NInf => NInf
  end.

Definition fsub (a b : fnum) : fnum := fadd a (fneg b).

(** Comparison of float64 values; every comparison with NaN is false. *)
Definition flt (a b : fnum) : bool :=
  match a, b with
  | NaN, _ | _, NaN => false
  | Fin x, Fin y => bool_decide (x < y)%Qc
  | NInf, (Fin _ | PInf) => true
  | Fin _, PInf => true
  | _, _ => false
  end.

Definition fle (a b : fnum) : bool :=
  match a, b with
  | NaN, _ | _, NaN => false
  | Fin x, Fin y => bool_decide (x <= y)%Qc
  | NInf, _ => true
  | _, PInf => true
  | _, _ => false
  end.

(** *** Rounding to two decimals

    [Series.round(2)] is numpy's [rint(x * 100) / 100], computed on the
    binary64 value of [x].  Here [x] is the exact rational that value stands
    for.  When [x * 100] is not halfway between two integers the result is the
    nearest hundredth.  When it is exactly halfway, the binary64 product lies
    above the half, below it, or on it (where [rint] takes the even
    neighbour), by a representation error this model does not carry:
    [4.69 / 2] is stored as 2.35, and the mean of three distances of 1.355
    as 1.35 beside their minimum 1.36.  The neighbour taken at a tie is
    therefore an input, [up]. *)
Definition rint (up : bool) (q : Qc) : Z :=
  let f := Qfloor q in
  let frac := (q - of_Z f)%Qc in
  let half := Q2Qc (1 # 2) in
  if decide (frac < half)%Qc then f
  else if decide (half < frac)%Qc then f + 1
  else if up then f + 1 else f.

Definition round2 (up : bool) (q : Qc) : Qc :=
  (of_Z (rint up (q * of_Z 100)) / of_Z 100)%Qc.

Definition fround2 (up : bool) (x : fnum) : fnum :=
  match x with
  | Fin q => Fin (round2 up q)
  | other => other
  end.

(** The neighbour taken at a tie by each cell of a table that is rounded as a
    whole: by column label and row label. *)
Definition tie_breaks (L : Type) : Type := string -> L -> bool.

(** [Series.sum()]: accumulation from zero. *)
Definition series_sum (l : list Qc) : Qc := foldl Qcplus 0%Qc l.

(** [Series.mean()]: NaN on an empty series. *)
Definition series_mean (l : list Qc) : fnum :=
  match l with
  | [] => NaN
  | _ => Fin (series_sum l / of_Z (Z.of_nat (length l)))%Qc
  end.

(** *** Scalars

    [read_csv] gives the columns of a CSV that has a header and no rows the
    dtype [object], and [sum()] of such a column is the python int [0].  On a
    frame with rows the measure columns are numeric and [sum()] returns a
    numpy scalar, also over a selection without rows.  [len()] is a python
    int.  Python's [/] on two ints raises [ZeroDivisionError] on a zero
    divisor; with a numpy scalar on either side it is numpy's [true_divide]. *)
Inductive scalar : Type :=
  | PyInt (z : Z)
  | Np (x : fnum).

Definition scalar_value (s : scalar) : fnum :=
  match s with
  | PyInt z => Fin (of_Z z)
  | Np x => x
  end.


Definition truediv (a b : scalar) : outcome fnum :=
  match a, b with
  | PyInt x, PyInt y =>
      if decide (y = 0) then Raises ZeroDivisionError
      else Returns (Fin (of_Z x / of_Z y)%Qc)
  | _, _ => Returns (fdiv (scalar_value a) (scalar_value b))
  end.

End Num.
Export Num.


(** ** The hour categorizers *)

(** [get_time_period] of [create_hour_dimension]; [categorize_time_period] of
    [load_and_prepare_data] has the same body. *)
Definition get_time_period (hour : Z) : string :=
  if decide (0 <= hour < 6) then "Late Night"
  else if decide (6 <= hour < 8) then "Early Morning"
  else if decide (8 <= hour < 10) then "Morning Rush"
  else if decide (10 <= hour < 12) then "Late Morning"
  else if decide (12 <= hour < 14) then "Lunch Time"
  else if decide (14 <= hour < 17) then "Afternoon"
  else if decide (17 <= hour < 19) then "Evening Rush"
  else if decide (19 <= hour < 22) then "Evening"
  else "Night".

Definition categorize_time_period (hour : Z) : string :=
  if decide (0 <= hour < 6) then "Late Night"
  else if decide (6 <= hour < 8) then "Early Morning"
  else if decide (8 <= hour < 10) then "Morning Rush"
  else if decide (10 <= hour < 12) then "Late Morning"
  else if decide (12 <= hour < 14) then "Lunch Time"
  else if decide (14 <= hour < 17) then "Afternoon"
  else if decide (17 <= hour < 19) then "Evening Rush"
  else if decide (19 <= hour < 22) then "Evening"
  else "Night".

(** One application of the categorizer, as [Series.apply] performs it per
    element: the body has no [raise] and compares integers only. *)
Definition call_get_time_period (hour : Z) : outcome string :=
  Returns (get_time_period hour).

Definition call_categorize_time_period (hour : Z) : outcome string :=
  Returns (categorize_time_period hour).

(** [Series.isin] on an integer column, [Series.between] (inclusive). *)
Definition isin (x : Z) (values : list Z) : bool := bool_decide (x ∈ values).
Definition between (x lo hi : Z) : bool := bool_decide (lo <= x <= hi).

(** [pandas.cut] with its defaults [right=True], [include_lowest=False]: the
    value falls in the first bin [(lo, hi]] that holds it; outside every bin
    the result is missing. *)
Fixpoint cut (bins : list Z) (labels : list string) (x : Z) : option string :=
  match bins, labels with
  | lo :: ((hi :: _) as rest), lab :: labels' =>
      if decide (lo < x <= hi) then Some lab else cut rest labels' x
  | _, _ => None
  end.

(** ** Frames *)

(** One row of the source CSV.  [date] is the calendar day as the number of
    days since 1970-01-01 (the scripts parse the column with [to_datetime]).
    Pass-through columns that no computation reads ([datetime], [temperature],
    [humidity], [precipitation], [wind_speed], [visibility]) are left out. *)
Record ride : Type := mk_ride {
  ride_id : string;
  date : Z;
  hour : Z;
  month : Z;
  quarter : Z;
  day_of_week : Z;
  is_weekend : bool;
  vehicle_type : string;
  from_location : string;
  to_location : string;
  weather_condition : string;
  weather_main : string;
  weather_description : string;
  distance_km : Qc;
  base_price : Qc;
  final_price : Qc;
  surge_multiplier : Qc;
  waiting_time_minutes : Qc;
  price_premium_percent : Qc
}.

Abbreviation frame := (list ride).

(** [df[col].sum()], also through a mask or an element-wise expression:
    [values] is the column that is summed, [df] the frame read from the CSV. *)
Definition column_sum (df : frame) (values : list Qc) : scalar :=
  match df with
  | [] => PyInt 0
  | _ => Np (Fin (series_sum values))
  end.

(** A frame with its index column: [df.index] of a frame read from CSV. *)
Definition with_index {A : Type} (rows : list A) : list (nat * A) :=
  imap (fun i r => (i, r)) rows.

(** [DataFrame.drop_duplicates()] on the columns selected by [key]: a row is
    kept when no earlier row has the same key; kept rows keep their order and
    their index. *)
Fixpoint drop_duplicates_from {A K : Type} `{EqDecision K}
    (key : A -> K) (seen : list K) (rows : list A) : list A :=
  match rows with
  | [] => []
  | r :: rows' =>
      if decide (key r ∈ seen) then drop_duplicates_from key seen rows'
      else r :: drop_duplicates_from key (key r :: seen) rows'
  end.

Definition drop_duplicates {A K : Type} `{EqDecision K}
    (key : A -> K) (rows : list A) : list A :=
  drop_duplicates_from key [] rows.

(** [df[['weather_condition', 'weather_main', 'weather_description']]]: the
    columns both weather dimensions select before [drop_duplicates()]. *)
Definition weather_columns (r : ride) : string * string * string :=
  (weather_condition r, weather_main r, weather_description r).

(** [Series.min()] and [Series.max()] of the date column; [None] is [NaT], the
    result on an empty column. *)
Definition series_min (l : list Z) : option Z :=
  match l with
  | [] => None
  | d :: l' => Some (foldl Z.min d l')
  end.

Definition series_max (l : list Z) : option Z :=
  match l with
  | [] => None
  | d :: l' => Some (foldl Z.max d l')
  end.

(** [pandas.date_range(start, end, freq='D')]: every day from [start] to [end],
    both included; a [NaT] bound is refused. *)
Definition date_range (start stop : option Z) : outcome (list Z) :=
  match start, stop with
  | Some a, Some b => Returns (seqZ a (b - a + 1))
  | _, _ => Raises (ValueError "Neither `start` nor `end` can be NaT")
  end.

(** The proleptic Gregorian calendar behind the [.dt] accessors: year, month
    and day of a day number, and [dayofweek] (Monday is 0; day 0 is a
    Thursday). *)
Definition civil_from_days (z : Z) : Z * Z * Z :=
  let z := z + 719468 in
  let era := z / 146097 in
  let doe := z - era * 146097 in
  let yoe := (doe - doe / 1460 + doe / 36524 - doe / 146096) / 365 in
  let doy := doe - (365 * yoe + yoe / 4 - yoe / 100) in
  let mp := (5 * doy + 2) / 153 in
  let d := doy - (153 * mp + 2) / 5 + 1 in
  let m := if decide (mp < 10) then mp + 3 else mp - 9 in
  let y := yoe + era * 400 in
  (if decide (m <= 2) then y + 1 else y, m, d).

Definition dayofweek (z : Z) : Z := (z + 3) mod 7.

(** ** More column operations *)

(** [Series.unique()]: the distinct values in order of first appearance. *)
Definition unique {A : Type} `{EqDecision A} (l : list A) : list A :=
  drop_duplicates id l.

(** Python's order on [str] (by code point, which on UTF-8 text is the order
    of the bytes), under which [groupby] sorts its group keys. *)
Definition string_le (a b : string) : Prop := String.leb a b = true.

#[global] Instance string_le_dec : RelDecision string_le.
Proof. intros a b. unfold string_le. apply _. Defined.

(** The group keys of [df.groupby(col)]: distinct, sorted. *)
Definition group_keys (column : list string) : list string :=
  merge_sort string_le (unique column).

(** [pandas.cut] on a float column with float bin edges ([right=True]): the
    first bin [(lo, hi]] that holds the value; missing outside every bin and
    for NaN. *)
Fixpoint cut_measure (bins : list fnum) (labels : list string) (x : fnum)
    : option string :=
  match bins, labels with
  | lo :: ((hi :: _) as rest), lab :: labels' =>
      if flt lo x && fle x hi then Some lab else cut_measure rest labels' x
  | _, _ => None
  end.

(** [Series.min()] and [Series.max()] of a float column: NaN when empty. *)
Definition Qc_min (a b : Qc) : Qc := if decide (a <= b)%Qc then a else b.
Definition Qc_max (a b : Qc) : Qc := if decide (a <= b)%Qc then b else a.

Definition measure_min (l : list Qc) : fnum :=
  match l with
  | [] => NaN
  | x :: l' => Fin (foldl Qc_min x l')
  end.

Definition measure_max (l : list Qc) : fnum :=
  match l with
  | [] => NaN
  | x :: l' => Fin (foldl Qc_max x l')
  end.

(** The mean of a boolean column: the share of [True]; NaN when empty. *)
Definition bool_mean (l : list bool) : fnum :=
  series_mean ((fun b : bool => if b then 1%Qc else 0%Qc) <$> l).

(** [needle in s] on [str], and [Series.str.contains] with a literal
    pattern. *)
Fixpoint str_contains (needle s : string) : bool :=
  String.prefix needle s
  || match s with
     | EmptyString => false
     | String _ s' => str_contains needle s'
     end.

(** [str.lower()].  Strings are UTF-8 byte strings; the letters A-Z are
    lowered and every other byte is kept.  The only characters outside ASCII
    whose lower case holds an ASCII letter are U+212A (to k) and U+0130 (to i
    followed by U+0307); no keyword tested below contains k, and none can match
    across the combining mark, so the keyword tests agree with Python's. *)
Definition lower_ascii (c : Ascii.ascii) : Ascii.ascii :=
  let n := Ascii.nat_of_ascii c in
  if (65 <=? n)%nat && (n <=? 90)%nat then Ascii.ascii_of_nat (n + 32) else c.

Fixpoint str_lower (s : string) : string :=
  match s with
  | EmptyString => EmptyString
  | String c s' => String (lower_ascii c) (str_lower s')
  end.

(** A python [dict] literal with [str] keys, in insertion order, and
    [d.get(k)]. *)
Fixpoint dict_get {V : Type} (k : string) (d : list (string * V)) : option V :=
  match d with
  | [] => None
  | (k', v) :: d' => if decide (k' = k) then Some v else dict_get k d'
  end.

(** ** [PowerBIDataPreparation] (power_bi_data_preparation.py) *)

Module PowerBI.

(** *** [create_fact_table] *)

Record fact_row : Type := mk_fact_row {
  f_ride_id : string;
  f_date : Z;
  f_vehicle_type : string;
  f_location_route_id : string;
  f_weather_condition : string;
  f_distance_km : Qc;
  f_base_price : Qc;
  f_final_price : Qc;
  f_surge_multiplier : Qc;
  f_waiting_time_minutes : Qc;
  f_price_premium_percent : Qc;
  f_surge_amount : Qc;
  f_price_per_km : fnum;
  f_revenue_per_minute : fnum
}.

(** [df['from_location'] + " → " + df['to_location']] of
    [load_and_prepare_source_data]. *)
Definition location_route_id (r : ride) : string :=
  from_location r ++ " → " ++ to_location r.

(** The labels of [self.df] after [load_and_prepare_source_data]: those of
    the CSV and the four calculated columns. *)
Definition prepared_columns (csv_columns : list string) : list string :=
  (csv_columns
   ++ ["revenue_category"; "surge_category"; "location_route_id";
       "weather_condition_id"])%list.

(** The selection list of [create_fact_table].  It names the three measures
    that the method computes only after the selection. *)
Definition fact_columns : list string :=
  [ "ride_id"; "datetime"; "date"; "vehicle_type"; "location_route_id";
    "weather_condition"; "distance_km"; "base_price"; "final_price";
    "surge_multiplier"; "waiting_time_minutes"; "price_premium_percent";
    "temperature"; "humidity"; "precipitation"; "wind_speed"; "visibility";
    "surge_amount"; "price_per_km"; "revenue_per_minute" ].

(** The derived measures are computed from the unrounded columns (and replace
    what the selection copied); the listed numeric columns are rounded to two
    decimals afterwards.  [i] is the row's index label. *)
Definition fact_of_ride (ties : tie_breaks nat) (i : nat) (r : ride) : fact_row :=
  let surge_amount := (final_price r - base_price r)%Qc in
  let price_per_km := fdiv (Fin (final_price r)) (Fin (distance_km r)) in
  let estimated_trip_time := (distance_km r * of_Z 3)%Qc in
  let total_time := (waiting_time_minutes r + estimated_trip_time)%Qc in
  let revenue_per_minute := fdiv (Fin (final_price r)) (Fin total_time) in
  {| f_ride_id := ride_id r;
     f_date := date r;
     f_vehicle_type := vehicle_type r;
     f_location_route_id := location_route_id r;
     f_weather_condition := weather_condition r;
     f_distance_km := round2 (ties "distance_km" i) (distance_km r);
     f_base_price := round2 (ties "base_price" i) (base_price r);
     f_final_price := round2 (ties "final_price" i) (final_price r);
     f_surge_multiplier := round2 (ties "surge_multiplier" i) (surge_multiplier r);
     f_waiting_time_minutes := waiting_time_minutes r;
     f_price_premium_percent :=
       round2 (ties "price_premium_percent" i) (price_premium_percent r);
     f_surge_amount := round2 (ties "surge_amount" i) surge_amount;
     f_price_per_km := fround2 (ties "price_per_km" i) price_per_km;
     f_revenue_per_minute := fround2 (ties "revenue_per_minute" i) revenue_per_minute |}.

(** [self.df[fact_columns]] comes first and raises [KeyError] with the labels
    the frame does not have. *)
Definition create_fact_table (ties : tie_breaks nat) (csv_columns : list string)
    (df : frame) : outcome (list fact_row) :=
  match filter (fun label => label ∉ prepared_columns csv_columns) fact_columns with
  | [] => Returns (imap (fact_of_ride ties) df)
  | missing => Raises (KeyError missing)
  end.

(** *** [create_time_dimension] *)

Record time_row : Type := mk_time_row {
  t_date : Z;
  t_year : Z;
  t_quarter : Z;
  t_month : Z;
  t_day_of_month : Z;
  t_day_of_week : Z;
  t_is_weekend : bool;
  t_season : string;
  t_is_holiday : bool;
  t_date_key : Z
}.

Definition get_season (month : Z) : string :=
  if bool_decide (month ∈ [12; 1; 2]) then "Winter"
  else if bool_decide (month ∈ [3; 4; 5]) then "Spring"
  else if bool_decide (month ∈ [6; 7; 8]) then "Summer"
  else "Autumn".

(** The literal list of holiday dates, as (year, month, day). *)
Definition indian_holidays : list (Z * Z * Z) :=
  [ (2024, 1, 26); (2024, 3, 8); (2024, 4, 14); (2024, 8, 15);
    (2024, 10, 2); (2024, 10, 31); (2024, 12, 25) ].

(** The attribute columns are computed row by row from [date]. The name
    columns, [week_of_year], [day_of_year], the month and quarter boundary
    flags and the fiscal aliases are left out. *)
Definition time_row_of_date (d : Z) : time_row :=
  let '(y, m, dd) := civil_from_days d in
  let dow := dayofweek d in
  {| t_date := d;
     t_year := y;
     t_quarter := (m - 1) / 3 + 1;
     t_month := m;
     t_day_of_month := dd;
     t_day_of_week := dow;
     t_is_weekend := isin dow [5; 6];
     t_season := get_season m;
     t_is_holiday := bool_decide ((y, m, dd) ∈ indian_holidays);
     t_date_key := y * 10000 + m * 100 + dd |}.

Definition create_time_dimension (df : frame) : outcome (list time_row) :=
  let dates := date <$> df in
  match date_range (series_min dates) (series_max dates) with
  | Returns unique_dates => Returns (time_row_of_date <$> unique_dates)
  | Raises e => Raises e
  end.

(** *** [create_hour_dimension] *)

Record hour_row : Type := mk_hour_row {
  h_hour : Z;
  h_time_period : string;
  h_is_business_hour : bool;
  h_is_rush_hour : bool;
  h_is_peak_demand : bool;
  h_hour_category : option string
}.

Definition hour_row_of (h : Z) : hour_row :=
  {| h_hour := h;
     h_time_period := get_time_period h;
     h_is_business_hour := between h 9 18;
     h_is_rush_hour := isin h [8; 9; 17; 18];
     h_is_peak_demand := isin h [8; 9; 17; 18; 19];
     h_hour_category :=
       cut [-1; 6; 12; 18; 24] ["Night"; "Morning"; "Afternoon"; "Evening"] h |}.

(** The builder reads nothing of the source frame: [hours = list(range(24))]. *)
Definition create_hour_dimension (df : frame) : list hour_row :=
  hour_row_of <$> seqZ 0 24.

(** *** [create_weather_dimension] *)

Record weather_row : Type := mk_weather_row {
  w_index : nat;
  w_weather_condition : string;
  w_weather_main : string;
  w_weather_description : string;
  w_weather_id : nat;
  w_impact_category : string;
  w_severity_score : Z;
  w_expected_surge_multiplier : Qc
}.

Definition categorize_weather_impact (condition : string) : string :=
  if bool_decide (condition ∈ ["Rain"; "Thunderstorm"]) then "High Impact"
  else if bool_decide (condition ∈ ["Clouds"; "Haze"]) then "Medium Impact"
  else if bool_decide (condition ∈ ["Clear"]) then "Low Impact"
  else "Unknown".

Definition severity_map : gmap string Z :=
  <["Clear" := 1]> (<["Clouds" := 2]> (<["Haze" := 3]> (<["Rain" := 4]>
  (<["Thunderstorm" := 5]> ∅)))).

(** [severity_map.get(condition, 0)] *)
Definition get_weather_severity (condition : string) : Z :=
  default 0 (severity_map !! condition).

Definition surge_map : gmap string Qc :=
  <["Clear" := Q2Qc (11 # 10)]> (<["Clouds" := Q2Qc (13 # 10)]>
  (<["Haze" := Q2Qc (14 # 10)]> (<["Rain" := Q2Qc (18 # 10)]>
  (<["Thunderstorm" := Q2Qc (22 # 10)]> ∅)))).

(** [surge_map.get(condition, 1.0)] *)
Definition get_expected_surge (condition : string) : Qc :=
  default 1%Qc (surge_map !! condition).

Definition weather_row_of (ir : nat * ride) : weather_row :=
  let '(i, r) := ir in
  {| w_index := i;
     w_weather_condition := weather_condition r;
     w_weather_main := weather_main r;
     w_weather_description := weather_description r;
     w_weather_id := i + 1;
     w_impact_category := categorize_weather_impact (weather_condition r);
     w_severity_score := get_weather_severity (weather_condition r);
     w_expected_surge_multiplier := get_expected_surge (weather_condition r) |}.

Definition create_weather_dimension (df : frame) : list weather_row :=
  let weather_combinations :=
    drop_duplicates (fun ir => weather_columns ir.2) (with_index df) in
  weather_row_of <$> weather_combinations.

End PowerBI.

(** ** The other builders of [PowerBIDataPreparation] *)

Module PowerBIDims.

(** *** Calculated columns of [load_and_prepare_source_data] *)

Definition revenue_category (r : ride) : option string :=
  cut_measure [Fin (of_Z 0); Fin (of_Z 50); Fin (of_Z 100); Fin (of_Z 200); PInf]
              ["Low"; "Medium"; "High"; "Premium"]
              (Fin (final_price r)).

Definition surge_category (r : ride) : option string :=
  cut_measure [Fin (of_Z 0); Fin (Q2Qc (12 # 10)); Fin (Q2Qc (15 # 10));
               Fin (of_Z 2); PInf]
              ["Normal"; "Low Surge"; "High Surge"; "Peak Surge"]
              (Fin (surge_multiplier r)).

Definition weather_condition_id (r : ride) : string :=
  weather_condition r ++ "_" ++ weather_description r.

(** *** [create_vehicle_dimension] *)

Inductive cell : Type :=
  | CInt (z : Z)
  | CStr (s : string).

Definition vehicle_characteristics : list (string * list (string * cell)) :=
  [ ("bike", [ ("capacity", CInt 1); ("base_fare_per_km", CInt 12);
               ("surge_sensitivity", CStr "High"); ("weather_impact", CStr "High");
               ("category", CStr "Two Wheeler") ]);
    ("auto", [ ("capacity", CInt 3); ("base_fare_per_km", CInt 18);
               ("surge_sensitivity", CStr "Medium"); ("weather_impact", CStr "Medium");
               ("category", CStr "Three Wheeler") ]);
    ("cab",  [ ("capacity", CInt 4); ("base_fare_per_km", CInt 25);
               ("surge_sensitivity", CStr "Low"); ("weather_impact", CStr "Low");
               ("category", CStr "Four Wheeler") ]) ].

(** A row holds its two base columns and the attribute cells assigned to it;
    an attribute column the row was never assigned is missing (NaN) there. *)
Record vehicle_row : Type := mk_vehicle_row {
  v_vehicle_type : string;
  v_vehicle_id : nat;
  v_attrs : gmap string cell
}.

Record vehicle_table : Type := mk_vehicle_table {
  vt_columns : list string;
  vt_rows : list vehicle_row
}.

(** [vehicle_dim.loc[vehicle_dim['vehicle_type'] == vehicle, key] = value]:
    the column is created when it does not exist yet. *)
Definition loc_assign (vehicle key : string) (value : cell) (t : vehicle_table)
    : vehicle_table :=
  {| vt_columns :=
       if decide (key ∈ vt_columns t) then vt_columns t else vt_columns t ++ [key];
     vt_rows :=
       (fun r => if decide (v_vehicle_type r = vehicle)
                 then {| v_vehicle_type := v_vehicle_type r;
                         v_vehicle_id := v_vehicle_id r;
                         v_attrs := <[key := value]> (v_attrs r) |}
                 else r) <$> vt_rows t |}.

Definition create_vehicle_dimension (df : frame) : vehicle_table :=
  let vehicle_types := unique (vehicle_type <$> df) in
  let vehicle_dim :=
    {| vt_columns := ["vehicle_type"; "vehicle_id"];
       vt_rows := imap (fun i v => {| v_vehicle_type := v;
                                      v_vehicle_id := i + 1;
                                      v_attrs := ∅ |}) vehicle_types |} in
  foldl (fun t vehicle =>
           match dict_get vehicle vehicle_characteristics with
           | Some chars =>
               foldl (fun t' kv => loc_assign vehicle kv.1 kv.2 t') t chars
           | None => t
           end)
        vehicle_dim vehicle_types.

(** *** [create_location_dimension] *)

Definition any_keyword (keywords : list string) (s : string) : bool :=
  existsb (fun keyword => str_contains keyword s) keywords.

Definition categorize_location (location : string) : string :=
  if str_contains "VIT" location then "University"
  else if any_keyword ["hospital"; "medical"] (str_lower location) then "Healthcare"
  else if any_keyword ["station"; "railway"] (str_lower location)
       then "Transportation Hub"
  else if any_keyword ["road"; "street"] (str_lower location)
       then "Residential/Commercial"
  else if any_keyword ["bus"; "stand"] (str_lower location) then "Bus Terminal"
  else "General".

Record location_row : Type := mk_location_row {
  l_location_name : string;
  l_location_id : nat;
  l_location_category : string
}.

Definition location_dim (df : frame) : list location_row :=
  let all_locations := unique ((from_location <$> df) ++ (to_location <$> df)) in
  imap (fun i name => {| l_location_name := name;
                         l_location_id := i + 1;
                         l_location_category := categorize_location name |})
       all_locations.

(** The aggregates of one group of [groupby('location_route_id').agg(...)],
    after [.round(2)] (which leaves the integer count as it is).  The means
    are computed exactly; [up] gives the neighbour each rounded column takes
    at a tie. *)
Record route_stats : Type := mk_route_stats {
  s_avg_distance : fnum;
  s_min_distance : fnum;
  s_max_distance : fnum;
  s_avg_price : fnum;
  s_total_trips : nat
}.

Definition rides_of_route (id : string) (df : frame) : frame :=
  filter (fun r => PowerBI.location_route_id r = id) df.

Definition agg_route (up : string -> bool) (g : frame) : route_stats :=
  {| s_avg_distance := fround2 (up "avg_distance") (series_mean (distance_km <$> g));
     s_min_distance := fround2 (up "min_distance") (measure_min (distance_km <$> g));
     s_max_distance := fround2 (up "max_distance") (measure_max (distance_km <$> g));
     s_avg_price := fround2 (up "avg_price") (series_mean (final_price <$> g));
     s_total_trips := length g |}.

(** The rows of [route_stats] are labelled by the route id. *)
Definition route_stats_of (ties : tie_breaks string) (df : frame)
    : list (string * route_stats) :=
  (fun id => (id, agg_route (fun label => ties label id) (rides_of_route id df)))
  <$> group_keys (PowerBI.location_route_id <$> df).

Record route_row : Type := mk_route_row {
  r_from_location : string;
  r_to_location : string;
  r_location_route_id : string;
  r_route_id : nat;
  r_stats : route_stats;
  r_distance_category : option string;
  r_popularity_category : option string
}.

Definition route_columns (r : ride) : string * string * string :=
  (from_location r, to_location r, PowerBI.location_route_id r).

(** [route_dim.merge(route_stats, left_on='location_route_id',
    right_index=True)]: an inner join that keeps the order of the left rows;
    the two categories are cut from the merged columns. *)
Definition route_dim (ties : tie_breaks string) (df : frame) : list route_row :=
  let route_combinations :=
    drop_duplicates (fun ir => route_columns ir.2) (with_index df) in
  let stats := route_stats_of ties df in
  omap (fun ir : nat * ride =>
          match dict_get (PowerBI.location_route_id ir.2) stats with
          | Some s =>
              Some {| r_from_location := from_location ir.2;
                      r_to_location := to_location ir.2;
                      r_location_route_id := PowerBI.location_route_id ir.2;
                      r_route_id := ir.1 + 1;
                      r_stats := s;
                      r_distance_category :=
                        cut_measure [Fin (of_Z 0); Fin (of_Z 5); Fin (of_Z 10);
                                     Fin (of_Z 15); PInf]
                                    ["Short"; "Medium"; "Long"; "Extra Long"]
                                    (s_avg_distance s);
                      r_popularity_category :=
                        cut_measure [Fin (of_Z 0); Fin (of_Z 50); Fin (of_Z 200);
                                     Fin (of_Z 500); PInf]
                                    ["Low"; "Medium"; "High"; "Very High"]
                                    (Fin (of_Z (Z.of_nat (s_total_trips s)))) |}
          | None => None
          end)
       route_combinations.

Definition create_location_dimension (ties : tie_breaks string) (df : frame)
    : list location_row * list route_row :=
  (location_dim df, route_dim ties df).

End PowerBIDims.


(** ** quick_analysis.py *)

Module QuickAnalysis.

Definition is_morning_rush (r : ride) : bool :=
  bool_decide (hour r >= 8) && bool_decide (hour r <= 9).
Definition is_evening_rush (r : ride) : bool :=
  bool_decide (hour r >= 17) && bool_decide (hour r <= 18).
Definition is_rush_hour (r : ride) : bool :=
  is_morning_rush r || is_evening_rush r.

(** *** Key revenue KPIs *)

Definition total_revenue (df : frame) : scalar := column_sum df (final_price <$> df).

(** *** The fact table and the dimensions exported to the workbook *)

Record fact_row : Type := mk_fact_row {
  f_ride : ride;
  f_surge_amount : Qc;
  f_price_per_km : fnum;
  f_route : string
}.

(** The selected columns are copied as they are ([f_ride]); three calculated
    fields are added. *)
Definition fact_of_ride (r : ride) : fact_row :=
  {| f_ride := r;
     f_surge_amount := (final_price r - base_price r)%Qc;
     f_price_per_km := fdiv (Fin (final_price r)) (Fin (distance_km r));
     f_route := from_location r ++ " → " ++ to_location r |}.

Definition fact_table (df : frame) : list fact_row := fact_of_ride <$> df.

(** [df[['date', 'month', 'quarter', 'day_of_week', 'is_weekend']]] *)
Definition time_columns (r : ride) : Z * Z * Z * Z * bool :=
  (date r, month r, quarter r, day_of_week r, is_weekend r).

Definition time_dim (df : frame) : list (Z * Z * Z * Z * bool) :=
  drop_duplicates id (time_columns <$> df).

Record hour_row : Type := mk_hour_row {
  h_hour : Z;
  h_time_period : string;
  h_is_rush_hour : bool
}.

Definition time_period (h : Z) : string :=
  if decide (h < 6) then "Late Night"
  else if decide (h < 8) then "Early Morning"
  else if decide (h < 10) then "Morning Rush"
  else if decide (h < 12) then "Late Morning"
  else if decide (h < 14) then "Lunch Time"
  else if decide (h < 17) then "Afternoon"
  else if decide (h < 19) then "Evening Rush"
  else if decide (h < 22) then "Evening"
  else "Night".

Definition hour_dim : list hour_row :=
  (fun h => {| h_hour := h;
               h_time_period := time_period h;
               h_is_rush_hour := isin h [8; 9; 17; 18] |}) <$> seqZ 0 24.

Definition impact_level_map : gmap string string :=
  <["Clear" := "Low"]> (<["Clouds" := "Medium"]> (<["Haze" := "Medium"]>
  (<["Rain" := "High"]> (<["Thunderstorm" := "Very High"]> ∅)))).

Record weather_row : Type := mk_weather_row {
  w_weather_condition : string;
  w_weather_main : string;
  w_weather_description : string;
  w_impact_level : option string
}.

(** [Series.map(dict)]: a key the dict lacks maps to a missing value. *)
Definition weather_dim (df : frame) : list weather_row :=
  (fun r => {| w_weather_condition := weather_condition r;
               w_weather_main := weather_main r;
               w_weather_description := weather_description r;
               w_impact_level := impact_level_map !! weather_condition r |})
  <$> drop_duplicates weather_columns df.

End QuickAnalysis.


(** ** [RapidoBusinessIntelligence] (comprehensive_bi_analysis.py) *)

Module Comprehensive.

Definition is_morning_rush (r : ride) : bool :=
  bool_decide (hour r >= 8) && bool_decide (hour r <= 9).
Definition is_evening_rush (r : ride) : bool :=
  bool_decide (hour r >= 17) && bool_decide (hour r <= 18).
Definition is_rush_hour (r : ride) : bool :=
  is_morning_rush r || is_evening_rush r.

(** [df[mask]]: the rows whose mask is set. *)
Definition select (mask : ride -> bool) (df : frame) : frame :=
  filter (fun r => mask r = true) df.

(** [Series.value_counts().to_dict()] *)
Definition value_counts (l : list Z) : gmap Z nat :=
  foldr (fun h m => <[h := S (default 0%nat (m !! h))]> m) ∅ l.

(** *** The expressions of [calculate_all_kpis] *)

(** [df.groupby(key)[col].sum()]: one sum per group key, keys sorted;
    [.to_dict()] turns it into a dict. *)
Definition groupby_sum (key : ride -> string) (col : ride -> Qc) (df : frame)
    : list (string * Qc) :=
  (fun k => (k, series_sum (col <$> filter (fun r => key r = k) df)))
  <$> group_keys (key <$> df).

Definition revenue_by_vehicle (df : frame) : gmap string Qc :=
  list_to_map (groupby_sum vehicle_type final_price df).

(** [self.df['final_price'].sum() / self.df['distance_km'].sum()] *)
Definition revenue_per_km (df : frame) : outcome fnum :=
  truediv (column_sum df (final_price <$> df)) (column_sum df (distance_km <$> df)).

(** [Series.value_counts(normalize=True).to_dict()]: the share of each value
    among the rows. *)
Definition fleet_utilization_by_vehicle (df : frame) : gmap string Qc :=
  list_to_map
    ((fun v => (v, (of_Z (Z.of_nat (length (filter (fun r => vehicle_type r = v) df)))
                    / of_Z (Z.of_nat (length df)))%Qc))
     <$> unique (vehicle_type <$> df)).

(** The two entries of [weekend_vs_weekday_performance]. *)
Definition weekend_revenue (df : frame) : Qc :=
  series_sum (final_price <$> select is_weekend df).
Definition weekday_revenue (df : frame) : Qc :=
  series_sum (final_price <$> select (fun r => negb (is_weekend r)) df).

Definition rush_hour_premium (df : frame) : fnum :=
  let rush_hour_premium := series_mean (final_price <$> select is_rush_hour df) in
  let off_peak_premium :=
    series_mean (final_price <$> select (fun r => negb (is_rush_hour r)) df) in
  fmul (fdiv (fsub rush_hour_premium off_peak_premium) off_peak_premium)
       (Fin (of_Z 100)).

(** [self.df[self.df['surge_multiplier'] > 1.2]['final_price'].sum()
     / self.df['final_price'].sum()] *)
Definition surge_pricing_effectiveness (df : frame) : outcome fnum :=
  truediv
    (column_sum df
       (final_price
          <$> select (fun r => bool_decide (Q2Qc (12 # 10) < surge_multiplier r)%Qc) df))
    (column_sum df (final_price <$> df)).

(** [vehicle_revenue_share / total_revenue * 100], where [total_revenue] is
    the sum of the group sums. *)
Definition revenue_diversification (df : frame) : gmap string fnum :=
  let vehicle_revenue_share := groupby_sum vehicle_type final_price df in
  let total_revenue := series_sum (vehicle_revenue_share.*2) in
  list_to_map
    ((fun kv : string * Qc =>
        (kv.1, fmul (fdiv (Fin kv.2) (Fin total_revenue)) (Fin (of_Z 100))))
     <$> vehicle_revenue_share).

Definition customer_satisfaction_proxy (df : frame) : fnum :=
  fmul (fadd (fmul (bool_mean ((fun r => bool_decide (waiting_time_minutes r <= of_Z 5)%Qc)
                                 <$> df))
                   (Fin (Q2Qc (6 # 10))))
             (fmul (bool_mean ((fun r => bool_decide (price_premium_percent r <= of_Z 30)%Qc)
                                 <$> df))
                   (Fin (Q2Qc (4 # 10)))))
       (Fin (of_Z 100)).

(** *** [calculate_all_kpis] *)

(** The entries of [self.kpis] that the properties below are about, as the
    method returns them.  It returns on a frame with rows only (see
    [revenue_per_km]), so the sums it holds are numpy scalars. *)
Record kpis : Type := mk_kpis {
  kpi_total_revenue : Qc;
  kpi_avg_revenue_per_ride : fnum;
  kpi_revenue_by_vehicle : gmap string Qc;
  kpi_surge_revenue_impact : Qc;
  kpi_revenue_per_km : fnum;
  kpi_total_trip_volume : nat;
  kpi_fleet_utilization_by_vehicle : gmap string Qc;
  kpi_peak_hour_trip_distribution : gmap Z nat;
  kpi_morning_rush_demand : nat;
  kpi_evening_rush_demand : nat;
  kpi_weekend_revenue : Qc;
  kpi_weekday_revenue : Qc;
  kpi_rush_hour_premium : fnum;
  kpi_rain_vs_clear_multiplier : fnum;
  kpi_storm_revenue_boost : fnum;
  kpi_surge_pricing_effectiveness : fnum;
  kpi_revenue_diversification : gmap string fnum;
  kpi_customer_satisfaction_proxy : fnum
}.

(** The assignments in the order of the method; the two divisions of column
    sums are the statements that can raise. *)
Definition calculate_all_kpis (df : frame) : outcome kpis :=
  let morning_rush := select is_morning_rush df in
  let evening_rush := select is_evening_rush df in
  let rain_rides :=
    select (fun r => bool_decide (weather_condition r = "Rain")) df in
  let clear_rides :=
    select (fun r => bool_decide (weather_condition r = "Clear")) df in
  let storm_rides :=
    select (fun r => bool_decide (weather_condition r = "Thunderstorm")) df in
  per_km ← revenue_per_km df;
  surge_effectiveness ← surge_pricing_effectiveness df;
  Returns
    {| kpi_total_revenue := series_sum (final_price <$> df);
       kpi_avg_revenue_per_ride := series_mean (final_price <$> df);
       kpi_revenue_by_vehicle := revenue_by_vehicle df;
       kpi_surge_revenue_impact :=
         series_sum ((fun r => final_price r - base_price r)%Qc <$> df);
       kpi_revenue_per_km := per_km;
       kpi_total_trip_volume := length df;
       kpi_fleet_utilization_by_vehicle := fleet_utilization_by_vehicle df;
       kpi_peak_hour_trip_distribution :=
         value_counts (hour <$> select is_rush_hour df);
       kpi_morning_rush_demand := length morning_rush;
       kpi_evening_rush_demand := length evening_rush;
       kpi_weekend_revenue := weekend_revenue df;
       kpi_weekday_revenue := weekday_revenue df;
       kpi_rush_hour_premium := rush_hour_premium df;
       kpi_rain_vs_clear_multiplier :=
         if decide (0 < length clear_rides)%nat
         then fdiv (series_mean (surge_multiplier <$> rain_rides))
                   (series_mean (surge_multiplier <$> clear_rides))
         else Fin 0%Qc;
       kpi_storm_revenue_boost :=
         if decide (0 < length storm_rides)%nat
         then series_mean (surge_multiplier <$> storm_rides)
         else Fin 0%Qc;
       kpi_surge_pricing_effectiveness := surge_effectiveness;
       kpi_revenue_diversification := revenue_diversification df;
       kpi_customer_satisfaction_proxy := customer_satisfaction_proxy df |}.


(** *** [analyze_weather_impact] *)

(** The entries of [rain_vs_clear_comparison].  The three guarded entries are
    the python int [0] without clear-weather rows; [demand_difference] is a
    difference of two python ints. *)
Record rain_vs_clear : Type := mk_rain_vs_clear {
  surge_difference : fnum;
  price_difference : fnum;
  demand_difference : Z;
  waiting_time_difference : fnum
}.

Definition rain_vs_clear_comparison (df : frame) : rain_vs_clear :=
  let rain_data := select (fun r => bool_decide (weather_condition r = "Rain")) df in
  let clear_data := select (fun r => bool_decide (weather_condition r = "Clear")) df in
  {| surge_difference :=
       if decide (0 < length clear_data)%nat
       then fsub (series_mean (surge_multiplier <$> rain_data))
                 (series_mean (surge_multiplier <$> clear_data))
       else Fin 0%Qc;
     price_difference :=
       if decide (0 < length clear_data)%nat
       then fsub (series_mean (final_price <$> rain_data))
                 (series_mean (final_price <$> clear_data))
       else Fin 0%Qc;
     demand_difference := Z.of_nat (length rain_data) - Z.of_nat (length clear_data);
     waiting_time_difference :=
       if decide (0 < length clear_data)%nat
       then fsub (series_mean (waiting_time_minutes <$> rain_data))
                 (series_mean (waiting_time_minutes <$> clear_data))
       else Fin 0%Qc |}.

(** [len(extreme_weather) / len(self.df) * 100] of [extreme_analysis]: a
    division of two python ints. *)
Definition extreme_weather_share (df : frame) : outcome fnum :=
  let extreme_weather :=
    select (fun r => bool_decide (weather_condition r ∈ ["Thunderstorm"; "Rain"])) df in
  share ← truediv (PyInt (Z.of_nat (length extreme_weather)))
                  (PyInt (Z.of_nat (length df)));
  Returns (fmul share (Fin (of_Z 100))).

End Comprehensive.

(** ** Workbook sheets *)

(** A sheet as [read_excel] returns it: the labels of the header row and the
    rows of cells; a cell without value is missing. *)
Record sheet : Type := mk_sheet {
  sheet_columns : list string;
  sheet_rows : list (list (option string))
}.

(** The position of a label among the columns; [df[label]] raises [KeyError]
    without one. *)
Definition column_position (label : string) (s : sheet) : option nat :=
  fst <$> list_find (fun c => c = label) (sheet_columns s).

Definition cell_at (j : nat) (row : list (option string)) : option string :=
  mjoin (row !! j).

(** ** More of quick_analysis.py *)

Module QuickAnalysisMore.

(** The rain-versus-clear comparison is computed (and printed) only inside
    [if len(rain_data) > 0 and len(clear_data) > 0:]. *)
Definition surge_difference (df : frame) : option fnum :=
  let rain_data := filter (fun r => weather_condition r = "Rain") df in
  let clear_data := filter (fun r => weather_condition r = "Clear") df in
  if decide ((0 < length rain_data)%nat /\ (0 < length clear_data)%nat)
  then Some (fdiv (series_mean (surge_multiplier <$> rain_data))
                  (series_mean (surge_multiplier <$> clear_data)))
  else None.

(** [df[from.str.contains('VIT', na=False) | to.str.contains('VIT', na=False)]];
    the same selection is [vit_routes] of [calculate_all_kpis]. *)
Definition vit_routes (df : frame) : frame :=
  filter (fun r => (str_contains "VIT" (from_location r)
                    || str_contains "VIT" (to_location r)) = true) df.

(** [weather_dim.to_excel(writer, sheet_name='DimWeather', index=False)]: the
    header row holds the labels of the frame. *)
Definition dim_weather_sheet (df : frame) : sheet :=
  {| sheet_columns :=
       ["weather_condition"; "weather_main"; "weather_description"; "impact_level"];
     sheet_rows :=
       (fun w => [ Some (QuickAnalysis.w_weather_condition w);
                   Some (QuickAnalysis.w_weather_main w);
                   Some (QuickAnalysis.w_weather_description w);
                   QuickAnalysis.w_impact_level w ])
       <$> QuickAnalysis.weather_dim df |}.

End QuickAnalysisMore.

(** ** The repair scripts of the weather dimension *)

(** fix_weather_dimension.py reads the [DimWeather] sheet of the workbook and
    addresses its columns by the labels [Column1] and [Column4]. *)
Module FixWeatherDimension.

(** [dim_weather.groupby('Column1')] and
    [dim_weather.drop_duplicates(subset=['Column1'], keep='first')]: both
    look the label up and raise [KeyError] when the sheet has no such
    column. *)
Definition dim_weather_clean (dim_weather : sheet) : outcome sheet :=
  match column_position "Column1" dim_weather with
  | None => Raises (KeyError ["Column1"])
  | Some j =>
      Returns {| sheet_columns := sheet_columns dim_weather;
                 sheet_rows := drop_duplicates (cell_at j) (sheet_rows dim_weather) |}
  end.

End FixWeatherDimension.

(** create_clean_weather_dimension.py *)
Module CleanWeatherDimension.

(** [weather_summary]: condition to (main_category, description,
    impact_level, typical_surge). *)
Definition weather_summary : list (string * (string * string * string * string)) :=
  [ ("Clear", ("Clear Sky", "Clear weather conditions", "Low", "1.37x"));
    ("Clouds", ("Cloudy", "Partly to mostly cloudy", "Medium", "1.50x"));
    ("Haze", ("Atmospheric Haze", "Reduced visibility due to haze", "Medium", "1.60x"));
    ("Rain", ("Precipitation", "Light to moderate rainfall", "High", "1.90x"));
    ("Thunderstorm", ("Severe Weather", "Thunderstorms with heavy rain", "Very High",
                      "2.28x")) ].

Definition severity_of_impact : list (string * Z) :=
  [ ("Low", 1); ("Medium", 2); ("High", 3); ("Very High", 4) ].

Record clean_row : Type := mk_clean_row {
  c_weather_condition : string;
  c_main_category : string;
  c_description : string;
  c_impact_level : string;
  c_typical_surge_multiplier : string;
  c_severity_score : option Z
}.

(** One row per item of [weather_summary]; the emoji column is left out.
    The severity is read with [dict[...]], which finds every impact level of
    the literal. *)
Definition dim_weather_clean : list clean_row :=
  (fun item : string * (string * string * string * string) =>
     let '(condition, (main_category, description, impact_level, typical_surge)) := item in
     {| c_weather_condition := condition;
        c_main_category := main_category;
        c_description := description;
        c_impact_level := impact_level;
        c_typical_surge_multiplier := typical_surge;
        c_severity_score := dict_get impact_level severity_of_impact |})
  <$> weather_summary.

(** [set(fact_rides['weather_condition'].unique())
     - set(dim_weather_clean['weather_condition'].unique())] *)
Definition missing_conditions (fact_conditions : list string) : gset string :=
  list_to_set (unique fact_conditions)
  ∖ list_to_set (unique (c_weather_condition <$> dim_weather_clean)).

End CleanWeatherDimension.

(** ** check_route_ranking.py *)

Module RouteRanking.

(** [Series.rank(ascending=False, method='min')]: one more than the number
    of values that are strictly larger. *)
Definition rank_min_desc (values : list Qc) (x : Qc) : nat :=
  S (length (filter (fun y => (x < y)%Qc) values)).

Record route_revenue_row : Type := mk_route_revenue_row {
  rr_route : string;
  rr_total_revenue : Qc;
  rr_total_trips : nat;
  rr_base_revenue : Qc;
  rr_revenue_rank : nat
}.

(** The aggregates per route of the [FactRides] sheet, rounded to two
    decimals, before the rank column is added. *)
Definition route_aggregates (ties : tie_breaks string)
    (fact : list QuickAnalysis.fact_row) : list (string * (Qc * nat * Qc)) :=
  (fun k =>
     let g := filter (fun row => QuickAnalysis.f_route row = k) fact in
     (k, (round2 (ties "Total_Revenue" k)
                 (series_sum ((fun row => final_price (QuickAnalysis.f_ride row)) <$> g)),
          length g,
          round2 (ties "Base_Revenue" k)
                 (series_sum ((fun row => base_price (QuickAnalysis.f_ride row)) <$> g)))))
  <$> group_keys (QuickAnalysis.f_route <$> fact).

Definition route_revenue (ties : tie_breaks string)
    (fact : list QuickAnalysis.fact_row) : list route_revenue_row :=
  let aggregates := route_aggregates ties fact in
  let revenues := (fun a : string * (Qc * nat * Qc) => a.2.1.1) <$> aggregates in
  (fun a : string * (Qc * nat * Qc) =>
     {| rr_route := a.1;
        rr_total_revenue := a.2.1.1;
        rr_total_trips := a.2.1.2;
        rr_base_revenue := a.2.2;
        rr_revenue_rank := rank_min_desc revenues a.2.1.1 |})
  <$> aggregates.

End RouteRanking.


(** ** Vocabulary of the specification *)

(** The bin table the specification describes for the time periods: half-open
    bins [[lo, hi)], in order. *)
Definition spec_time_period_bins : list (Z * Z * string) :=
  [ (0, 6, "Late Night"); (6, 8, "Early Morning"); (8, 10, "Morning Rush");
    (10, 12, "Late Morning"); (12, 14, "Lunch Time"); (14, 17, "Afternoon");
    (17, 19, "Evening Rush"); (19, 22, "Evening"); (22, 24, "Night") ].

(** Bins that follow one another from [start] to [stop]: each is non-empty and
    begins where the previous one ends, so they neither overlap nor leave a
    gap. *)
Fixpoint bins_chain (start : Z) (bins : list (Z * Z * string)) (stop : Z) : Prop :=
  match bins with
  | [] => start = stop
  | (lo, hi, _) :: rest => lo = start /\ lo < hi /\ bins_chain hi rest stop
  end.

(** The four coarse buckets with their right-closed bins [(lo, hi]]. *)
Definition spec_hour_category_bins : list (Z * Z * string) :=
  [ (-1, 6, "Night"); (6, 12, "Morning"); (12, 18, "Afternoon");
    (18, 24, "Evening") ].

Definition known_weather_conditions : list string :=
  ["Clear"; "Clouds"; "Haze"; "Rain"; "Thunderstorm"].

(** Σ over a column, by recursion on the rows. *)
Fixpoint total (l : list Qc) : Qc :=
  match l with
  | [] => 0%Qc
  | x :: l' => (x + total l')%Qc
  end.

(** The mean of a non-empty column. *)
Definition average (l : list Qc) : Qc := (total l / of_Z (Z.of_nat (length l)))%Qc.

(** The surge multipliers of the rides with a given weather condition. *)
Definition surges_of (cond : string) (df : frame) : list Qc :=
  surge_multiplier <$> filter (fun r => weather_condition r = cond) df.

(** [len(set(column))] *)
Definition distinct_count (column : list string) : nat :=
  size (list_to_set column : gset string).

(** ** Sample frames *)

Definition sample_ride (id : string) (day h : Z) (cond descr : string)
    (dist base final : Z) : ride :=
  {| ride_id := id; date := day; hour := h;
     month := (civil_from_days day).1.2; quarter := ((civil_from_days day).1.2 - 1) / 3 + 1;
     day_of_week := dayofweek day; is_weekend := isin (dayofweek day) [5; 6];
     vehicle_type := "bike"; from_location := "VIT Main Gate";
     to_location := "Katpadi Station";
     weather_condition := cond; weather_main := cond;
     weather_description := descr;
     distance_km := of_Z dist; base_price := of_Z base; final_price := of_Z final;
     surge_multiplier := (of_Z final / of_Z base)%Qc;
     waiting_time_minutes := of_Z 4;
     price_premium_percent := ((of_Z final - of_Z base) / of_Z base * of_Z 100)%Qc |}.

(** The three rides of the specification's example scenario. *)
Definition three_rides : frame :=
  [ sample_ride "R1" 19748 8 "Clear" "clear sky" 10 100 120;
    sample_ride "R2" 19748 14 "Clear" "clear sky" 5 100 100;
    sample_ride "R3" 19750 18 "Rain" "light rain" 0 50 90 ].

(** Two description variants of one condition. *)
Definition two_rain_variants : frame :=
  [ sample_ride "R1" 19748 8 "Rain" "light rain" 10 100 120;
    sample_ride "R2" 19748 9 "Rain" "moderate rain" 5 100 150 ].

(** Rides of distance zero (one of them free), and a ride whose price per
    kilometre has no finite decimal expansion. *)
Definition ride_zero_km : ride :=
  sample_ride "R1" 19748 18 "Rain" "light rain" 0 50 90.
Definition ride_zero_km_free : ride :=
  sample_ride "R2" 19748 19 "Clear" "clear sky" 0 50 0.
Definition ride_three_km : ride :=
  sample_ride "R3" 19748 20 "Clear" "clear sky" 3 100 100.

Definition zero_distance_rides : frame :=
  [ ride_zero_km; ride_zero_km_free; ride_three_km ].

(** A frame without any clear-weather ride. *)
Definition rain_only : frame :=
  [ sample_ride "R1" 19748 8 "Rain" "light rain" 10 100 150;
    sample_ride "R2" 19748 9 "Clouds" "few clouds" 5 100 120 ].

(** A condition outside the lookup tables. *)
Definition snow_frame : frame :=
  [ sample_ride "R1" 19748 8 "Clear" "clear sky" 10 100 120;
    sample_ride "R2" 19749 7 "Snow" "light snow" 4 60 80 ].


(** ** Proof-side readings of the loops *)

(** What the inner loop of [create_vehicle_dimension] does to one row of the
    matching vehicle type, and what one round of the outer loop does to a
    row. *)
Definition set_attrs (chars : list (string * PowerBIDims.cell))
    (r : PowerBIDims.vehicle_row) : PowerBIDims.vehicle_row :=
  {| PowerBIDims.v_vehicle_type := PowerBIDims.v_vehicle_type r;
     PowerBIDims.v_vehicle_id := PowerBIDims.v_vehicle_id r;
     PowerBIDims.v_attrs :=
       foldl (fun m kv => <[kv.1 := kv.2]> m) (PowerBIDims.v_attrs r) chars |}.

Definition enrich_step (r : PowerBIDims.vehicle_row) (vehicle : string)
    : PowerBIDims.vehicle_row :=
  match dict_get vehicle PowerBIDims.vehicle_characteristics with
  | Some chars =>
      if decide (PowerBIDims.v_vehicle_type r = vehicle) then set_attrs chars r else r
  | None => r
  end.

(** ** More sample frames *)

Definition sample_trip (id veh from_ to_ : string) (day h : Z) (weekend : bool)
    (dist base final wait : Z) : ride :=
  {| ride_id := id; date := day; hour := h;
     month := (civil_from_days day).1.2;
     quarter := ((civil_from_days day).1.2 - 1) / 3 + 1;
     day_of_week := dayofweek day; is_weekend := weekend;
     vehicle_type := veh; from_location := from_; to_location := to_;
     weather_condition := "Clear"; weather_main := "Clear";
     weather_description := "clear sky";
     distance_km := of_Z dist; base_price := of_Z base; final_price := of_Z final;
     surge_multiplier := (of_Z final / of_Z base)%Qc;
     waiting_time_minutes := of_Z wait;
     price_premium_percent := ((of_Z final - of_Z base) / of_Z base * of_Z 100)%Qc |}.

(** Four trips on three routes, one of them by a vehicle type outside the
    lookup table. *)
Definition mixed_trips : frame :=
  [ sample_trip "T1" "bike" "VIT Main Gate" "Katpadi Station" 19748 8 false 6 60 90 3;
    sample_trip "T2" "auto" "Katpadi Station" "CMC Hospital" 19749 17 true 4 80 80 6;
    sample_trip "T3" "bike" "VIT Main Gate" "Katpadi Station" 19750 18 true 8 70 100 2;
    sample_trip "T4" "e-rickshaw" "Old Bus Stand" "Gandhi Road" 19750 23 true 0 40 40 9 ].

(** The labels the scripts read from the source CSV, and the same header
    with the three measures that [create_fact_table] selects before it
    computes them. *)
Definition dataset_columns : list string :=
  [ "ride_id"; "datetime"; "date"; "hour"; "month"; "quarter"; "day_of_week";
    "is_weekend"; "vehicle_type"; "from_location"; "to_location";
    "weather_condition"; "weather_main"; "weather_description"; "distance_km";
    "base_price"; "final_price"; "surge_multiplier"; "waiting_time_minutes";
    "price_premium_percent"; "temperature"; "humidity"; "precipitation";
    "wind_speed"; "visibility" ].

Definition dataset_columns_with_measures : list string :=
  (dataset_columns ++ ["surge_amount"; "price_per_km"; "revenue_per_minute"])%list.

(** Ties are broken upwards, or to the even neighbour (as [rint] does when
    the binary64 product is the tie itself). *)
Definition ties_up {L : Type} : tie_breaks L := fun _ _ => true.
Definition ties_down {L : Type} : tie_breaks L := fun _ _ => false.


(** ** Proof tactics *)

(** Equality of two closed rationals, by evaluation. *)
Ltac qc_compute := apply Qc_is_canon; vm_compute; reflexivity.

(** Membership in a literal list, and facts decided by evaluation. *)
Ltac in_list := repeat (apply elem_of_cons; first [left; reflexivity | right]).
Ltac by_evaluation := refine (bool_decide_unpack _ _); vm_compute; exact I.

(** Statements about [Qc] read as statements about the underlying [Q]. *)
Ltac qc_to_q :=
  repeat (progress (unfold Qcle, Qclt, Qcminus, Qcplus, Qcopp, Qcmult, Qcdiv,
                      Qcinv, of_Z, Q2Qc in *;
                    cbn [this] in *; rewrite ?Qred_correct in * )).

Ltac qc_order := qc_to_q; unfold inject_Z in *; lra.

(** * Properties *)

(** ** Rounding *)

Lemma rint_close (up : bool) (q : Qc) :
  (of_Z (rint up q) - Q2Qc (1 # 2) <= q)%Qc /\
  (q <= of_Z (rint up q) + Q2Qc (1 # 2))%Qc.
Proof.
  pose proof (Qfloor_le q) as Hlo. pose proof (Qlt_floor q) as Hhi.
  rewrite inject_Z_plus in Hhi. change (inject_Z 1) with 1%Q in Hhi.
  unfold rint. repeat case_decide; try destruct up; qc_to_q;
    rewrite ?inject_Z_plus; change (inject_Z 1) with 1%Q; split; lra.
Qed.

(** A value rounded to two decimals is a hundredth within half a hundredth of
    the value, whichever way a tie goes. *)
Lemma round2_close (up : bool) (q : Qc) :
  (round2 up q - Q2Qc (1 # 200) <= q)%Qc /\ (q <= round2 up q + Q2Qc (1 # 200))%Qc.
Proof.
  destruct (rint_close up (q * of_Z 100)) as [Hlo Hhi]. unfold round2.
  set (n := rint _ _) in *. clearbody n.
  qc_to_q. change (inject_Z 100) with 100%Q in *.
  assert (/ 100 == 1 # 100)%Q as -> by reflexivity.
  generalize dependent (inject_Z n). intros x Hlo Hhi.
  split; lra.
Qed.

Lemma round2_hundredth (up : bool) (q : Qc) :
  exists n : Z, round2 up q = (of_Z n / of_Z 100)%Qc.
Proof. by exists (rint up (q * of_Z 100)). Qed.

(** Away from a tie the direction does not matter. *)
Lemma rint_off_tie (up up' : bool) (q : Qc) :
  (q - of_Z (Qfloor q))%Qc <> Q2Qc (1 # 2) -> rint up q = rint up' q.
Proof.
  intros Hoff. unfold rint. repeat case_decide; try reflexivity.
  destruct Hoff. apply Qcle_antisym; by apply Qcnot_lt_le.
Qed.

(** At a tie it decides between the two neighbours: 2.345 becomes 2.35 or
    2.34. *)
Example round2_at_tie :
  round2 true (Q2Qc (2345 # 1000)) = Q2Qc (235 # 100) /\
  round2 false (Q2Qc (2345 # 1000)) = Q2Qc (234 # 100) /\
  forall up, round2 up (Q2Qc (100 # 3)) = Q2Qc (3333 # 100).
Proof.
  split; [qc_compute |]. split; [qc_compute |]. intros [|]; qc_compute.
Qed.

(** ** Calendar *)

(** 2024-01-26 (Republic Day, a Friday) and the leap day of 2024. *)
Example civil_from_days_samples :
  civil_from_days 0 = (1970, 1, 1) /\ dayofweek 0 = 3 /\
  civil_from_days 19748 = (2024, 1, 26) /\ dayofweek 19748 = 4 /\
  civil_from_days 19782 = (2024, 2, 29) /\
  PowerBI.t_is_holiday (PowerBI.time_row_of_date 19748) = true /\
  PowerBI.t_date_key (PowerBI.time_row_of_date 19748) = 20240126 /\
  PowerBI.t_season (PowerBI.time_row_of_date 19748) = "Winter".
Proof. repeat split; vm_compute; reflexivity. Qed.

(** ** Column predicates *)

Lemma isin_true (x : Z) (l : list Z) : isin x l = true <-> x ∈ l.
Proof. unfold isin. apply bool_decide_eq_true. Qed.

(** ** The time-period categorizer *)

Lemma spec_time_period_bins_chain : bins_chain 0 spec_time_period_bins 24.
Proof. simpl. repeat split; lia. Qed.

Lemma categorize_time_period_eq (h : Z) :
  categorize_time_period h = get_time_period h.
Proof. reflexivity. Qed.

Lemma quick_time_period_eq (h : Z) :
  0 <= h -> QuickAnalysis.time_period h = get_time_period h.
Proof.
  intros Hh. unfold QuickAnalysis.time_period, get_time_period.
  repeat case_decide; try reflexivity; lia.
Qed.

Lemma get_time_period_bin (h lo hi : Z) (lab : string) :
  0 <= h <= 23 ->
  (lo, hi, lab) ∈ spec_time_period_bins ->
  (lo <= h < hi <-> get_time_period h = lab).
Proof.
  intros Hh Hin. unfold spec_time_period_bins in Hin.
  repeat (apply elem_of_cons in Hin as [Heq | Hin];
          [injection Heq as -> -> -> |]);
    try (by apply elem_of_nil in Hin);
    unfold get_time_period; repeat case_decide;
    (split; [intros; first [reflexivity | lia] | intros; first [lia | discriminate]]).
Qed.

Lemma get_time_period_in_bins (h : Z) :
  0 <= h <= 23 ->
  exists lo hi, (lo, hi, get_time_period h) ∈ spec_time_period_bins /\ lo <= h < hi.
Proof.
  intros Hh. unfold get_time_period, spec_time_period_bins.
  repeat case_decide;
    [ exists 0, 6 | exists 6, 8 | exists 8, 10 | exists 10, 12 | exists 12, 14
    | exists 14, 17 | exists 17, 19 | exists 19, 22 | exists 22, 24 ];
    (split; [in_list | lia]).
Qed.

(** C4. For every hour in [0,23] the categorizer returns the label of the one
    bin of the table that holds the hour; the table's nine half-open bins
    follow one another from 0 to 24 without overlap or gap; hour 0 is
    "Late Night" and hour 23 is "Night".  The three copies of the categorizer
    agree on these hours. *)
Theorem time_period_of_hour (h : Z) :
  0 <= h <= 23 ->
  bins_chain 0 spec_time_period_bins 24 /\
  length spec_time_period_bins = 9%nat /\
  NoDup (snd <$> spec_time_period_bins) /\
  (exists lo hi,
      (lo, hi, get_time_period h) ∈ spec_time_period_bins /\ lo <= h < hi) /\
  (forall lo hi lab,
      (lo, hi, lab) ∈ spec_time_period_bins ->
      (lo <= h < hi <-> call_get_time_period h = Returns lab)) /\
  categorize_time_period h = get_time_period h /\
  QuickAnalysis.time_period h = get_time_period h /\
  (h = 0 -> get_time_period h = "Late Night") /\
  (h = 23 -> get_time_period h = "Night").
Proof.
  intros Hh. split; [apply spec_time_period_bins_chain |].
  split; [reflexivity |].
  split; [by_evaluation |].
  split; [by apply get_time_period_in_bins |].
  split.
  { intros lo hi lab Hin. rewrite (get_time_period_bin h lo hi lab Hh Hin).
    unfold call_get_time_period. split; [by intros -> | congruence]. }
  split; [apply categorize_time_period_eq |].
  split; [apply quick_time_period_eq; lia |].
  split; intros ->; reflexivity.
Qed.

Lemma time_period_of_hour_witness :
  0 <= 13 <= 23 /\ get_time_period 13 = "Lunch Time".
Proof.
  split; [lia |].
  destruct (time_period_of_hour 13 ltac:(lia)) as (_ & _ & _ & _ & Hbin & _).
  specialize (Hbin 12 14 "Lunch Time" ltac:(in_list)).
  apply proj1 in Hbin. specialize (Hbin ltac:(lia)).
  unfold call_get_time_period in Hbin. congruence.
Defined.

(** The categorizer has no validation branch: whatever the hour, a call
    returns. *)
Lemma call_get_time_period_returns (h : Z) :
  exists lab, call_get_time_period h = Returns lab.
Proof. by eexists. Qed.

(** C3, as stated, fails: hours 24 and -1 lie outside [0,23] and the
    categorizer returns the label "Night" for both instead of failing. *)
Lemma time_period_out_of_range_no_error :
  call_get_time_period 24 = Returns "Night" /\
  call_get_time_period (-1) = Returns "Night" /\
  call_categorize_time_period 24 = Returns "Night" /\
  call_categorize_time_period (-1) = Returns "Night" /\
  ~ (forall h, h < 0 \/ 23 < h ->
       exists e, call_get_time_period h = Raises e).
Proof.
  repeat split; try reflexivity.
  intros Hclaim. destruct (Hclaim 24) as [e He]; [lia | discriminate He].
Qed.

(** C3, amended. For every integer hour outside [0,23] the categorizer raises
    nothing and returns the label of its final [else] branch, "Night". *)
Theorem time_period_out_of_range (h : Z) :
  h < 0 \/ 23 < h ->
  call_get_time_period h = Returns "Night" /\
  call_categorize_time_period h = Returns "Night".
Proof.
  intros Hh.
  assert (get_time_period h = "Night") as Hnight.
  { unfold get_time_period. repeat case_decide; first [reflexivity | lia]. }
  unfold call_get_time_period, call_categorize_time_period.
  change (categorize_time_period h) with (get_time_period h).
  rewrite Hnight. done.
Qed.

(** The chain of quick_analysis.py tests upper bounds only: below 0 it
    answers "Late Night"; the script applies it to [range(24)] alone. *)
Lemma quick_time_period_negative (h : Z) :
  h < 0 -> QuickAnalysis.time_period h = "Late Night".
Proof. intros Hh. unfold QuickAnalysis.time_period. by rewrite decide_True by lia. Qed.

Lemma time_period_out_of_range_witness :
  (24 < 0 \/ 23 < 24) /\
  call_get_time_period 24 = Returns "Night" /\
  call_categorize_time_period 24 = Returns "Night".
Proof.
  split; [right; lia |].
  apply (time_period_out_of_range 24). right. lia.
Defined.

(** ** The hour dimension *)

Lemma hour_dimension_keys (df : frame) :
  PowerBI.h_hour <$> PowerBI.create_hour_dimension df = seqZ 0 24.
Proof.
  unfold PowerBI.create_hour_dimension. rewrite <- list_fmap_compose.
  apply list_fmap_id.
Qed.

Lemma hour_dimension_row (df : frame) (row : PowerBI.hour_row) :
  row ∈ PowerBI.create_hour_dimension df <->
  0 <= PowerBI.h_hour row <= 23 /\ row = PowerBI.hour_row_of (PowerBI.h_hour row).
Proof.
  unfold PowerBI.create_hour_dimension. rewrite list_elem_of_fmap. split.
  - intros (h & -> & Hh). apply elem_of_seqZ in Hh. simpl. split; [lia | done].
  - intros [Hh Heq]. exists (PowerBI.h_hour row). split; [done |].
    apply elem_of_seqZ. lia.
Qed.

(** C6. Whatever the input frame, the hour dimension has exactly 24 rows whose
    keys are 0, 1, ..., 23 in order, and a row's rush-hour flag is set exactly
    when its hour is one of 8, 9, 17, 18.  The hour dimension of
    quick_analysis.py has the same keys and the same flags. *)
Theorem hour_dimension_shape (df : frame) :
  length (PowerBI.create_hour_dimension df) = 24%nat /\
  PowerBI.h_hour <$> PowerBI.create_hour_dimension df =
    [0; 1; 2; 3; 4; 5; 6; 7; 8; 9; 10; 11; 12; 13; 14; 15; 16; 17; 18; 19; 20;
     21; 22; 23] /\
  Forall (fun row =>
            PowerBI.h_is_rush_hour row = true <->
            PowerBI.h_hour row ∈ [8; 9; 17; 18])
         (PowerBI.create_hour_dimension df) /\
  QuickAnalysis.h_hour <$> QuickAnalysis.hour_dim =
    PowerBI.h_hour <$> PowerBI.create_hour_dimension df /\
  QuickAnalysis.h_is_rush_hour <$> QuickAnalysis.hour_dim =
    PowerBI.h_is_rush_hour <$> PowerBI.create_hour_dimension df.
Proof.
  split.
  { unfold PowerBI.create_hour_dimension. rewrite length_fmap, length_seqZ. lia. }
  split; [rewrite hour_dimension_keys; reflexivity |].
  split.
  { apply Forall_forall. intros row Hrow.
    apply hour_dimension_row in Hrow as [_ ->]. simpl. apply isin_true. }
  split; [rewrite hour_dimension_keys |];
    unfold QuickAnalysis.hour_dim, PowerBI.create_hour_dimension;
    rewrite <- !list_fmap_compose; reflexivity.
Qed.

(** [cut] over the four coarse buckets, bin by bin. *)
Lemma hour_category_bin (h : Z) (lab : string) :
  PowerBI.h_hour_category (PowerBI.hour_row_of h) = Some lab <->
  exists lo hi, (lo, hi, lab) ∈ spec_hour_category_bins /\ lo < h <= hi.
Proof.
  unfold PowerBI.hour_row_of, spec_hour_category_bins. simpl. split.
  - repeat case_decide; intros Heq; try discriminate Heq;
      injection Heq as <-;
      [ exists (-1), 6 | exists 6, 12 | exists 12, 18 | exists 18, 24 ];
      (split; [in_list | lia]).
  - intros (lo & hi & Hin & Hh).
    repeat (apply elem_of_cons in Hin as [Heq | Hin];
            [injection Heq as -> -> -> |]);
      try (by apply elem_of_nil in Hin);
      repeat case_decide; first [reflexivity | lia].
Qed.

(** C9. In the coarse categorization of the hour dimension the boundary hours
    fall in the lower bucket: the rows for hours 6, 12 and 18 carry "Night",
    "Morning" and "Afternoon"; every row carries the label of the right-closed
    bin (-1,6], (6,12], (12,18] or (18,24] that holds its hour. *)
Theorem hour_category_boundaries (df : frame) :
  (PowerBI.hour_row_of 6 ∈ PowerBI.create_hour_dimension df /\
   PowerBI.h_hour_category (PowerBI.hour_row_of 6) = Some "Night") /\
  (PowerBI.hour_row_of 12 ∈ PowerBI.create_hour_dimension df /\
   PowerBI.h_hour_category (PowerBI.hour_row_of 12) = Some "Morning") /\
  (PowerBI.hour_row_of 18 ∈ PowerBI.create_hour_dimension df /\
   PowerBI.h_hour_category (PowerBI.hour_row_of 18) = Some "Afternoon") /\
  Forall (fun row =>
            exists lo hi lab,
              PowerBI.h_hour_category row = Some lab /\
              (lo, hi, lab) ∈ spec_hour_category_bins /\
              lo < PowerBI.h_hour row <= hi)
         (PowerBI.create_hour_dimension df).
Proof.
  repeat split; try reflexivity;
    try (apply hour_dimension_row; simpl; split; [lia | reflexivity]).
  apply Forall_forall. intros row Hrow.
  apply hour_dimension_row in Hrow as [Hh Heq].
  assert (exists lab, PowerBI.h_hour_category row = Some lab) as [lab Hlab].
  { rewrite Heq. simpl. repeat case_decide; try by eexists. lia. }
  rewrite Heq in Hlab.
  destruct (proj1 (hour_category_bin _ _) Hlab) as (lo & hi & Hin & Hlohi).
  exists lo, hi, lab. rewrite Heq at 1. done.
Qed.

(** ** [drop_duplicates] *)

Section DropDuplicates.
Context {A K : Type} `{Countable K} (key : A -> K).

Lemma drop_duplicates_from_keys (seen : list K) (rows : list A) :
  NoDup (key <$> drop_duplicates_from key seen rows) /\
  forall k, k ∈ key <$> drop_duplicates_from key seen rows <->
            k ∈ key <$> rows /\ k ∉ seen.
Proof.
  revert seen. induction rows as [| r rows IH]; intros seen; simpl.
  - split; [constructor |]. intros k. rewrite elem_of_nil. tauto.
  - case_decide as Hseen.
    + destruct (IH seen) as [Hnd Hk]. split; [done |].
      intros k. rewrite Hk, elem_of_cons. split; [tauto |].
      intros [[-> | Hin] Hns]; [contradiction | tauto].
    + destruct (IH (key r :: seen)) as [Hnd Hk]. split.
      * rewrite fmap_cons. apply NoDup_cons. split; [| done].
        rewrite Hk, elem_of_cons. tauto.
      * intros k. rewrite fmap_cons, !elem_of_cons, Hk, elem_of_cons.
        destruct (decide (k = key r)) as [-> | Hne]; tauto.
Qed.

Lemma drop_duplicates_from_subset (seen : list K) (rows : list A) (x : A) :
  x ∈ drop_duplicates_from key seen rows -> x ∈ rows.
Proof.
  revert seen. induction rows as [| r rows IH]; intros seen; simpl; [done |].
  case_decide.
  - intros Hx. apply elem_of_cons. right. by eapply IH.
  - rewrite !elem_of_cons. intros [-> | Hx]; [by left | right; by eapply IH].
Qed.

Lemma drop_duplicates_keys (rows : list A) :
  NoDup (key <$> drop_duplicates key rows) /\
  forall k, k ∈ key <$> drop_duplicates key rows <-> k ∈ key <$> rows.
Proof.
  destruct (drop_duplicates_from_keys [] rows) as [Hnd Hk]. split; [done |].
  intros k. rewrite (Hk k), elem_of_nil. tauto.
Qed.

(** The number of rows kept is the number of distinct keys. *)
Lemma length_drop_duplicates (rows : list A) :
  length (drop_duplicates key rows) =
  size (list_to_set (key <$> rows) : gset K).
Proof.
  destruct (drop_duplicates_keys rows) as [Hnd Hk].
  rewrite <- (length_fmap key), <- (size_list_to_set (C:=gset K)) by done.
  f_equal. apply set_eq. intros k. rewrite !elem_of_list_to_set. apply Hk.
Qed.

End DropDuplicates.

Lemma size_list_to_set_le `{Countable K} (l : list K) :
  (size (list_to_set l : gset K) <= length l)%nat.
Proof.
  induction l as [| x l IH].
  - rewrite list_to_set_nil, size_empty. done.
  - rewrite list_to_set_cons, size_union_alt, size_singleton. simpl.
    assert (size (list_to_set l ∖ {[x]} : gset K) <= size (list_to_set l : gset K))%nat
      by (apply subseteq_size; intros y Hy; apply elem_of_difference in Hy; tauto).
    lia.
Qed.

(** Projecting a column cannot create distinct values. *)
Lemma distinct_image_le `{Countable K, Countable K'} (g : K -> K') (l : list K) :
  (size (list_to_set (g <$> l) : gset K') <= size (list_to_set l : gset K))%nat.
Proof.
  rewrite (list_to_set_fmap_L (C:=gset K) (D:=gset K')).
  unfold set_map. etransitivity; [apply size_list_to_set_le |].
  rewrite length_fmap. done.
Qed.

Lemma with_index_snd {A : Type} (rows : list A) : snd <$> with_index rows = rows.
Proof.
  unfold with_index. rewrite fmap_imap.
  change (fun n : nat => snd ∘ (fun r : A => (n, r))) with (fun _ : nat => @id A).
  rewrite (imap_const id). apply list_fmap_id.
Qed.

Lemma elem_of_with_index {A : Type} (rows : list A) (i : nat) (r : A) :
  (i, r) ∈ with_index rows <-> rows !! i = Some r.
Proof.
  unfold with_index. rewrite elem_of_lookup_imap. split.
  - intros (j & y & Heq & Hj). by injection Heq as -> ->.
  - intros Hi. by exists i, r.
Qed.

(** *** First occurrences *)

Section DropDuplicatesFirst.
Context {A K : Type} `{Countable K} (key : A -> K).



Lemma drop_duplicates_from_first (seen : list K) (l : list A) (x : A) :
  x ∈ drop_duplicates_from key seen l ->
  (key x ∉ seen) /\
  exists i, l !! i = Some x /\
    forall j y, (j < i)%nat -> l !! j = Some y -> key y <> key x.
Proof.
  revert seen. induction l as [| a l IH]; intros seen; cbn [drop_duplicates_from].
  - by intros Hx%elem_of_nil.
  - destruct (decide (key a ∈ seen)) as [Ha | Ha].
    + intros (Hns & i & Hi & Hfirst)%IH. split; [done |].
      exists (S i). split; [done |]. intros [| j] y Hj Hy.
      * injection Hy as ->. intros Heq. by rewrite Heq in Ha.
      * apply (Hfirst j y); [lia | done].
    + intros [-> | Hx]%elem_of_cons.
      * split; [done |]. exists 0%nat. split; [done |]. intros j y Hj. lia.
      * apply IH in Hx as (Hns & i & Hi & Hfirst).
        apply not_elem_of_cons in Hns as [Hne Hns]. split; [done |].
        exists (S i). split; [done |]. intros [| j] y Hj Hy.
        -- injection Hy as ->. congruence.
        -- apply (Hfirst j y); [lia | done].
Qed.

End DropDuplicatesFirst.

Lemma with_index_lookup {A : Type} (rows : list A) (i j : nat) (r : A) :
  with_index rows !! i = Some (j, r) <-> i = j /\ rows !! i = Some r.
Proof.
  unfold with_index. rewrite list_lookup_imap.
  destruct (rows !! i) as [x |]; simpl; split.
  - by intros [= -> ->].
  - by intros [-> [= ->]].
  - done.
  - by intros [_ ?].
Qed.

(** ** The weather dimension *)

Lemma weather_dimension_keys (df : frame) :
  (fun row => (PowerBI.w_weather_condition row, PowerBI.w_weather_main row,
               PowerBI.w_weather_description row))
    <$> PowerBI.create_weather_dimension df =
  (fun ir : nat * ride => weather_columns ir.2)
    <$> drop_duplicates (fun ir => weather_columns ir.2) (with_index df).
Proof.
  unfold PowerBI.create_weather_dimension. rewrite <- list_fmap_compose.
  apply list_fmap_ext. intros _ [i r] _. reflexivity.
Qed.

(** The builder emits one row per distinct (condition, main, description)
    triple of the frame. *)
Lemma weather_dimension_length (df : frame) :
  length (PowerBI.create_weather_dimension df) =
  size (list_to_set (weather_columns <$> df) : gset (string * string * string)).
Proof.
  unfold PowerBI.create_weather_dimension.
  rewrite length_fmap, length_drop_duplicates. do 2 f_equal.
  transitivity (weather_columns <$> (snd <$> with_index df));
    [by rewrite <- list_fmap_compose | by rewrite with_index_snd].
Qed.

(** [create_fact_table] returns exactly when the frame has every selected
    column, and then with one row per ride. *)
Lemma fact_table_returns (ties : tie_breaks nat) (csv_columns : list string)
    (df : frame) :
  (forall label, label ∈ PowerBI.fact_columns ->
                 label ∈ PowerBI.prepared_columns csv_columns) ->
  PowerBI.create_fact_table ties csv_columns df
  = Returns (imap (PowerBI.fact_of_ride ties) df).
Proof.
  intros Hall. unfold PowerBI.create_fact_table.
  destruct (filter _ PowerBI.fact_columns) as [| label missing] eqn:Hf; [done |].
  assert (label ∈ label :: missing) as Hin by left.
  rewrite <- Hf in Hin. apply list_elem_of_filter in Hin as [Hnot Hin].
  destruct Hnot. by apply Hall.
Qed.

Lemma fact_table_raises (ties : tie_breaks nat) (csv_columns : list string)
    (df : frame) (label : string) :
  label ∈ PowerBI.fact_columns ->
  label ∉ PowerBI.prepared_columns csv_columns ->
  exists missing,
    PowerBI.create_fact_table ties csv_columns df = Raises (KeyError missing) /\
    label ∈ missing /\
    forall l, l ∈ missing <->
              l ∈ PowerBI.fact_columns /\ l ∉ PowerBI.prepared_columns csv_columns.
Proof.
  intros Hin Hnot. unfold PowerBI.create_fact_table.
  assert (label ∈ filter (fun l => l ∉ PowerBI.prepared_columns csv_columns)
                         PowerBI.fact_columns) as Hf
    by (by apply list_elem_of_filter).
  destruct (filter _ PowerBI.fact_columns) as [| l0 missing] eqn:Heq;
    [by apply elem_of_nil in Hf |].
  exists (l0 :: missing). split; [done |]. split; [done |].
  intros l. rewrite <- Heq, list_elem_of_filter. tauto.
Qed.

Lemma fact_table_rows (ties : tie_breaks nat) (csv_columns : list string)
    (df : frame) (fact : list PowerBI.fact_row) :
  PowerBI.create_fact_table ties csv_columns df = Returns fact ->
  fact = imap (PowerBI.fact_of_ride ties) df.
Proof.
  unfold PowerBI.create_fact_table.
  destruct (filter _ PowerBI.fact_columns); [by intros [= <-] | discriminate].
Qed.

Lemma dataset_with_measures_has_fact_columns (label : string) :
  label ∈ PowerBI.fact_columns ->
  label ∈ PowerBI.prepared_columns dataset_columns_with_measures.
Proof.
  intros Hlabel. unfold PowerBI.fact_columns in Hlabel.
  repeat (apply elem_of_cons in Hlabel as [-> | Hlabel]; [by_evaluation |]).
  by apply elem_of_nil in Hlabel.
Qed.

Lemma fact_table_weather_column (ties : tie_breaks nat) (csv_columns : list string)
    (df : frame) (fact : list PowerBI.fact_row) :
  PowerBI.create_fact_table ties csv_columns df = Returns fact ->
  PowerBI.f_weather_condition <$> fact = weather_condition <$> df.
Proof.
  intros ->%fact_table_rows. rewrite fmap_imap.
  rewrite (imap_ext _ (fun _ => weather_condition)) by done.
  apply imap_const.
Qed.

(** There are never fewer dimension rows than distinct conditions in the fact
    table. *)
Lemma weather_dimension_covers_conditions (ties : tie_breaks nat)
    (csv_columns : list string) (df : frame) (fact : list PowerBI.fact_row) :
  PowerBI.create_fact_table ties csv_columns df = Returns fact ->
  (distinct_count (PowerBI.f_weather_condition <$> fact)
   <= length (PowerBI.create_weather_dimension df))%nat.
Proof.
  intros Hfact.
  rewrite weather_dimension_length, (fact_table_weather_column _ _ _ _ Hfact).
  unfold distinct_count.
  replace (weather_condition <$> df)
    with ((fun t : string * string * string => t.1.1)
            <$> (weather_columns <$> df))
    by (rewrite <- list_fmap_compose; done).
  apply distinct_image_le.
Qed.

(** When every condition comes with a single (main, description) pair, the
    rows are exactly the distinct conditions. *)
Lemma weather_dimension_unique_when_consistent (ties : tie_breaks nat)
    (csv_columns : list string) (df : frame) (fact : list PowerBI.fact_row) :
  PowerBI.create_fact_table ties csv_columns df = Returns fact ->
  (forall r r', r ∈ df -> r' ∈ df ->
     weather_condition r = weather_condition r' ->
     weather_columns r = weather_columns r') ->
  length (PowerBI.create_weather_dimension df) =
  distinct_count (PowerBI.f_weather_condition <$> fact).
Proof.
  intros Hfact Hcons. rewrite (fact_table_weather_column _ _ _ _ Hfact).
  unfold distinct_count.
  unfold PowerBI.create_weather_dimension. rewrite length_fmap.
  set (key := fun ir : nat * ride => weather_columns ir.2).
  destruct (drop_duplicates_keys key (with_index df)) as [Hnd Hk].
  set (kept := drop_duplicates key (with_index df)) in *.
  assert (forall ir, ir ∈ kept -> ir.2 ∈ df) as Hsub.
  { intros [i r] Hir. apply drop_duplicates_from_subset in Hir.
    apply elem_of_with_index in Hir. by eapply list_elem_of_lookup_2. }
  assert (NoDup ((fun ir : nat * ride => weather_condition ir.2) <$> kept)) as Hnd'.
  { apply (NoDup_fmap_2_strong _ kept).
    - intros ir ir' Hir Hir' Hc.
      assert (key ir = key ir') as Hkey
        by (apply Hcons; [by apply Hsub | by apply Hsub | done]).
      apply (NoDup_fmap_1 key) in Hnd as Hndk.
      destruct (list_elem_of_lookup_1 _ _ Hir) as [i Hi].
      destruct (list_elem_of_lookup_1 _ _ Hir') as [j Hj].
      assert (i = j) as ->; [| congruence].
      apply (NoDup_lookup (key <$> kept) i j (key ir)); [done | |];
        rewrite list_lookup_fmap; [rewrite Hi | rewrite Hj]; simpl; congruence.
    - by eapply NoDup_fmap_1. }
  rewrite <- (length_fmap (fun ir : nat * ride => weather_condition ir.2)).
  rewrite <- (size_list_to_set (C:=gset string)) by done.
  f_equal. apply set_eq. intros c. rewrite !elem_of_list_to_set.
  rewrite !list_elem_of_fmap. split.
  - intros (ir & -> & Hir). exists ir.2. split; [done | by apply Hsub].
  - intros (r & -> & Hr).
    assert (key (0%nat, r) ∈ key <$> kept) as Hin.
    { apply Hk. destruct (list_elem_of_lookup_1 _ _ Hr) as [i Hi].
      apply list_elem_of_fmap. exists (i, r). split; [done |].
      by apply elem_of_with_index. }
    apply list_elem_of_fmap in Hin as (ir & Heq & Hir).
    exists ir. split; [| done]. unfold key, weather_columns in Heq.
    simpl in Heq. congruence.
Qed.

(** C1. The invariant asks for one dimension row per distinct weather
    condition of the fact table.  On a frame in which the condition "Rain"
    occurs with two descriptions the builder emits two rows for "Rain" while
    the fact table holds a single distinct condition: [drop_duplicates()] is
    applied to the three selected columns, not to the condition key.  The
    weather dimension of quick_analysis.py does the same. *)
Theorem weather_dimension_duplicate_condition :
  (forall ties, exists fact,
     PowerBI.create_fact_table ties dataset_columns_with_measures two_rain_variants
       = Returns fact /\
     distinct_count (PowerBI.f_weather_condition <$> fact) = 1%nat) /\
  length (PowerBI.create_weather_dimension two_rain_variants) = 2%nat /\
  PowerBI.w_weather_condition <$> PowerBI.create_weather_dimension two_rain_variants
    = ["Rain"; "Rain"] /\
  PowerBI.w_weather_description <$> PowerBI.create_weather_dimension two_rain_variants
    = ["light rain"; "moderate rain"] /\
  QuickAnalysis.w_weather_condition <$> QuickAnalysis.weather_dim two_rain_variants
    = ["Rain"; "Rain"].
Proof.
  split; [| repeat split; vm_compute; reflexivity].
  intros ties. eexists. split.
  - apply fact_table_returns, dataset_with_measures_has_fact_columns.
  - rewrite fmap_imap. vm_compute. reflexivity.
Qed.

Lemma unknown_condition_impact (c : string) :
  c ∉ known_weather_conditions ->
  PowerBI.categorize_weather_impact c = "Unknown".
Proof.
  intros Hc. unfold PowerBI.categorize_weather_impact.
  repeat case_bool_decide; try reflexivity; exfalso; apply Hc;
    unfold known_weather_conditions;
    repeat match goal with
           | Hin : _ ∈ _ :: _ |- _ => apply elem_of_cons in Hin as [-> | Hin]
           | Hin : _ ∈ [] |- _ => by apply elem_of_nil in Hin
           end; in_list.
Qed.

Lemma unknown_condition_severity (c : string) :
  c ∉ known_weather_conditions -> PowerBI.severity_map !! c = None.
Proof.
  intros Hc. unfold PowerBI.severity_map.
  rewrite !lookup_insert_ne by (intros <-; apply Hc; in_list).
  apply lookup_empty.
Qed.

Lemma unknown_condition_surge (c : string) :
  c ∉ known_weather_conditions -> PowerBI.surge_map !! c = None.
Proof.
  intros Hc. unfold PowerBI.surge_map.
  rewrite !lookup_insert_ne by (intros <-; apply Hc; in_list).
  apply lookup_empty.
Qed.

(** Every ride's weather triple has its row in the dimension. *)
Lemma weather_dimension_complete (df : frame) (r : ride) :
  r ∈ df ->
  exists row, row ∈ PowerBI.create_weather_dimension df /\
    PowerBI.w_weather_condition row = weather_condition r /\
    PowerBI.w_weather_main row = weather_main r /\
    PowerBI.w_weather_description row = weather_description r.
Proof.
  intros Hr. unfold PowerBI.create_weather_dimension.
  set (key := fun ir : nat * ride => weather_columns ir.2).
  destruct (drop_duplicates_keys key (with_index df)) as [_ Hk].
  destruct (list_elem_of_lookup_1 _ _ Hr) as [i Hi].
  assert (key (i, r) ∈ key <$> drop_duplicates key (with_index df)) as Hin.
  { apply Hk, list_elem_of_fmap. exists (i, r). split; [done |].
    by apply elem_of_with_index. }
  apply list_elem_of_fmap in Hin as ([j r'] & Heq & Hir).
  exists (PowerBI.weather_row_of (j, r')). split.
  - apply list_elem_of_fmap. by exists (j, r').
  - unfold key, weather_columns in Heq. simpl in *.
    injection Heq as -> -> ->. done.
Qed.

(** C10. The weather dimension builder is total on arbitrary condition
    strings: a ride whose condition is none of Clear, Clouds, Haze, Rain,
    Thunderstorm still gets its row, and every row with that condition has
    impact category "Unknown", severity score 0 (outside the ordinal range
    1..5) and expected surge multiplier 1. *)
Theorem weather_dimension_unknown_condition (df : frame) (r : ride) :
  r ∈ df ->
  weather_condition r ∉ known_weather_conditions ->
  (exists row, row ∈ PowerBI.create_weather_dimension df /\
     PowerBI.w_weather_condition row = weather_condition r /\
     PowerBI.w_weather_main row = weather_main r /\
     PowerBI.w_weather_description row = weather_description r) /\
  (forall row, row ∈ PowerBI.create_weather_dimension df ->
     PowerBI.w_weather_condition row = weather_condition r ->
     PowerBI.w_impact_category row = "Unknown" /\
     PowerBI.w_severity_score row = 0 /\
     ~ (1 <= PowerBI.w_severity_score row <= 5) /\
     PowerBI.w_expected_surge_multiplier row = 1%Qc).
Proof.
  intros Hr Hc. split; [by apply weather_dimension_complete |].
  intros row Hrow Hcond. unfold PowerBI.create_weather_dimension in Hrow.
  apply list_elem_of_fmap in Hrow as ([i r'] & -> & _). simpl in *.
  rewrite Hcond. unfold PowerBI.get_weather_severity, PowerBI.get_expected_surge.
  rewrite unknown_condition_impact, unknown_condition_severity,
    unknown_condition_surge by done.
  simpl. repeat split; lia.
Qed.

Lemma weather_dimension_unknown_condition_witness :
  exists row, row ∈ PowerBI.create_weather_dimension snow_frame /\
    PowerBI.w_weather_condition row = "Snow" /\
    PowerBI.w_impact_category row = "Unknown" /\
    PowerBI.w_severity_score row = 0 /\
    PowerBI.w_expected_surge_multiplier row = 1%Qc.
Proof.
  assert (sample_ride "R2" 19749 7 "Snow" "light snow" 4 60 80 ∈ snow_frame)
    as Hin by (unfold snow_frame; in_list).
  assert ("Snow" ∉ known_weather_conditions) as Hsnow.
  { unfold known_weather_conditions. intros Hk.
    repeat (apply elem_of_cons in Hk as [Hk | Hk]; [discriminate Hk |]).
    by apply elem_of_nil in Hk. }
  destruct (weather_dimension_unknown_condition snow_frame _ Hin Hsnow)
    as [(row & Hrow & Hc & _) Hattrs].
  exists row. destruct (Hattrs row Hrow Hc) as (Hi & Hs & _ & He).
  repeat split; done.
Defined.

(** ** The time dimension *)

Lemma foldl_min_spec (l : list Z) (a : Z) :
  (foldl Z.min a l = a \/ foldl Z.min a l ∈ l) /\
  foldl Z.min a l <= a /\
  forall x, x ∈ l -> foldl Z.min a l <= x.
Proof.
  revert a. induction l as [| y l IH]; intros a; simpl.
  - split; [by left |]. split; [lia |]. intros x Hx. by apply elem_of_nil in Hx.
  - destruct (IH (Z.min a y)) as (Hin & Hle & Hall). split; [| split].
    + destruct Hin as [Heq | Hin].
      * rewrite Heq. destruct (Z.min_spec a y) as [[_ ->] | [_ ->]];
          [by left | right; by left].
      * right. by right.
    + lia.
    + intros x Hx. apply elem_of_cons in Hx as [-> | Hx]; [lia | by apply Hall].
Qed.

Lemma foldl_max_spec (l : list Z) (a : Z) :
  (foldl Z.max a l = a \/ foldl Z.max a l ∈ l) /\
  a <= foldl Z.max a l /\
  forall x, x ∈ l -> x <= foldl Z.max a l.
Proof.
  revert a. induction l as [| y l IH]; intros a; simpl.
  - split; [by left |]. split; [lia |]. intros x Hx. by apply elem_of_nil in Hx.
  - destruct (IH (Z.max a y)) as (Hin & Hle & Hall). split; [| split].
    + destruct Hin as [Heq | Hin].
      * rewrite Heq. destruct (Z.max_spec a y) as [[_ ->] | [_ ->]];
          [right; by left | by left].
      * right. by right.
    + lia.
    + intros x Hx. apply elem_of_cons in Hx as [-> | Hx]; [lia | by apply Hall].
Qed.

(** [Series.min()] of a non-empty column is its least element. *)
Lemma series_min_spec (l : list Z) :
  l <> [] ->
  exists lo, series_min l = Some lo /\ lo ∈ l /\ forall d, d ∈ l -> lo <= d.
Proof.
  destruct l as [| a l]; [done |]. intros _. simpl.
  destruct (foldl_min_spec l a) as (Hin & Hle & Hall).
  eexists. split; [reflexivity |]. split.
  - destruct Hin as [-> | Hin]; [by left | by right].
  - intros d Hd. apply elem_of_cons in Hd as [-> | Hd]; [done | by apply Hall].
Qed.

Lemma series_max_spec (l : list Z) :
  l <> [] ->
  exists hi, series_max l = Some hi /\ hi ∈ l /\ forall d, d ∈ l -> d <= hi.
Proof.
  destruct l as [| a l]; [done |]. intros _. simpl.
  destruct (foldl_max_spec l a) as (Hin & Hle & Hall).
  eexists. split; [reflexivity |]. split.
  - destruct Hin as [-> | Hin]; [by left | by right].
  - intros d Hd. apply elem_of_cons in Hd as [-> | Hd]; [done | by apply Hall].
Qed.

Lemma time_row_of_date_key (d : Z) : PowerBI.t_date (PowerBI.time_row_of_date d) = d.
Proof. unfold PowerBI.time_row_of_date. by destruct (civil_from_days d) as [[y m] dd]. Qed.

Lemma quick_time_dim_dates (df : frame) (d : Z) :
  d ∈ (fun t : Z * Z * Z * Z * bool => t.1.1.1.1) <$> QuickAnalysis.time_dim df
  <-> d ∈ date <$> df.
Proof.
  unfold QuickAnalysis.time_dim.
  destruct (drop_duplicates_keys id (QuickAnalysis.time_columns <$> df)) as [_ Hk].
  rewrite !list_fmap_id in Hk. rewrite !list_elem_of_fmap. split.
  - intros (t & -> & (r & -> & Hr)%Hk%list_elem_of_fmap). by exists r.
  - intros (r & -> & Hr). exists (QuickAnalysis.time_columns r). split; [done |].
    apply Hk. by apply list_elem_of_fmap_2.
Qed.

(** C5, as stated, fails for [time_dim] of quick_analysis.py.  The three
    example rides fall on days 19748 and 19750; day 19749 lies in the range
    and has no row, since the rows come from [drop_duplicates()] of the
    observed rows. *)
Lemma quick_time_dim_skips_gap_day :
  three_rides <> [] /\
  19748 ∈ date <$> three_rides /\
  19750 ∈ date <$> three_rides /\
  (19749 ∉ (fun t : Z * Z * Z * Z * bool => t.1.1.1.1)
             <$> QuickAnalysis.time_dim three_rides) /\
  ~ (forall df : frame, df <> [] ->
       forall lo hi d, lo ∈ date <$> df -> hi ∈ date <$> df -> lo <= d <= hi ->
         d ∈ (fun t : Z * Z * Z * Z * bool => t.1.1.1.1) <$> QuickAnalysis.time_dim df).
Proof.
  assert (19748 ∈ date <$> three_rides) as Hlo by (unfold three_rides; simpl; in_list).
  assert (19750 ∈ date <$> three_rides) as Hhi by (unfold three_rides; simpl; in_list).
  assert (19749 ∉ (fun t : Z * Z * Z * Z * bool => t.1.1.1.1)
                    <$> QuickAnalysis.time_dim three_rides) as Hgap.
  { rewrite quick_time_dim_dates. unfold three_rides. simpl. intros Hin.
    repeat (apply elem_of_cons in Hin as [Hin | Hin]; [discriminate Hin |]).
    by apply elem_of_nil in Hin. }
  split; [discriminate |]. split; [done |]. split; [done |]. split; [done |].
  intros Hclaim. apply Hgap.
  apply (Hclaim three_rides ltac:(discriminate) 19748 19750); [done | done | lia].
Qed.

(** C5, amended.  For every non-empty frame the time dimension of
    [create_time_dimension] is built and has one row for each calendar day
    from the earliest to the latest ride date, both included, in order and
    without repetition: a day of the range without any ride still has its
    row.  [time_dim] of quick_analysis.py has rows for the observed dates
    and for no other day. *)
Theorem time_dimension_enumerates_range (df : frame) :
  df <> [] ->
  exists lo hi dim,
    (lo ∈ date <$> df /\ forall d, d ∈ date <$> df -> lo <= d) /\
    (hi ∈ date <$> df /\ forall d, d ∈ date <$> df -> d <= hi) /\
    PowerBI.create_time_dimension df = Returns dim /\
    PowerBI.t_date <$> dim = seqZ lo (hi - lo + 1) /\
    length dim = Z.to_nat (hi - lo + 1) /\
    NoDup (PowerBI.t_date <$> dim) /\
    (forall d, d ∈ PowerBI.t_date <$> dim <-> lo <= d <= hi) /\
    (forall d, d ∈ date <$> df -> d ∈ PowerBI.t_date <$> dim) /\
    (forall d, d ∈ (fun t : Z * Z * Z * Z * bool => t.1.1.1.1)
                     <$> QuickAnalysis.time_dim df
               <-> d ∈ date <$> df).
Proof.
  intros Hne.
  assert (date <$> df <> []) as Hne' by (by destruct df).
  destruct (series_min_spec _ Hne') as (lo & Hmin & Hlo & Hlo_le).
  destruct (series_max_spec _ Hne') as (hi & Hmax & Hhi & Hhi_le).
  exists lo, hi, (PowerBI.time_row_of_date <$> seqZ lo (hi - lo + 1)).
  assert (PowerBI.t_date <$> (PowerBI.time_row_of_date <$> seqZ lo (hi - lo + 1))
          = seqZ lo (hi - lo + 1)) as Hdates.
  { rewrite <- list_fmap_compose.
    etransitivity; [| apply list_fmap_id].
    apply list_fmap_ext. intros _ d _. apply time_row_of_date_key. }
  assert (forall d, d ∈ seqZ lo (hi - lo + 1) <-> lo <= d <= hi) as Hrange
    by (intros d; rewrite elem_of_seqZ; lia).
  split; [done |]. split; [done |]. split.
  { unfold PowerBI.create_time_dimension. rewrite Hmin, Hmax. reflexivity. }
  rewrite Hdates. split; [done |]. split.
  { rewrite length_fmap, length_seqZ. done. }
  split; [apply NoDup_seqZ |]. split; [done |].
  split; [| intros d; apply quick_time_dim_dates].
  intros d Hd. apply Hrange. split; [by apply Hlo_le | by apply Hhi_le].
Qed.

Lemma time_dimension_enumerates_range_witness :
  three_rides <> [] /\
  exists dim, PowerBI.create_time_dimension three_rides = Returns dim /\
    PowerBI.t_date <$> dim = [19748; 19749; 19750].
Proof.
  split; [discriminate |].
  destruct (time_dimension_enumerates_range three_rides ltac:(discriminate))
    as (lo & hi & dim & [Hlo Hlo_le] & [Hhi Hhi_le] & Hdim & Hdates & _).
  exists dim. split; [done |]. rewrite Hdates.
  assert (lo = 19748) as ->.
  { assert (lo <= 19748) by (apply Hlo_le; unfold three_rides; simpl; in_list).
    unfold three_rides in Hlo. simpl in Hlo.
    repeat (apply elem_of_cons in Hlo as [Hlo | Hlo]; [lia |]).
    by apply elem_of_nil in Hlo. }
  assert (hi = 19750) as ->.
  { assert (19750 <= hi) by (apply Hhi_le; unfold three_rides; simpl; in_list).
    unfold three_rides in Hhi. simpl in Hhi.
    repeat (apply elem_of_cons in Hhi as [Hhi | Hhi]; [lia |]).
    by apply elem_of_nil in Hhi. }
  reflexivity.
Defined.

(** A day without rides inside the range gets a row; on the same frame the
    time dimension of quick_analysis.py, which drops duplicate observed rows,
    has no row for it; an empty frame makes [date_range] raise. *)
Lemma time_dimension_gap_day :
(19749 ∉ (date <$> three_rides)) /\
  (exists dim, PowerBI.create_time_dimension three_rides = Returns dim /\
     19749 ∈ PowerBI.t_date <$> dim) /\
  (fun t : Z * Z * Z * Z * bool => t.1.1.1.1) <$> QuickAnalysis.time_dim three_rides
    = [19748; 19750] /\
  exists e, PowerBI.create_time_dimension [] = Raises e.
Proof.
  split.
  { unfold three_rides. simpl. intros Hin.
    repeat (apply elem_of_cons in Hin as [Hin | Hin]; [discriminate Hin |]).
    by apply elem_of_nil in Hin. }
  split; [eexists; split; [reflexivity | vm_compute; in_list] |].
  split; [vm_compute; reflexivity | by eexists].
Qed.

(** ** Sums and means *)

Lemma foldl_Qcplus_total (l : list Qc) (a : Qc) :
  foldl Qcplus a l = (a + total l)%Qc.
Proof.
  revert a. induction l as [| x l IH]; intros a; simpl.
  - ring.
  - rewrite IH. ring.
Qed.

Lemma series_sum_total (l : list Qc) : series_sum l = total l.
Proof. unfold series_sum. rewrite foldl_Qcplus_total. ring. Qed.


Lemma series_mean_average (l : list Qc) :
  l <> [] -> series_mean l = Fin (average l).
Proof.
  destruct l as [| x l]; [done |]. intros _.
  unfold series_mean, average. by rewrite series_sum_total.
Qed.



(** ** The rain-to-clear surge ratio *)

Lemma select_condition (cond : string) (df : frame) :
  surge_multiplier
    <$> Comprehensive.select (fun r => bool_decide (weather_condition r = cond)) df
  = surges_of cond df.
Proof.
  unfold surges_of, Comprehensive.select. f_equal.
  apply list_filter_iff. intros r. apply bool_decide_eq_true.
Qed.

(** *** When [calculate_all_kpis] returns *)

Lemma column_sum_rows (df : frame) (values : list Qc) :
  df <> [] -> column_sum df values = Np (Fin (series_sum values)).
Proof. by destruct df. Qed.

(** On a frame without rows the first division of two column sums divides the
    python int 0 by itself. *)
Lemma calculate_all_kpis_no_rows :
  Comprehensive.calculate_all_kpis [] = Raises ZeroDivisionError.
Proof. reflexivity. Qed.

(** On a frame with rows every division is numpy's and the method returns;
    the entries are the values of the expressions assigned to them. *)
Lemma calculate_all_kpis_rows (df : frame) :
  df <> [] ->
  exists k,
    Comprehensive.calculate_all_kpis df = Returns k /\
    Comprehensive.kpi_total_revenue k = series_sum (final_price <$> df) /\
    Comprehensive.kpi_surge_revenue_impact k
      = series_sum ((fun r => final_price r - base_price r)%Qc <$> df) /\
    Comprehensive.kpi_revenue_by_vehicle k = Comprehensive.revenue_by_vehicle df /\
    Comprehensive.kpi_revenue_per_km k
      = fdiv (Fin (series_sum (final_price <$> df)))
             (Fin (series_sum (distance_km <$> df))) /\
    Comprehensive.kpi_fleet_utilization_by_vehicle k
      = Comprehensive.fleet_utilization_by_vehicle df /\
    Comprehensive.kpi_peak_hour_trip_distribution k
      = Comprehensive.value_counts
          (hour <$> Comprehensive.select Comprehensive.is_rush_hour df) /\
    Comprehensive.kpi_morning_rush_demand k
      = length (Comprehensive.select Comprehensive.is_morning_rush df) /\
    Comprehensive.kpi_evening_rush_demand k
      = length (Comprehensive.select Comprehensive.is_evening_rush df) /\
    Comprehensive.kpi_weekend_revenue k = Comprehensive.weekend_revenue df /\
    Comprehensive.kpi_weekday_revenue k = Comprehensive.weekday_revenue df /\
    Comprehensive.kpi_rush_hour_premium k = Comprehensive.rush_hour_premium df /\
    Comprehensive.kpi_rain_vs_clear_multiplier k
      = (if decide (0 < length (surges_of "Clear" df))%nat
         then fdiv (series_mean (surges_of "Rain" df))
                   (series_mean (surges_of "Clear" df))
         else Fin 0%Qc) /\
    Comprehensive.kpi_surge_pricing_effectiveness k
      = fdiv (Fin (series_sum
                     (final_price
                        <$> Comprehensive.select
                              (fun r => bool_decide
                                          (Q2Qc (12 # 10) < surge_multiplier r)%Qc)
                              df)))
             (Fin (series_sum (final_price <$> df))) /\
    Comprehensive.kpi_revenue_diversification k
      = Comprehensive.revenue_diversification df /\
    Comprehensive.kpi_customer_satisfaction_proxy k
      = Comprehensive.customer_satisfaction_proxy df.
Proof.
  intros Hne. unfold Comprehensive.calculate_all_kpis,
    Comprehensive.revenue_per_km, Comprehensive.surge_pricing_effectiveness.
  rewrite !column_sum_rows by done.
  cbn [truediv scalar_value mbind outcome_bind].
  eexists. split; [reflexivity |]. cbn [Comprehensive.kpi_total_revenue
    Comprehensive.kpi_surge_revenue_impact Comprehensive.kpi_revenue_by_vehicle
    Comprehensive.kpi_revenue_per_km Comprehensive.kpi_fleet_utilization_by_vehicle
    Comprehensive.kpi_peak_hour_trip_distribution Comprehensive.kpi_morning_rush_demand
    Comprehensive.kpi_evening_rush_demand Comprehensive.kpi_weekend_revenue
    Comprehensive.kpi_weekday_revenue Comprehensive.kpi_rush_hour_premium
    Comprehensive.kpi_rain_vs_clear_multiplier
    Comprehensive.kpi_surge_pricing_effectiveness
    Comprehensive.kpi_revenue_diversification
    Comprehensive.kpi_customer_satisfaction_proxy].
  repeat (split; [reflexivity |]).
  split; [| repeat split; reflexivity].
  rewrite !select_condition.
  assert (length (Comprehensive.select
                    (fun r => bool_decide (weather_condition r = "Clear")) df)
          = length (surges_of "Clear" df)) as Hlen
    by (rewrite <- select_condition, length_fmap; done).
  repeat case_decide; first [reflexivity | lia].
Qed.







(** On the three example rides the ratio is 1.8 / 1.1. *)
Lemma rain_vs_clear_three_rides :
  exists k,
    Comprehensive.calculate_all_kpis three_rides = Returns k /\
    Comprehensive.kpi_rain_vs_clear_multiplier k = Fin (Q2Qc (18 # 11)).
Proof.
  destruct (calculate_all_kpis_rows three_rides ltac:(discriminate))
    as (k & Hk & _ & _ & _ & _ & _ & _ & _ & _ & _ & _ & _ & Hratio & _).
  exists k. split; [done |]. rewrite Hratio. vm_compute. f_equal. qc_compute.
Qed.

(** ** Price per kilometre in the fact tables *)

Lemma Qc_lt_asym (x : Qc) : (x < 0)%Qc -> ~ (0 < x)%Qc.
Proof.
  intros Hneg Hpos. apply (Qclt_not_eq 0 0); [| reflexivity].
  by apply Qclt_trans with x.
Qed.

(** Division of a finite price by a zero distance, by the sign of the price. *)
Lemma fdiv_zero_divisor (x : Qc) :
  is_finite (fdiv (Fin x) (Fin 0%Qc)) = false /\
  ((0 < x)%Qc -> fdiv (Fin x) (Fin 0%Qc) = PInf) /\
  (x = 0%Qc -> fdiv (Fin x) (Fin 0%Qc) = NaN) /\
  ((x < 0)%Qc -> fdiv (Fin x) (Fin 0%Qc) = NInf).
Proof.
  unfold fdiv. rewrite decide_True by reflexivity.
  repeat split.
  - repeat case_decide; reflexivity.
  - intros Hpos. rewrite decide_False, decide_True; [done | done |].
    intros ->. by apply (Qclt_not_eq 0 0).
  - intros ->. by rewrite decide_True.
  - intros Hneg. rewrite decide_False, decide_False; [done | |].
    + by apply Qc_lt_asym.
    + intros ->. by apply (Qclt_not_eq 0 0).
Qed.

Lemma fdiv_nonzero_divisor (x y : Qc) :
  y <> 0%Qc -> fdiv (Fin x) (Fin y) = Fin (x / y)%Qc.
Proof. intros Hy. unfold fdiv. by rewrite decide_False. Qed.

Lemma powerbi_price_per_km (ties : tie_breaks nat) (i : nat) (r : ride) :
  PowerBI.f_price_per_km (PowerBI.fact_of_ride ties i r)
  = fround2 (ties "price_per_km" i) (fdiv (Fin (final_price r)) (Fin (distance_km r))).
Proof. reflexivity. Qed.

Lemma quick_price_per_km (r : ride) :
  QuickAnalysis.f_price_per_km (QuickAnalysis.fact_of_ride r)
  = fdiv (Fin (final_price r)) (Fin (distance_km r)).
Proof. reflexivity. Qed.

(** C2, as stated, fails.  With distance 0 a ride priced 90 gets +inf and a
    free ride gets NaN, so no single value stands in for the undefined
    quotient; and with distance 3 and price 100 the fact-table builder stores
    33.33, the quotient rounded to two decimals, not 100/3. *)
Lemma price_per_km_not_as_claimed :
  (forall ties i,
     PowerBI.f_price_per_km (PowerBI.fact_of_ride ties i ride_zero_km) = PInf) /\
  (forall ties i,
     PowerBI.f_price_per_km (PowerBI.fact_of_ride ties i ride_zero_km_free) = NaN) /\
  (forall ties i,
     PowerBI.f_price_per_km (PowerBI.fact_of_ride ties i ride_three_km)
     = Fin (Q2Qc (3333 # 100))) /\
  ~ (exists ties i, exists sentinel : fnum, forall r : ride,
       (distance_km r = 0%Qc ->
          PowerBI.f_price_per_km (PowerBI.fact_of_ride ties i r) = sentinel) /\
       (distance_km r <> 0%Qc ->
          PowerBI.f_price_per_km (PowerBI.fact_of_ride ties i r)
          = Fin (final_price r / distance_km r)%Qc)) /\
  ~ (exists sentinel : fnum, forall r : ride,
       distance_km r = 0%Qc ->
       QuickAnalysis.f_price_per_km (QuickAnalysis.fact_of_ride r) = sentinel).
Proof.
  assert (forall ties i,
            PowerBI.f_price_per_km (PowerBI.fact_of_ride ties i ride_zero_km) = PInf)
    as Hinf by (intros; rewrite powerbi_price_per_km; vm_compute; reflexivity).
  assert (forall ties i,
            PowerBI.f_price_per_km (PowerBI.fact_of_ride ties i ride_zero_km_free) = NaN)
    as Hnan by (intros; rewrite powerbi_price_per_km; vm_compute; reflexivity).
  assert (forall ties i,
            PowerBI.f_price_per_km (PowerBI.fact_of_ride ties i ride_three_km)
            = Fin (Q2Qc (3333 # 100))) as Hround.
  { intros ties i. rewrite powerbi_price_per_km.
    destruct (ties "price_per_km" i); vm_compute; f_equal; qc_compute. }
  assert (distance_km ride_zero_km = 0%Qc) as Hd1 by qc_compute.
  assert (distance_km ride_zero_km_free = 0%Qc) as Hd2 by qc_compute.
  split; [done |]. split; [done |]. split; [done |]. split.
  - intros (ties & i & sentinel & Hclaim).
    destruct (Hclaim ride_zero_km) as [H1 _].
    destruct (Hclaim ride_zero_km_free) as [H2 _].
    specialize (H1 Hd1). specialize (H2 Hd2).
    rewrite Hinf in H1. rewrite Hnan in H2. congruence.
  - intros [sentinel Hclaim].
    pose proof (Hclaim ride_zero_km Hd1) as H1.
    pose proof (Hclaim ride_zero_km_free Hd2) as H2.
    assert (QuickAnalysis.f_price_per_km (QuickAnalysis.fact_of_ride ride_zero_km)
            = PInf) as E1 by (vm_compute; reflexivity).
    assert (QuickAnalysis.f_price_per_km
              (QuickAnalysis.fact_of_ride ride_zero_km_free) = NaN)
      as E2 by (vm_compute; reflexivity).
    congruence.
Qed.

(** The rounded quotient of the example differs from the quotient. *)
Lemma price_per_km_rounding_differs (ties : tie_breaks nat) (i : nat) :
  PowerBI.f_price_per_km (PowerBI.fact_of_ride ties i ride_three_km)
  <> Fin (final_price ride_three_km / distance_km ride_three_km)%Qc.
Proof.
  rewrite powerbi_price_per_km. intros Heq.
  apply (f_equal (fun x => match x with Fin q => this q | _ => 0%Q end)) in Heq.
  destruct (ties "price_per_km" i); vm_compute in Heq; discriminate Heq.
Qed.

(** On the columns the scripts read, [create_fact_table] stops at its
    selection: the three measures it is about to compute are not columns of
    the frame yet. *)
Lemma create_fact_table_key_error (ties : tie_breaks nat) (df : frame) :
  PowerBI.create_fact_table ties dataset_columns df
  = Raises (KeyError ["surge_amount"; "price_per_km"; "revenue_per_minute"]).
Proof. reflexivity. Qed.

(** C2, amended.  quick_analysis.py keeps one row per ride and never raises
    on a zero distance: there the price per kilometre is the IEEE quotient,
    +inf for a positive price, NaN for a zero price and -inf for a negative
    one, and no sentinel is substituted; for a non-zero distance it is
    final_price / distance_km.  [create_fact_table] first selects its columns
    and raises [KeyError] when the frame lacks one of them, among them the
    three measures it computes afterwards.  When the frame has them all it
    returns one row per ride, with the same IEEE quotient for a zero distance
    and, for a non-zero distance, a hundredth within 0.005 of
    final_price / distance_km (the neighbour at an exact tie is not
    determined). *)
Theorem price_per_km_by_distance (ties : tie_breaks nat) (csv_columns : list string)
    (df : frame) (i : nat) (r : ride) :
  df !! i = Some r ->
  (exists qrow,
     QuickAnalysis.fact_table df !! i = Some qrow /\
     length (QuickAnalysis.fact_table df) = length df /\
     (distance_km r = 0%Qc ->
        is_finite (QuickAnalysis.f_price_per_km qrow) = false /\
        ((0 < final_price r)%Qc -> QuickAnalysis.f_price_per_km qrow = PInf) /\
        (final_price r = 0%Qc -> QuickAnalysis.f_price_per_km qrow = NaN) /\
        ((final_price r < 0)%Qc -> QuickAnalysis.f_price_per_km qrow = NInf)) /\
     (distance_km r <> 0%Qc ->
        QuickAnalysis.f_price_per_km qrow = Fin (final_price r / distance_km r)%Qc)) /\
  (forall label,
     label ∈ PowerBI.fact_columns ->
     label ∉ PowerBI.prepared_columns csv_columns ->
     exists missing,
       PowerBI.create_fact_table ties csv_columns df = Raises (KeyError missing) /\
       label ∈ missing) /\
  ((forall label, label ∈ PowerBI.fact_columns ->
                  label ∈ PowerBI.prepared_columns csv_columns) ->
   exists fact row,
     PowerBI.create_fact_table ties csv_columns df = Returns fact /\
     length fact = length df /\
     fact !! i = Some row /\
     (distance_km r = 0%Qc ->
        is_finite (PowerBI.f_price_per_km row) = false /\
        ((0 < final_price r)%Qc -> PowerBI.f_price_per_km row = PInf) /\
        (final_price r = 0%Qc -> PowerBI.f_price_per_km row = NaN) /\
        ((final_price r < 0)%Qc -> PowerBI.f_price_per_km row = NInf)) /\
     (distance_km r <> 0%Qc ->
        exists p : Qc,
          PowerBI.f_price_per_km row = Fin p /\
          (exists n : Z, p = (of_Z n / of_Z 100)%Qc) /\
          (p - Q2Qc (1 # 200) <= final_price r / distance_km r)%Qc /\
          (final_price r / distance_km r <= p + Q2Qc (1 # 200))%Qc)).
Proof.
  intros Hi.
  assert (forall x : fnum,
            x = fdiv (Fin (final_price r)) (Fin 0%Qc) ->
            is_finite x = false /\
            ((0 < final_price r)%Qc -> x = PInf) /\
            (final_price r = 0%Qc -> x = NaN) /\
            ((final_price r < 0)%Qc -> x = NInf)) as Hzero.
  { intros x ->. apply fdiv_zero_divisor. }
  split; [| split].
  - exists (QuickAnalysis.fact_of_ride r). unfold QuickAnalysis.fact_table.
    rewrite list_lookup_fmap, Hi, length_fmap, quick_price_per_km.
    split; [done |]. split; [done |]. split.
    + intros ->. by apply Hzero.
    + intros Hnz. by apply fdiv_nonzero_divisor.
  - intros label Hin Hnot.
    destruct (fact_table_raises ties csv_columns df label Hin Hnot)
      as (missing & Hraise & Hlabel & _).
    by exists missing.
  - intros Hall. exists (imap (PowerBI.fact_of_ride ties) df), (PowerBI.fact_of_ride ties i r).
    split; [by apply fact_table_returns |].
    split; [apply length_imap |].
    split; [by rewrite list_lookup_imap, Hi |].
    rewrite powerbi_price_per_km. split.
    + intros ->. apply Hzero.
      destruct (fdiv_zero_divisor (final_price r)) as [Hfin _].
      by destruct (fdiv (Fin (final_price r)) (Fin 0%Qc)).
    + intros Hnz. rewrite fdiv_nonzero_divisor by done. cbn [fround2].
      eexists. split; [reflexivity |]. split; [apply round2_hundredth |].
      apply round2_close.
Qed.

Lemma price_per_km_by_distance_witness :
  zero_distance_rides !! 0%nat = Some ride_zero_km /\
  exists fact row,
    PowerBI.create_fact_table ties_up dataset_columns_with_measures zero_distance_rides
      = Returns fact /\
    fact !! 0%nat = Some row /\
    PowerBI.f_price_per_km row = PInf.
Proof.
  split; [reflexivity |].
  destruct (price_per_km_by_distance ties_up dataset_columns_with_measures
              zero_distance_rides 0 ride_zero_km eq_refl)
    as (_ & _ & Hreturns).
  destruct (Hreturns dataset_with_measures_has_fact_columns)
    as (fact & row & Hfact & _ & Hrow & Hzero & _).
  exists fact, row. split; [done |]. split; [done |].
  assert (distance_km ride_zero_km = 0%Qc) as Hd by qc_compute.
  destruct (Hzero Hd) as (_ & Hpos & _).
  apply Hpos. reflexivity.
Defined.

(** ** Revenue KPIs *)









(** The rush-hour rows of the example are the rides at hours 8 and 18, one
    trip each in [peak_hour_trip_distribution]. *)
Lemma three_rides_rush_hours :
  hour <$> Comprehensive.select Comprehensive.is_rush_hour three_rides = [8; 18] /\
  exists k,
    Comprehensive.calculate_all_kpis three_rides = Returns k /\
    Comprehensive.kpi_peak_hour_trip_distribution k !! 8 = Some 1%nat /\
    Comprehensive.kpi_peak_hour_trip_distribution k !! 18 = Some 1%nat /\
    Comprehensive.kpi_peak_hour_trip_distribution k !! 14 = None.
Proof.
  split; [vm_compute; reflexivity |].
  destruct (calculate_all_kpis_rows three_rides ltac:(discriminate))
    as (k & Hk & _ & _ & _ & _ & _ & Hpeak & _).
  exists k. split; [done |]. rewrite Hpeak. repeat split; vm_compute; reflexivity.
Qed.

(** The fact table of [create_fact_table] stores prices rounded to two
    decimals, so its column sum can differ from the KPI computed on the
    source rows. *)
Lemma rounded_fact_prices_drift (ties : tie_breaks nat) :
  let r := {| ride_id := "R1"; date := 19748; hour := 8; month := 1; quarter := 1;
              day_of_week := 4; is_weekend := false; vehicle_type := "bike";
              from_location := "A"; to_location := "B";
              weather_condition := "Clear"; weather_main := "Clear";
              weather_description := "clear sky";
              distance_km := of_Z 2; base_price := of_Z 10;
              final_price := Q2Qc (10004 # 1000); surge_multiplier := 1%Qc;
              waiting_time_minutes := of_Z 3; price_premium_percent := 0%Qc |} in
  (exists fact,
     PowerBI.create_fact_table ties dataset_columns_with_measures [r; r]
       = Returns fact /\
     total (PowerBI.f_final_price <$> fact) = of_Z 20) /\
  exists k,
    Comprehensive.calculate_all_kpis [r; r] = Returns k /\
    Comprehensive.kpi_total_revenue k = Q2Qc (20008 # 1000).
Proof.
  intros r. split.
  - eexists. split;
      [apply fact_table_returns, dataset_with_measures_has_fact_columns |].
    change (PowerBI.f_final_price <$> imap (PowerBI.fact_of_ride ties) [r; r])
      with [round2 (ties "final_price" 0%nat) (Q2Qc (10004 # 1000));
            round2 (ties "final_price" 1%nat) (Q2Qc (10004 # 1000))].
    assert (forall up, round2 up (Q2Qc (10004 # 1000)) = of_Z 10) as ->
      by (intros [|]; qc_compute).
    assert (forall up, round2 up (Q2Qc (10004 # 1000)) = of_Z 10) as ->
      by (intros [|]; qc_compute).
    qc_compute.
  - destruct (calculate_all_kpis_rows [r; r] ltac:(discriminate))
      as (k & Hk & Htotal & _).
    exists k. split; [done |]. rewrite Htotal. qc_compute.
Qed.

(** * Properties of the further code *)

(** ** [unique] and group keys *)

Lemma unique_NoDup `{Countable A} (l : list A) : NoDup (unique l).
Proof.
  destruct (drop_duplicates_keys (@id A) l) as [Hnd _].
  by rewrite list_fmap_id in Hnd.
Qed.

Lemma elem_of_unique `{Countable A} (l : list A) (x : A) : x ∈ unique l <-> x ∈ l.
Proof.
  destruct (drop_duplicates_keys (@id A) l) as [_ Hk].
  specialize (Hk x). by rewrite !list_fmap_id in Hk.
Qed.

Lemma length_unique `{Countable A} (l : list A) :
  length (unique l) = size (list_to_set l : gset A).
Proof. unfold unique. by rewrite length_drop_duplicates, list_fmap_id. Qed.

Lemma group_keys_NoDup (column : list string) : NoDup (group_keys column).
Proof.
  unfold group_keys. rewrite merge_sort_Permutation. apply unique_NoDup.
Qed.

Lemma elem_of_group_keys (column : list string) (k : string) :
  k ∈ group_keys column <-> k ∈ column.
Proof.
  unfold group_keys. rewrite merge_sort_Permutation. apply elem_of_unique.
Qed.

Lemma dict_get_fmap_key {V : Type} (f : string -> V) (ks : list string) (k : string) :
  dict_get k ((fun k' => (k', f k')) <$> ks) = if decide (k ∈ ks) then Some (f k) else None.
Proof.
  induction ks as [| a ks IH].
  - by rewrite decide_False by apply not_elem_of_nil.
  - rewrite fmap_cons. cbn [dict_get]. destruct (decide (a = k)) as [Ha | Ha].
    + subst a. by rewrite decide_True by left.
    + rewrite IH. destruct (decide (k ∈ ks)) as [Hin | Hnin].
      * by rewrite decide_True by (by right).
      * rewrite decide_False; [done |]. rewrite elem_of_cons.
        intros [-> | Hin]; done.
Qed.

(** ** The vehicle dimension *)

Section VehicleDimension.
Import PowerBIDims.

Lemma loc_assign_fold_rows (vehicle : string) (chars : list (string * cell))
    (t : vehicle_table) :
  vt_rows (foldl (fun t' kv => loc_assign vehicle kv.1 kv.2 t') t chars)
  = (fun r => if decide (v_vehicle_type r = vehicle) then set_attrs chars r else r)
      <$> vt_rows t.
Proof.
  revert t. induction chars as [| [k v] chars IH]; intros t; simpl.
  - rewrite <- (list_fmap_id (vt_rows t)) at 1. apply list_fmap_ext.
    intros _ [ty id attrs] _. simpl. by case_decide.
  - rewrite IH. simpl. rewrite <- list_fmap_compose. apply list_fmap_ext.
    intros _ r _. simpl. by repeat (case_decide; simpl in * ).
Qed.

Lemma enrich_fold_rows (vs : list string) (t : vehicle_table) :
  vt_rows (foldl (fun t vehicle =>
                    match dict_get vehicle vehicle_characteristics with
                    | Some chars =>
                        foldl (fun t' kv => loc_assign vehicle kv.1 kv.2 t') t chars
                    | None => t
                    end) t vs)
  = (fun r => foldl enrich_step r vs) <$> vt_rows t.
Proof.
  revert t. induction vs as [| a vs IH]; intros t.
  - by rewrite list_fmap_id.
  - cbn [foldl]. rewrite IH.
    destruct (dict_get a vehicle_characteristics) as [chars |] eqn:Hd.
    + rewrite loc_assign_fold_rows, <- list_fmap_compose.
      apply list_fmap_ext. intros _ r _. simpl. f_equal.
      unfold enrich_step. by rewrite Hd.
    + apply list_fmap_ext. intros _ r _. simpl. f_equal.
      unfold enrich_step. by rewrite Hd.
Qed.

Lemma enrich_fold_keys (vs : list string) (r : vehicle_row) :
  v_vehicle_type (foldl enrich_step r vs) = v_vehicle_type r /\
  v_vehicle_id (foldl enrich_step r vs) = v_vehicle_id r.
Proof.
  revert r. induction vs as [| a vs IH]; intros r; simpl; [done |].
  destruct (IH (enrich_step r a)) as [-> ->]. unfold enrich_step.
  destruct (dict_get a vehicle_characteristics); [| done].
  by case_decide.
Qed.

Lemma enrich_fold_attrs (vs : list string) (r : vehicle_row) :
  NoDup vs ->
  v_attrs (foldl enrich_step r vs)
  = if decide (v_vehicle_type r ∈ vs)
    then match dict_get (v_vehicle_type r) vehicle_characteristics with
         | Some chars => foldl (fun m kv => <[kv.1 := kv.2]> m) (v_attrs r) chars
         | None => v_attrs r
         end
    else v_attrs r.
Proof.
  revert r. induction vs as [| a vs IH]; intros r Hnd.
  - by rewrite decide_False by apply not_elem_of_nil.
  - cbn [foldl]. apply NoDup_cons in Hnd as [Ha Hnd]. rewrite IH by done.
    destruct (decide (v_vehicle_type r = a)) as [Heq | Hne].
    + assert (v_vehicle_type (enrich_step r a) = a) as Hty.
      { unfold enrich_step. destruct (dict_get a _); [| done].
        by rewrite decide_True. }
      rewrite Hty, decide_False by done.
      rewrite (decide_True (P := v_vehicle_type r ∈ a :: vs)) by (subst a; left).
      unfold enrich_step. rewrite Heq.
      destruct (dict_get a vehicle_characteristics); [| done].
      by rewrite decide_True.
    + assert (enrich_step r a = r) as ->.
      { unfold enrich_step. destruct (dict_get a _); [| done].
        by rewrite decide_False. }
      destruct (decide (v_vehicle_type r ∈ vs)) as [Hin | Hnin].
      * by rewrite (decide_True (P := _ ∈ a :: vs)) by (by right).
      * rewrite (decide_False (P := _ ∈ a :: vs)); [done |].
        rewrite elem_of_cons. intros [Heq | Hin]; done.
Qed.

Lemma foldl_insert_lookup (chars : list (string * cell)) (m : gmap string cell)
    (key : string) :
  NoDup chars.*1 ->
  foldl (fun m kv => <[kv.1 := kv.2]> m) m chars !! key
  = match dict_get key chars with Some v => Some v | None => m !! key end.
Proof.
  revert m. induction chars as [| [k v] chars IH]; intros m Hnd; simpl; [done |].
  apply NoDup_cons in Hnd as [Hk Hnd]. rewrite IH by done.
  case_decide as Hkey.
  - subst k. assert (dict_get key chars = None) as ->.
    { clear -Hk. induction chars as [| [k' v'] chars IH]; simpl; [done |].
      simpl in Hk. rewrite not_elem_of_cons in Hk. destruct Hk as [Hne Hk].
      rewrite decide_False by done. by apply IH. }
    by rewrite lookup_insert_eq.
  - destruct (dict_get key chars); [done |]. by rewrite lookup_insert_ne.
Qed.

Lemma vehicle_characteristics_keys (v : string) (chars : list (string * cell)) :
  dict_get v vehicle_characteristics = Some chars ->
  NoDup chars.*1 /\
  chars.*1 = ["capacity"; "base_fare_per_km"; "surge_sensitivity";
              "weather_impact"; "category"].
Proof.
  unfold vehicle_characteristics. simpl.
  repeat case_decide; intros Heq; try discriminate Heq;
    injection Heq as <-; (split; [by_evaluation | reflexivity]).
Qed.

Lemma initial_vehicle_rows (vs : list string) (n : nat) :
  v_vehicle_type <$> imap (fun i v => {| v_vehicle_type := v;
                                         v_vehicle_id := n + i + 1;
                                         v_attrs := ∅ |}) vs = vs /\
  v_vehicle_id <$> imap (fun i v => {| v_vehicle_type := v;
                                       v_vehicle_id := n + i + 1;
                                       v_attrs := ∅ |}) vs = seq (n + 1) (length vs).
Proof.
  revert n. induction vs as [| a vs IH]; intros n; [done |].
  rewrite imap_cons, !fmap_cons.
  assert (imap ((fun i v => {| v_vehicle_type := v; v_vehicle_id := n + i + 1;
                               v_attrs := ∅ |}) ∘ S) vs
          = imap (fun i v => {| v_vehicle_type := v; v_vehicle_id := S n + i + 1;
                                v_attrs := ∅ |}) vs) as ->
    by (apply imap_ext; intros i v _; simpl; f_equal; lia).
  destruct (IH (S n)) as [-> ->]. split; [done |].
  cbn [length seq v_vehicle_id].
  replace (S n + 1)%nat with (S (n + 1)) by lia.
  f_equal. lia.
Qed.

Lemma vehicle_dimension_rows (df : frame) :
  vt_rows (create_vehicle_dimension df)
  = (fun r => foldl enrich_step r (unique (vehicle_type <$> df)))
      <$> imap (fun i v => {| v_vehicle_type := v;
                              v_vehicle_id := i + 1;
                              v_attrs := ∅ |}) (unique (vehicle_type <$> df)).
Proof. unfold create_vehicle_dimension. by rewrite enrich_fold_rows. Qed.

Lemma vehicle_dimension_types_ids (df : frame) :
  v_vehicle_type <$> vt_rows (create_vehicle_dimension df)
    = unique (vehicle_type <$> df) /\
  v_vehicle_id <$> vt_rows (create_vehicle_dimension df)
    = seq 1 (length (unique (vehicle_type <$> df))).
Proof.
  rewrite vehicle_dimension_rows.
  set (vs := unique (vehicle_type <$> df)).
  destruct (initial_vehicle_rows vs 0) as [Hty Hid]. simpl in Hty, Hid.
  split.
  - rewrite <- list_fmap_compose. rewrite <- Hty at 2.
    apply list_fmap_ext. intros _ r _. simpl. apply enrich_fold_keys.
  - rewrite <- Hid, <- list_fmap_compose. apply list_fmap_ext.
    intros _ r _. simpl. apply enrich_fold_keys.
Qed.

Lemma vehicle_dimension_types_elem (df : frame) (v : string) :
  v ∈ v_vehicle_type <$> vt_rows (create_vehicle_dimension df)
  <-> v ∈ vehicle_type <$> df.
Proof.
  rewrite (proj1 (vehicle_dimension_types_ids df)). apply elem_of_unique.
Qed.

(** X1. The vehicle dimension has exactly one row per distinct vehicle type
    of the frame, in order of first appearance, numbered 1, 2, ... *)
Theorem vehicle_dimension_unique (df : frame) :
  v_vehicle_type <$> vt_rows (create_vehicle_dimension df)
    = unique (vehicle_type <$> df) /\
  NoDup (v_vehicle_type <$> vt_rows (create_vehicle_dimension df)) /\
  (forall v, v ∈ v_vehicle_type <$> vt_rows (create_vehicle_dimension df)
             <-> v ∈ vehicle_type <$> df) /\
  length (vt_rows (create_vehicle_dimension df))
    = distinct_count (vehicle_type <$> df) /\
  v_vehicle_id <$> vt_rows (create_vehicle_dimension df)
    = seq 1 (length (vt_rows (create_vehicle_dimension df))).
Proof.
  destruct (vehicle_dimension_types_ids df) as [Hty Hid].
  assert (length (vt_rows (create_vehicle_dimension df))
          = length (unique (vehicle_type <$> df))) as Hlen
    by (by rewrite <- Hty, length_fmap).
  split; [done |]. split; [rewrite Hty; apply unique_NoDup |].
  split; [apply vehicle_dimension_types_elem |].
  split; [rewrite Hlen; unfold distinct_count; apply length_unique |].
  by rewrite Hlen.
Qed.

Lemma vehicle_known_iff (v : string) :
  is_Some (dict_get v vehicle_characteristics) <-> v ∈ ["bike"; "auto"; "cab"].
Proof.
  unfold vehicle_characteristics. cbn [dict_get]. rewrite !elem_of_cons, elem_of_nil.
  repeat case_decide; subst; split; intros Hv; eauto; try tauto.
  all: try (destruct Hv as [chars Hv]; discriminate Hv).
  all: destruct Hv as [Hv | [Hv | [Hv | []]]]; congruence.
Qed.

(** X2. Every row of the vehicle dimension carries, for each attribute, the
    value the lookup table gives for its vehicle type; a vehicle type the
    table does not know keeps its key columns only (all attribute cells
    missing), and the builder does not fail on it. *)
Theorem vehicle_dimension_attributes (df : frame) (row : vehicle_row) :
  row ∈ vt_rows (create_vehicle_dimension df) ->
  v_vehicle_type row ∈ vehicle_type <$> df /\
  (forall key,
     v_attrs row !! key
     = dict_get (v_vehicle_type row) vehicle_characteristics ≫= dict_get key) /\
  (v_vehicle_type row ∉ ["bike"; "auto"; "cab"] -> v_attrs row = ∅).
Proof.
  intros Hrow.
  assert (v_vehicle_type row ∈ vehicle_type <$> df) as Hty.
  { apply vehicle_dimension_types_elem. by apply list_elem_of_fmap_2. }
  rewrite vehicle_dimension_rows in Hrow.
  apply list_elem_of_fmap in Hrow as (r0 & -> & Hr0).
  apply elem_of_lookup_imap in Hr0 as (i & v & -> & Hv).
  destruct (enrich_fold_keys (unique (vehicle_type <$> df))
              {| v_vehicle_type := v; v_vehicle_id := i + 1; v_attrs := ∅ |})
    as [Hkt _].
  simpl in Hkt. rewrite Hkt in *.
  rewrite enrich_fold_attrs by apply unique_NoDup. cbn [v_vehicle_type v_attrs].
  rewrite decide_True by (by apply elem_of_unique).
  split; [done |]. split.
  - intros key. destruct (dict_get v vehicle_characteristics) as [chars |] eqn:Hd.
    + rewrite foldl_insert_lookup by (by eapply vehicle_characteristics_keys).
      rewrite lookup_empty. simpl. by destruct (dict_get key chars).
    + by rewrite lookup_empty.
  - intros Hunknown.
    destruct (dict_get v vehicle_characteristics) as [chars |] eqn:Hd; [| done].
    destruct Hunknown. apply vehicle_known_iff. by rewrite Hd.
Qed.

Lemma vehicle_dimension_attributes_witness :
  exists row, row ∈ vt_rows (create_vehicle_dimension mixed_trips) /\
    v_vehicle_type row = "e-rickshaw" /\ v_attrs row = ∅ /\
  exists row', row' ∈ vt_rows (create_vehicle_dimension mixed_trips) /\
    v_vehicle_type row' = "auto" /\ v_attrs row' !! "capacity" = Some (CInt 3).
Proof.
  assert ("e-rickshaw" ∈ v_vehicle_type <$> vt_rows (create_vehicle_dimension mixed_trips))
    as (row & Hty & Hrow)%list_elem_of_fmap_1.
  { apply vehicle_dimension_types_elem. unfold mixed_trips. simpl. in_list. }
  assert ("auto" ∈ v_vehicle_type <$> vt_rows (create_vehicle_dimension mixed_trips))
    as (row' & Hty' & Hrow')%list_elem_of_fmap_1.
  { apply vehicle_dimension_types_elem. unfold mixed_trips. simpl. in_list. }
  symmetry in Hty, Hty'.
  exists row. split; [done |]. split; [done |]. split.
  - destruct (vehicle_dimension_attributes mixed_trips row Hrow) as (_ & _ & Hempty).
    apply Hempty. rewrite Hty. intros Hin.
    repeat (apply elem_of_cons in Hin as [Hin | Hin]; [discriminate Hin |]).
    by apply elem_of_nil in Hin.
  - exists row'. split; [done |]. split; [done |].
    destruct (vehicle_dimension_attributes mixed_trips row' Hrow') as (_ & Hattr & _).
    rewrite Hattr, Hty'. reflexivity.
Defined.

Lemma loc_assign_fold_columns (vehicle : string) (chars : list (string * cell))
    (t : vehicle_table) :
  vt_columns (foldl (fun t' kv => loc_assign vehicle kv.1 kv.2 t') t chars)
  = foldl (fun (cols : list string) k =>
             if decide (k ∈ cols) then cols else (cols ++ [k])%list)
          (vt_columns t) chars.*1.
Proof.
  revert t. induction chars as [| [k v] chars IH]; intros t; [done |].
  cbn [foldl fmap list_fmap]. by rewrite IH.
Qed.

Lemma enrich_fold_columns (vs : list string) (t : vehicle_table) :
  vt_columns t = ["vehicle_type"; "vehicle_id"] \/
  vt_columns t = ["vehicle_type"; "vehicle_id"; "capacity"; "base_fare_per_km";
                  "surge_sensitivity"; "weather_impact"; "category"] ->
  vt_columns (foldl (fun t vehicle =>
                       match dict_get vehicle vehicle_characteristics with
                       | Some chars =>
                           foldl (fun t' kv => loc_assign vehicle kv.1 kv.2 t') t chars
                       | None => t
                       end) t vs)
  = if decide (Exists (fun v => v ∈ ["bike"; "auto"; "cab"]) vs)
    then ["vehicle_type"; "vehicle_id"; "capacity"; "base_fare_per_km";
          "surge_sensitivity"; "weather_impact"; "category"]
    else vt_columns t.
Proof.
  revert t. induction vs as [| a vs IH]; intros t Hcols.
  - rewrite decide_False; [done |]. by intros H%Exists_nil.
  - cbn [foldl].
    destruct (dict_get a vehicle_characteristics) as [chars |] eqn:Hd.
    + assert (a ∈ ["bike"; "auto"; "cab"]) as Ha
        by (apply vehicle_known_iff; by rewrite Hd).
      destruct (vehicle_characteristics_keys a chars Hd) as [_ Hkeys].
      assert (vt_columns (foldl (fun t' kv => loc_assign a kv.1 kv.2 t') t chars)
              = ["vehicle_type"; "vehicle_id"; "capacity"; "base_fare_per_km";
                 "surge_sensitivity"; "weather_impact"; "category"]) as Hfull.
      { rewrite loc_assign_fold_columns, Hkeys.
        destruct Hcols as [-> | ->]; vm_compute; reflexivity. }
      rewrite IH by (right; exact Hfull).
      rewrite (decide_True (P := Exists _ (a :: vs))) by (by left).
      by case_decide.
    + assert (a ∉ ["bike"; "auto"; "cab"]) as Ha.
      { intros Ha%vehicle_known_iff. rewrite Hd in Ha. by destruct Ha. }
      rewrite IH by done.
      destruct (decide (Exists (fun v => v ∈ ["bike"; "auto"; "cab"]) vs)) as [He | He].
      * by rewrite decide_True by (by right).
      * rewrite decide_False; [done |]. intros Hex%Exists_cons. tauto.
Qed.

(** X3. The attribute columns of the vehicle dimension exist exactly when
    some vehicle type of the frame is in the lookup table; with none the
    table has its two key columns only. *)
Theorem vehicle_dimension_columns (df : frame) :
  ((exists r, r ∈ df /\ vehicle_type r ∈ ["bike"; "auto"; "cab"]) ->
     vt_columns (create_vehicle_dimension df)
     = ["vehicle_type"; "vehicle_id"; "capacity"; "base_fare_per_km";
        "surge_sensitivity"; "weather_impact"; "category"]) /\
  ((forall r, r ∈ df -> vehicle_type r ∉ ["bike"; "auto"; "cab"]) ->
     vt_columns (create_vehicle_dimension df) = ["vehicle_type"; "vehicle_id"]).
Proof.
  unfold create_vehicle_dimension. rewrite enrich_fold_columns by (by left).
  cbn [vt_columns]. split.
  - intros (r & Hr & Hknown). rewrite decide_True; [done |].
    apply Exists_exists. exists (vehicle_type r). split; [| done].
    apply elem_of_unique. by apply list_elem_of_fmap_2.
  - intros Hnone. rewrite decide_False; [done |].
    intros (v & Hv & Hknown)%Exists_exists.
    apply elem_of_unique, list_elem_of_fmap in Hv as (r & -> & Hr).
    by apply (Hnone r).
Qed.

Lemma vehicle_dimension_columns_witness :
  length (vt_columns (create_vehicle_dimension mixed_trips)) = 7%nat /\
  vt_columns (create_vehicle_dimension
                [sample_trip "T4" "e-rickshaw" "Old Bus Stand" "Gandhi Road"
                   19750 23 true 0 40 40 9])
  = ["vehicle_type"; "vehicle_id"].
Proof.
  split.
  - rewrite (proj1 (vehicle_dimension_columns mixed_trips)); [reflexivity |].
    eexists. split; [unfold mixed_trips; apply list_elem_of_here |].
    simpl. in_list.
  - apply (proj2 (vehicle_dimension_columns _)). intros r Hr.
    apply list_elem_of_singleton in Hr as ->. simpl. intros Hin.
    repeat (apply elem_of_cons in Hin as [Hin | Hin]; [discriminate Hin |]).
    by apply elem_of_nil in Hin.
Defined.

End VehicleDimension.

(** ** Cutting a measure into bands *)

(** Four right-closed bands above a lower edge, the last one unbounded. *)
Lemma cut_measure_bands (b0 b1 b2 b3 x : Qc) (l0 l1 l2 l3 : string) :
  (b0 < b1)%Qc -> (b1 < b2)%Qc -> (b2 < b3)%Qc ->
  cut_measure [Fin b0; Fin b1; Fin b2; Fin b3; PInf] [l0; l1; l2; l3] (Fin x)
  = if decide (x <= b0)%Qc then None
    else if decide (x <= b1)%Qc then Some l0
    else if decide (x <= b2)%Qc then Some l1
    else if decide (x <= b3)%Qc then Some l2
    else Some l3.
Proof.
  intros H01 H12 H23. cbn [cut_measure flt fle].
  repeat case_bool_decide; repeat case_decide; simpl; try reflexivity;
    exfalso; qc_order.
Qed.

(** X4. The revenue and surge categories of the prepared frame follow
    right-closed bands: a price of exactly 50, 100 or 200 falls in the lower
    band, as does a multiplier of exactly 1.2, 1.5 or 2.0; a price or
    multiplier that is zero or negative gets no category at all. *)
Theorem prepared_categories (r : ride) :
  PowerBIDims.revenue_category r
  = (if decide (final_price r <= of_Z 0)%Qc then None
     else if decide (final_price r <= of_Z 50)%Qc then Some "Low"
     else if decide (final_price r <= of_Z 100)%Qc then Some "Medium"
     else if decide (final_price r <= of_Z 200)%Qc then Some "High"
     else Some "Premium") /\
  PowerBIDims.surge_category r
  = (if decide (surge_multiplier r <= of_Z 0)%Qc then None
     else if decide (surge_multiplier r <= Q2Qc (12 # 10))%Qc then Some "Normal"
     else if decide (surge_multiplier r <= Q2Qc (15 # 10))%Qc then Some "Low Surge"
     else if decide (surge_multiplier r <= of_Z 2)%Qc then Some "High Surge"
     else Some "Peak Surge") /\
  (PowerBIDims.revenue_category r = None <-> (final_price r <= 0)%Qc) /\
  (PowerBIDims.surge_category r = None <-> (surge_multiplier r <= 0)%Qc).
Proof.
  assert (of_Z 0 = 0%Qc) as Hz by qc_compute.
  unfold PowerBIDims.revenue_category, PowerBIDims.surge_category.
  rewrite !cut_measure_bands by (vm_compute; reflexivity).
  split; [done |]. split; [done |]. rewrite Hz.
  split; repeat case_decide; split; intros; done.
Qed.

(** ** The location and route dimensions *)

Lemma imap_positions {A : Type} (l : list A) :
  imap (fun i (_ : A) => (i + 1)%nat) l = seq 1 (length l).
Proof.
  rewrite (imap_ext _ (fun i _ => S (0 + i))) by (intros; simpl; lia).
  rewrite (imap_seq l S 0). by rewrite fmap_S_seq.
Qed.

(** X5. The location dimension lists every origin and destination of the
    frame exactly once (a place that is both an origin and a destination is
    one row), numbered 1, 2, ... in order, and nothing else. *)
Theorem location_dimension_unique (df : frame) :
  NoDup (PowerBIDims.l_location_name <$> PowerBIDims.location_dim df) /\
  (forall name,
     name ∈ PowerBIDims.l_location_name <$> PowerBIDims.location_dim df <->
     exists r, r ∈ df /\ (from_location r = name \/ to_location r = name)) /\
  PowerBIDims.l_location_id <$> PowerBIDims.location_dim df
    = seq 1 (length (PowerBIDims.location_dim df)) /\
  Forall (fun row => PowerBIDims.l_location_category row
                     = PowerBIDims.categorize_location (PowerBIDims.l_location_name row))
         (PowerBIDims.location_dim df).
Proof.
  unfold PowerBIDims.location_dim.
  set (names := unique ((from_location <$> df) ++ (to_location <$> df))).
  assert (PowerBIDims.l_location_name
            <$> imap (fun i name =>
                        {| PowerBIDims.l_location_name := name;
                           PowerBIDims.l_location_id := i + 1;
                           PowerBIDims.l_location_category :=
                             PowerBIDims.categorize_location name |}) names
          = names) as Hnames.
  { rewrite fmap_imap. etransitivity; [| apply (list_fmap_id names)].
    rewrite <- (imap_const id). apply imap_ext. done. }
  rewrite Hnames. split; [apply unique_NoDup |]. split.
  { intros name. unfold names. rewrite elem_of_unique, elem_of_app, !list_elem_of_fmap.
    split.
    - intros [(r & -> & Hr) | (r & -> & Hr)]; exists r; tauto.
    - intros (r & Hr & [<- | <-]); [left | right]; by exists r. }
  split.
  { rewrite fmap_imap, length_imap, <- imap_positions. by apply imap_ext. }
  apply Forall_forall. intros row (i & name & -> & _)%elem_of_lookup_imap. done.
Qed.

Lemma omap_all_Some {A B : Type} (f : A -> option B) (g : A -> B) (l : list A) :
  (forall x, x ∈ l -> f x = Some (g x)) -> omap f l = g <$> l.
Proof.
  induction l as [| a l IH]; intros Hall; [done |].
  cbn [omap list_omap]. rewrite (Hall a) by left. rewrite fmap_cons. f_equal.
  apply IH. intros x Hx. apply Hall. by right.
Qed.

Lemma route_stats_lookup (ties : tie_breaks string) (df : frame) (r : ride) :
  r ∈ df ->
  dict_get (PowerBI.location_route_id r) (PowerBIDims.route_stats_of ties df)
  = Some (PowerBIDims.agg_route
            (fun label => ties label (PowerBI.location_route_id r))
            (PowerBIDims.rides_of_route (PowerBI.location_route_id r) df)).
Proof.
  intros Hr. unfold PowerBIDims.route_stats_of.
  rewrite (dict_get_fmap_key
             (fun id => PowerBIDims.agg_route (fun label => ties label id)
                                              (PowerBIDims.rides_of_route id df))).
  rewrite decide_True; [done |].
  apply elem_of_group_keys. by apply list_elem_of_fmap_2.
Qed.

Lemma route_combinations_rides (df : frame) (ir : nat * ride) :
  ir ∈ drop_duplicates (fun ir => PowerBIDims.route_columns ir.2) (with_index df) ->
  df !! ir.1 = Some ir.2 /\ ir.2 ∈ df.
Proof.
  intros Hir%drop_duplicates_from_subset. destruct ir as [i r].
  apply elem_of_with_index in Hir. split; [done |]. by eapply list_elem_of_lookup_2.
Qed.

(** The merge loses no route row: the stats of every route id exist. *)
Lemma route_dim_rows (ties : tie_breaks string) (df : frame) :
  PowerBIDims.route_dim ties df
  = (fun ir : nat * ride =>
       let s := PowerBIDims.agg_route
                  (fun label => ties label (PowerBI.location_route_id ir.2))
                  (PowerBIDims.rides_of_route (PowerBI.location_route_id ir.2) df) in
       {| PowerBIDims.r_from_location := from_location ir.2;
          PowerBIDims.r_to_location := to_location ir.2;
          PowerBIDims.r_location_route_id := PowerBI.location_route_id ir.2;
          PowerBIDims.r_route_id := ir.1 + 1;
          PowerBIDims.r_stats := s;
          PowerBIDims.r_distance_category :=
            cut_measure [Fin (of_Z 0); Fin (of_Z 5); Fin (of_Z 10); Fin (of_Z 15); PInf]
                        ["Short"; "Medium"; "Long"; "Extra Long"]
                        (PowerBIDims.s_avg_distance s);
          PowerBIDims.r_popularity_category :=
            cut_measure [Fin (of_Z 0); Fin (of_Z 50); Fin (of_Z 200); Fin (of_Z 500); PInf]
                        ["Low"; "Medium"; "High"; "Very High"]
                        (Fin (of_Z (Z.of_nat (PowerBIDims.s_total_trips s)))) |})
    <$> drop_duplicates (fun ir => PowerBIDims.route_columns ir.2) (with_index df).
Proof.
  unfold PowerBIDims.route_dim. apply omap_all_Some.
  intros ir Hir. apply route_combinations_rides in Hir as [_ Hr].
  by rewrite route_stats_lookup.
Qed.

Lemma route_dim_covers (ties : tie_breaks string) (df : frame) (r : ride) :
  r ∈ df ->
  exists row, row ∈ PowerBIDims.route_dim ties df /\
    PowerBIDims.r_from_location row = from_location r /\
    PowerBIDims.r_to_location row = to_location r /\
    PowerBIDims.r_location_route_id row = PowerBI.location_route_id r.
Proof.
  rewrite route_dim_rows.
  set (key := fun ir : nat * ride => PowerBIDims.route_columns ir.2).
  set (kept := drop_duplicates key (with_index df)).
  destruct (drop_duplicates_keys key (with_index df)) as [_ Hk]. fold kept in Hk.
  intros Hr. destruct (list_elem_of_lookup_1 _ _ Hr) as [i Hi].
  assert (key (i, r) ∈ key <$> kept) as (ir & Heq & Hir)%list_elem_of_fmap.
  { apply Hk, list_elem_of_fmap. exists (i, r). split; [done |].
    by apply elem_of_with_index. }
  eexists. split; [apply list_elem_of_fmap_2, Hir |].
  unfold key, PowerBIDims.route_columns in Heq. simpl in *.
  injection Heq as -> -> ->. done.
Qed.

(** X6. The route dimension has exactly one row per distinct
    (origin, destination) pair of the frame, every ride's pair has its row,
    and a row's route id is the index of the pair's first ride plus one: the
    ride at that index has the pair and no earlier ride has it. *)
Theorem route_dimension_unique (ties : tie_breaks string) (df : frame) :
  NoDup ((fun row => (PowerBIDims.r_from_location row, PowerBIDims.r_to_location row))
           <$> PowerBIDims.route_dim ties df) /\
  length (PowerBIDims.route_dim ties df)
    = size (list_to_set ((fun r => (from_location r, to_location r)) <$> df)
              : gset (string * string)) /\
  (forall r, r ∈ df ->
     exists row, row ∈ PowerBIDims.route_dim ties df /\
       PowerBIDims.r_from_location row = from_location r /\
       PowerBIDims.r_to_location row = to_location r /\
       PowerBIDims.r_location_route_id row = PowerBI.location_route_id r) /\
  (forall row, row ∈ PowerBIDims.route_dim ties df ->
     exists r, df !! (PowerBIDims.r_route_id row - 1)%nat = Some r /\
       (1 <= PowerBIDims.r_route_id row)%nat /\
       from_location r = PowerBIDims.r_from_location row /\
       to_location r = PowerBIDims.r_to_location row /\
       forall j r', (j < PowerBIDims.r_route_id row - 1)%nat -> df !! j = Some r' ->
         (from_location r', to_location r')
         <> (PowerBIDims.r_from_location row, PowerBIDims.r_to_location row)).
Proof.
  rewrite route_dim_rows.
  set (key := fun ir : nat * ride => PowerBIDims.route_columns ir.2).
  set (kept := drop_duplicates key (with_index df)).
  destruct (drop_duplicates_keys key (with_index df)) as [Hnd Hk]. fold kept in Hnd, Hk.
  assert (forall t t' : string * string * string,
            t ∈ key <$> kept -> t' ∈ key <$> kept ->
            (t.1.1, t.1.2) = (t'.1.1, t'.1.2) -> t = t') as Hinj.
  { intros t t' (ir & -> & _)%list_elem_of_fmap (ir' & -> & _)%list_elem_of_fmap.
    unfold key, PowerBIDims.route_columns, PowerBI.location_route_id. simpl.
    intros [= -> ->]. done. }
  assert (NoDup ((fun t : string * string * string => (t.1.1, t.1.2)) <$> (key <$> kept)))
    as Hpairs by (by apply NoDup_fmap_2_strong).
  rewrite <- list_fmap_compose in Hpairs.
  split.
  { rewrite <- list_fmap_compose. exact Hpairs. }
  split.
  { rewrite length_fmap.
    rewrite <- (length_fmap (fun ir : nat * ride => (from_location ir.2, to_location ir.2))).
    rewrite <- (size_list_to_set (C:=gset (string * string))) by exact Hpairs.
    f_equal. apply set_eq. intros p. rewrite !elem_of_list_to_set, !list_elem_of_fmap.
    split.
    - intros (ir & -> & Hir). apply route_combinations_rides in Hir as [_ Hr].
      by exists ir.2.
    - intros (r & -> & Hr). destruct (list_elem_of_lookup_1 _ _ Hr) as [i Hi].
      assert (key (i, r) ∈ key <$> kept) as (ir & Heq & Hir)%list_elem_of_fmap.
      { apply Hk, list_elem_of_fmap. exists (i, r). split; [done |].
        by apply elem_of_with_index. }
      exists ir. split; [| done]. unfold key, PowerBIDims.route_columns in Heq.
      simpl in Heq. congruence. }
  split.
  - intros r Hr. destruct (route_dim_covers ties df r Hr) as (row & Hrow & Hrest).
    exists row. split; [| done]. by rewrite route_dim_rows in Hrow.
  - intros row (ir & -> & Hir)%list_elem_of_fmap.
    apply (drop_duplicates_from_first key) in Hir as Hfirst.
    destruct Hfirst as (_ & i & Hlookup & Hfirst). destruct ir as [i' r].
    apply with_index_lookup in Hlookup as [<- Hi]. exists r. simpl.
    replace (i + 1 - 1)%nat with i by lia.
    split; [done |]. split; [lia |]. split; [done |]. split; [done |].
    intros j r' Hj Hr' [= Hfrom Hto].
    apply (Hfirst j (j, r')); [done | by apply with_index_lookup |].
    unfold key, PowerBIDims.route_columns, PowerBI.location_route_id. simpl.
    by rewrite Hfrom, Hto.
Qed.

Lemma of_Z_le (a b : Z) : (of_Z a <= of_Z b)%Qc <-> a <= b.
Proof.
  unfold of_Z, Qcle, Q2Qc. cbn [this]. rewrite !Qred_correct. by rewrite Zle_Qle.
Qed.

Lemma of_Z_lt (a b : Z) : (of_Z a < of_Z b)%Qc <-> a < b.
Proof.
  unfold of_Z, Qclt, Q2Qc. cbn [this]. rewrite !Qred_correct. by rewrite Zlt_Qlt.
Qed.

Lemma series_mean_finite (l : list Qc) :
  l <> [] -> series_mean l = Fin (average l).
Proof. apply series_mean_average. Qed.



(** ** Sums over groups *)

Lemma total_app (l1 l2 : list Qc) : total (l1 ++ l2) = (total l1 + total l2)%Qc.
Proof.
  induction l1 as [| x l1 IH]; simpl; [ring |]. rewrite IH. ring.
Qed.


Lemma total_plus {A : Type} (f g : A -> Qc) (l : list A) :
  total ((fun x => f x + g x)%Qc <$> l) = (total (f <$> l) + total (g <$> l))%Qc.
Proof.
  induction l as [| x l IH]; [simpl; ring |].
  rewrite !fmap_cons. cbn [total]. rewrite IH. ring.
Qed.

Lemma total_scale {A : Type} (f : A -> Qc) (c : Qc) (l : list A) :
  total ((fun x => f x * c)%Qc <$> l) = (total (f <$> l) * c)%Qc.
Proof.
  induction l as [| x l IH]; [simpl; ring |].
  rewrite !fmap_cons. cbn [total]. rewrite IH. ring.
Qed.

Lemma total_indicator `{EqDecision K} (ks : list K) (k0 : K) (c : Qc) :
  NoDup ks -> k0 ∈ ks ->
  total ((fun k => if decide (k0 = k) then c else 0%Qc) <$> ks) = c.
Proof.
  induction 1 as [| k ks Hk Hnd IH]; intros Hin; [by apply elem_of_nil in Hin |].
  rewrite fmap_cons. cbn [total].
  apply elem_of_cons in Hin as [-> | Hin].
  - rewrite decide_True by done.
    assert (total ((fun k' => if decide (k = k') then c else 0%Qc) <$> ks) = 0%Qc) as ->.
    { clear -Hk. induction ks as [| a ks IH]; [done |].
      rewrite not_elem_of_cons in Hk. destruct Hk as [Hne Hk].
      rewrite fmap_cons. cbn [total]. rewrite decide_False, IH by done. ring. }
    ring.
  - rewrite decide_False by (intros ->; done). rewrite IH by done. ring.
Qed.

(** The sums of a column over the groups of a key add up to the sum over the
    whole frame. *)
Lemma total_by_group {A : Type} `{EqDecision K} (key : A -> K) (col : A -> Qc)
    (ks : list K) (l : list A) :
  NoDup ks -> (forall x, x ∈ l -> key x ∈ ks) ->
  total ((fun k => total (col <$> filter (fun x => key x = k) l)) <$> ks)
  = total (col <$> l).
Proof.
  intros Hnd. induction l as [| x l IH]; intros Hall.
  - clear. induction ks as [| k ks IH]; [done |].
    rewrite fmap_cons. cbn [total]. rewrite IH. simpl. ring.
  - rewrite fmap_cons. cbn [total].
    rewrite <- IH by (intros y Hy; apply Hall; by right).
    rewrite <- (total_indicator ks (key x) (col x) Hnd) at 1 by (apply Hall; left).
    rewrite <- total_plus. f_equal. apply list_fmap_ext. intros _ k _.
    rewrite filter_cons. case_decide; [done |]. ring.
Qed.




(** ** Further KPIs *)

Lemma list_to_map_fmap_key `{Countable K} {V : Type} (f : K -> V) (ks : list K) (k : K) :
  (list_to_map ((fun k' => (k', f k')) <$> ks) : gmap K V) !! k
  = if decide (k ∈ ks) then Some (f k) else None.
Proof.
  induction ks as [| a ks IH].
  - rewrite decide_False by apply not_elem_of_nil. apply lookup_empty.
  - rewrite fmap_cons. cbn [list_to_map foldr curry]. cbn beta.
    destruct (decide (a = k)) as [-> | Hne].
    + rewrite lookup_insert_eq. by rewrite decide_True by left.
    + rewrite lookup_insert_ne, IH by done.
      destruct (decide (k ∈ ks)) as [Hin | Hnin].
      * by rewrite decide_True by (by right).
      * rewrite decide_False; [done |]. rewrite elem_of_cons.
        intros [-> | Hin]; done.
Qed.


Lemma fmap_key_snd {K V : Type} (f : K -> V) (ks : list K) :
  ((fun k => (k, f k)) <$> ks).*2 = f <$> ks.
Proof. by rewrite <- list_fmap_compose. Qed.


Lemma groupby_sum_total (key : ride -> string) (col : ride -> Qc) (df : frame) :
  total (Comprehensive.groupby_sum key col df).*2 = total (col <$> df).
Proof.
  unfold Comprehensive.groupby_sum. rewrite fmap_key_snd.
  assert ((fun k => series_sum (col <$> filter (fun r => key r = k) df))
            <$> group_keys (key <$> df)
          = (fun k => total (col <$> filter (fun r => key r = k) df))
              <$> group_keys (key <$> df)) as ->
    by (apply list_fmap_ext; intros; apply series_sum_total).
  apply total_by_group; [apply group_keys_NoDup |].
  intros r Hr. apply elem_of_group_keys. by apply list_elem_of_fmap_2.
Qed.


(** ** [value_counts] *)






(** ** Ratios and shares *)


Lemma Qc_div_bounds (s lo hi n : Qc) :
  (0 < n)%Qc -> (lo * n <= s)%Qc -> (s <= hi * n)%Qc ->
  (lo <= s / n)%Qc /\ (s / n <= hi)%Qc.
Proof.
  intros Hn Hlo Hhi.
  assert (n <> 0%Qc) as Hnz by (intros ->; by apply (Qclt_not_eq 0 0)).
  assert (s / n * n = s)%Qc as Hs by (field; done).
  split; apply (Qcmult_lt_0_le_reg_r _ _ n Hn); by rewrite Hs.
Qed.










Lemma fmul_nonfinite (x : fnum) (c : Qc) :
  is_finite x = false -> is_finite (fmul x (Fin c)) = false.
Proof.
  destruct x; intros Hx; [done | | | done]; cbn [fmul]; by repeat case_decide.
Qed.







(** X15. [revenue_diversification] has one entry per vehicle type of the
    frame.  When the total revenue is not zero the entries are the
    percentage shares of the vehicle types and add up to 100; when it is
    zero every entry is an infinity or NaN. *)
Theorem revenue_diversification_shares (df : frame) :
  (forall v,
     Comprehensive.revenue_diversification df !! v
     = if decide (v ∈ vehicle_type <$> df)
       then Some (fmul (fdiv (Fin (total (final_price
                                         <$> filter (fun r => vehicle_type r = v) df)))
                             (Fin (total (final_price <$> df))))
                       (Fin (of_Z 100)))
       else None) /\
  (total (final_price <$> df) <> 0%Qc ->
   (forall v, v ∈ vehicle_type <$> df ->
      Comprehensive.revenue_diversification df !! v
      = Some (Fin (total (final_price <$> filter (fun r => vehicle_type r = v) df)
                   / total (final_price <$> df) * of_Z 100)%Qc)) /\
   total ((fun v => total (final_price <$> filter (fun r => vehicle_type r = v) df)
                    / total (final_price <$> df) * of_Z 100)%Qc
            <$> unique (vehicle_type <$> df)) = of_Z 100) /\
  (total (final_price <$> df) = 0%Qc ->
   forall v x, Comprehensive.revenue_diversification df !! v = Some x ->
               is_finite x = false).
Proof.
  assert (forall v,
     Comprehensive.revenue_diversification df !! v
     = if decide (v ∈ vehicle_type <$> df)
       then Some (fmul (fdiv (Fin (total (final_price
                                         <$> filter (fun r => vehicle_type r = v) df)))
                             (Fin (total (final_price <$> df))))
                       (Fin (of_Z 100)))
       else None) as Hlookup.
  { intros v. unfold Comprehensive.revenue_diversification. cbn zeta.
    rewrite series_sum_total, groupby_sum_total.
    unfold Comprehensive.groupby_sum. rewrite <- list_fmap_compose.
    change (list_to_map (?g <$> ?ks) !! v)
      with ((list_to_map
               ((fun k : string =>
                   (k, fmul (fdiv (Fin (series_sum
                                          (final_price
                                             <$> filter (fun r => vehicle_type r = k) df)))
                                  (Fin (total (final_price <$> df))))
                            (Fin (of_Z 100))))
                <$> ks) : gmap string fnum) !! v).
    rewrite (list_to_map_fmap_key
               (fun k => fmul (fdiv (Fin (series_sum (final_price
                                            <$> filter (fun r => vehicle_type r = k) df)))
                                    (Fin (total (final_price <$> df))))
                              (Fin (of_Z 100)))).
    rewrite series_sum_total.
    destruct (decide (v ∈ vehicle_type <$> df)) as [Hin | Hnin].
    - by rewrite decide_True by (by apply elem_of_group_keys).
    - by rewrite decide_False by (by rewrite elem_of_group_keys). }
  split; [done |]. split.
  - intros Hnz. split.
    + intros v Hv. rewrite Hlookup, decide_True by done.
      by rewrite fdiv_nonzero_divisor.
    + assert ((fun v => total (final_price <$> filter (fun r => vehicle_type r = v) df)
                        / total (final_price <$> df) * of_Z 100)%Qc
                <$> unique (vehicle_type <$> df)
              = (fun v => total (final_price <$> filter (fun r => vehicle_type r = v) df)
                          * (/ total (final_price <$> df) * of_Z 100))%Qc
                  <$> unique (vehicle_type <$> df)) as ->
        by (apply list_fmap_ext; intros; unfold Qcdiv; ring).
      rewrite (total_scale
                 (fun v => total (final_price <$> filter (fun r => vehicle_type r = v) df))).
      rewrite (total_by_group vehicle_type final_price).
      * field. done.
      * apply unique_NoDup.
      * intros r Hr. apply elem_of_unique. by apply list_elem_of_fmap_2.
  - intros Hz v x. rewrite Hlookup, Hz. case_decide; [| done]. intros [= <-].
    apply fmul_nonfinite, fdiv_zero_divisor.
Qed.

Lemma revenue_diversification_shares_witness :
  Comprehensive.revenue_diversification mixed_trips !! "bike"
  = Some (Fin (Q2Qc (19000 # 310))).
Proof.
  destruct (proj1 (proj2 (revenue_diversification_shares mixed_trips))) as [Hv _].
  - vm_compute. discriminate.
  - rewrite Hv by (unfold mixed_trips; simpl; in_list). do 2 f_equal. qc_compute.
Defined.

(** ** [analyze_weather_impact] *)

Lemma select_bool_decide (P : ride -> Prop) `{forall r, Decision (P r)} (df : frame) :
  Comprehensive.select (fun r => bool_decide (P r)) df = filter P df.
Proof.
  unfold Comprehensive.select. apply list_filter_iff. intros r.
  apply bool_decide_eq_true.
Qed.

Lemma filter_nil_iff {A : Type} (P : A -> Prop) `{forall x, Decision (P x)} (l : list A) :
  filter P l = [] <-> forall x, x ∈ l -> ~ P x.
Proof.
  split.
  - intros Hnil x Hx HP. by eapply (filter_nil_not_elem_of P l x).
  - intros Hall. destruct (filter P l) as [| x l'] eqn:Hf; [done |].
    assert (x ∈ filter P l) as [HP Hx]%list_elem_of_filter by (rewrite Hf; left).
    by destruct (Hall x Hx).
Qed.

(** X16. In [rain_vs_clear_comparison] the three guarded differences are 0
    when the frame has no clear-weather ride; with clear rides but no rain
    ride they are NaN; with both they are the differences of the two means.
    [demand_difference] is always the number of rain rides minus the number
    of clear rides. *)
Theorem rain_vs_clear_differences (df : frame) :
  ((forall r, r ∈ df -> weather_condition r <> "Clear") ->
     Comprehensive.surge_difference (Comprehensive.rain_vs_clear_comparison df)
       = Fin 0%Qc /\
     Comprehensive.price_difference (Comprehensive.rain_vs_clear_comparison df)
       = Fin 0%Qc /\
     Comprehensive.waiting_time_difference
       (Comprehensive.rain_vs_clear_comparison df) = Fin 0%Qc) /\
  ((exists r, r ∈ df /\ weather_condition r = "Clear") ->
   (forall r, r ∈ df -> weather_condition r <> "Rain") ->
     Comprehensive.surge_difference (Comprehensive.rain_vs_clear_comparison df)
       = NaN /\
     Comprehensive.price_difference (Comprehensive.rain_vs_clear_comparison df)
       = NaN /\
     Comprehensive.waiting_time_difference
       (Comprehensive.rain_vs_clear_comparison df) = NaN /\
     Comprehensive.demand_difference (Comprehensive.rain_vs_clear_comparison df)
       < 0) /\
  ((exists r, r ∈ df /\ weather_condition r = "Clear") ->
   (exists r, r ∈ df /\ weather_condition r = "Rain") ->
     Comprehensive.surge_difference (Comprehensive.rain_vs_clear_comparison df)
       = Fin (average (surges_of "Rain" df) - average (surges_of "Clear" df))%Qc /\
     Comprehensive.price_difference (Comprehensive.rain_vs_clear_comparison df)
       = Fin (average (final_price <$> filter (fun r => weather_condition r = "Rain") df)
              - average (final_price
                           <$> filter (fun r => weather_condition r = "Clear") df))%Qc /\
     Comprehensive.waiting_time_difference
       (Comprehensive.rain_vs_clear_comparison df)
       = Fin (average (waiting_time_minutes
                         <$> filter (fun r => weather_condition r = "Rain") df)
              - average (waiting_time_minutes
                           <$> filter (fun r => weather_condition r = "Clear") df))%Qc) /\
  Comprehensive.demand_difference (Comprehensive.rain_vs_clear_comparison df)
  = Z.of_nat (length (filter (fun r => weather_condition r = "Rain") df))
    - Z.of_nat (length (filter (fun r => weather_condition r = "Clear") df)).
Proof.
  unfold Comprehensive.rain_vs_clear_comparison. cbn zeta.
  cbn [Comprehensive.surge_difference Comprehensive.price_difference
       Comprehensive.waiting_time_difference Comprehensive.demand_difference].
  rewrite !(select_bool_decide (fun r => weather_condition r = "Rain")),
    !(select_bool_decide (fun r => weather_condition r = "Clear")).
  set (rain := filter (fun r => weather_condition r = "Rain") df).
  set (clear := filter (fun r => weather_condition r = "Clear") df).
  split; [| split; [| split]]; [| | | done].
  - intros Hnone. assert (clear = []) as -> by (by apply filter_nil_iff). done.
  - intros (r & Hr & Hc) Hnorain.
    assert (rain = []) as -> by (by apply filter_nil_iff).
    assert (r ∈ clear) as Hin by (by apply list_elem_of_filter).
    destruct clear as [| c clear']; [by apply elem_of_nil in Hin |].
    rewrite !decide_True by (simpl; lia). cbn [fmap list_fmap series_mean fsub fadd].
    repeat split; simpl; lia.
  - intros (r & Hr & Hc) (r' & Hr' & Hc').
    assert (r ∈ clear) as Hin by (by apply list_elem_of_filter).
    assert (r' ∈ rain) as Hin' by (by apply list_elem_of_filter).
    assert (clear <> []) as Hne by (intros Heq; rewrite Heq in Hin; by apply elem_of_nil in Hin).
    assert (rain <> []) as Hne' by (intros Heq; rewrite Heq in Hin'; by apply elem_of_nil in Hin').
    rewrite !decide_True by (destruct clear; [done | simpl; lia]).
    rewrite !series_mean_average by (intros Hnil%fmap_nil_inv; done).
    repeat split; reflexivity.
Qed.

Lemma rain_vs_clear_differences_witness :
  Comprehensive.surge_difference (Comprehensive.rain_vs_clear_comparison rain_only)
  = Fin 0%Qc /\
  Comprehensive.surge_difference (Comprehensive.rain_vs_clear_comparison mixed_trips)
  = NaN.
Proof.
  split.
  - apply (proj1 (rain_vs_clear_differences rain_only)). intros r Hr.
    unfold rain_only in Hr.
    repeat (apply elem_of_cons in Hr as [-> | Hr]; [discriminate |]).
    by apply elem_of_nil in Hr.
  - apply (proj1 (proj2 (rain_vs_clear_differences mixed_trips))).
    + eexists. split; [unfold mixed_trips; apply list_elem_of_here | reflexivity].
    + intros r Hr. unfold mixed_trips in Hr.
      repeat (apply elem_of_cons in Hr as [-> | Hr]; [discriminate |]).
      by apply elem_of_nil in Hr.
Defined.

(** X17. The extreme-weather share divides two python ints: on an empty
    frame it raises ZeroDivisionError (where the numpy-based ratios give NaN);
    on a non-empty frame it is the percentage of rides in rain or
    thunderstorm, between 0 and 100. *)
Theorem extreme_weather_share_cases (df : frame) :
  (df = [] ->
   Comprehensive.extreme_weather_share df = Raises ZeroDivisionError) /\
  (df <> [] ->
   exists q,
     Comprehensive.extreme_weather_share df = Returns (Fin q) /\
     q = (of_Z (Z.of_nat (length (filter (fun r => weather_condition r = "Thunderstorm"
                                                   \/ weather_condition r = "Rain") df)))
          / of_Z (Z.of_nat (length df)) * of_Z 100)%Qc /\
     (0 <= q)%Qc /\ (q <= of_Z 100)%Qc).
Proof.
  split; [by intros -> |]. intros Hne.
  unfold Comprehensive.extreme_weather_share, truediv.
  cbn zeta. rewrite decide_False by (destruct df; [done | simpl; lia]).
  cbn [mbind outcome_bind fmul].
  rewrite (select_bool_decide (fun r => weather_condition r ∈ ["Thunderstorm"; "Rain"])).
  assert (filter (fun r => weather_condition r ∈ ["Thunderstorm"; "Rain"]) df
          = filter (fun r => weather_condition r = "Thunderstorm"
                             \/ weather_condition r = "Rain") df) as ->.
  { apply list_filter_iff. intros r. rewrite !elem_of_cons, elem_of_nil. tauto. }
  eexists. split; [reflexivity |]. split; [reflexivity |].
  set (g := filter _ df).
  destruct (Qc_div_bounds (of_Z (Z.of_nat (length g))) 0 1 (of_Z (Z.of_nat (length df))))
    as [Hlo Hhi].
  - change 0%Qc with (of_Z 0). apply of_Z_lt. destruct df; [done | simpl; lia].
  - rewrite Qcmult_0_l. change 0%Qc with (of_Z 0). apply of_Z_le. lia.
  - rewrite Qcmult_1_l. apply of_Z_le.
    pose proof (length_filter (fun r => weather_condition r = "Thunderstorm"
                                        \/ weather_condition r = "Rain") df).
    fold g in H. lia.
  - set (m := (of_Z (Z.of_nat (length g)) / of_Z (Z.of_nat (length df)))%Qc) in *.
    clearbody m. split; qc_order.
Qed.

Lemma extreme_weather_share_cases_witness :
  Comprehensive.extreme_weather_share [] = Raises ZeroDivisionError /\
  exists q, Comprehensive.extreme_weather_share three_rides = Returns (Fin q) /\
            (q <= of_Z 100)%Qc.
Proof.
  split.
  - by apply (proj1 (extreme_weather_share_cases [])).
  - destruct (proj2 (extreme_weather_share_cases three_rides)) as (q & Hq & _ & _ & Hhi);
      [discriminate |].
    by exists q.
Defined.

(** ** The repair scripts *)





Lemma quick_weather_dim_conditions (df : frame) (c : string) :
  (c ∈ QuickAnalysis.w_weather_condition <$> QuickAnalysis.weather_dim df)
  <-> (c ∈ weather_condition <$> df).
Proof.
  unfold QuickAnalysis.weather_dim. rewrite <- list_fmap_compose.
  destruct (drop_duplicates_keys weather_columns df) as [_ Hk].
  rewrite !list_elem_of_fmap. split.
  - intros (r & -> & Hr%drop_duplicates_from_subset). by exists r.
  - intros (r & -> & Hr).
    assert (weather_columns r ∈ weather_columns <$> drop_duplicates weather_columns df)
      as (r' & Heq & Hr')%list_elem_of_fmap by (apply Hk; by apply list_elem_of_fmap_2).
    exists r'. split; [| done]. unfold weather_columns in Heq. simpl. congruence.
Qed.

(** X19. fix_weather_dimension.py cannot repair the workbook that
    quick_analysis.py writes.  The [DimWeather] sheet is written with its
    header row, so its first column is labelled [weather_condition] and holds
    the conditions of the frame; the fix looks for [Column1] and raises
    [KeyError], whatever the rows are. *)
Theorem fix_raises_on_exported_sheet (df : frame) :
  sheet_columns (QuickAnalysisMore.dim_weather_sheet df) !! 0%nat
    = Some "weather_condition" /\
  (forall c, Some c ∈ cell_at 0 <$> sheet_rows (QuickAnalysisMore.dim_weather_sheet df)
             <-> c ∈ weather_condition <$> df) /\
  FixWeatherDimension.dim_weather_clean (QuickAnalysisMore.dim_weather_sheet df)
    = Raises (KeyError ["Column1"]).
Proof.
  split; [reflexivity |]. split.
  - intros c. rewrite <- quick_weather_dim_conditions.
    unfold QuickAnalysisMore.dim_weather_sheet. cbn [sheet_rows].
    rewrite <- list_fmap_compose, !list_elem_of_fmap. split.
    + intros (w & Hc & Hw). exists w. split; [| done].
      cbn in Hc. by injection Hc as ->.
    + intros (w & -> & Hw). by exists w.
  - reflexivity.
Qed.

(** X20. The dimension that create_clean_weather_dimension.py writes has the
    five known conditions, each once; the conditions it reports as missing
    are exactly the fact-table conditions outside those five, so the rebuilt
    dimension covers the fact table only when every condition is known. *)
Theorem clean_weather_dimension_missing (fact_conditions : list string) :
  CleanWeatherDimension.c_weather_condition <$> CleanWeatherDimension.dim_weather_clean
    = known_weather_conditions /\
  NoDup (CleanWeatherDimension.c_weather_condition
           <$> CleanWeatherDimension.dim_weather_clean) /\
  (forall c, c ∈ CleanWeatherDimension.missing_conditions fact_conditions
             <-> c ∈ fact_conditions /\ c ∉ known_weather_conditions) /\
  (CleanWeatherDimension.missing_conditions fact_conditions = ∅
   <-> forall c, c ∈ fact_conditions -> c ∈ known_weather_conditions).
Proof.
  assert (CleanWeatherDimension.c_weather_condition
            <$> CleanWeatherDimension.dim_weather_clean = known_weather_conditions)
    as Hknown by reflexivity.
  assert (forall c, c ∈ CleanWeatherDimension.missing_conditions fact_conditions
                    <-> c ∈ fact_conditions /\ c ∉ known_weather_conditions) as Hmiss.
  { intros c. unfold CleanWeatherDimension.missing_conditions.
    rewrite elem_of_difference, !elem_of_list_to_set, !elem_of_unique, Hknown. done. }
  split; [done |]. split; [rewrite Hknown; by_evaluation |]. split; [done |].
  split.
  - intros Hempty c Hc. destruct (decide (c ∈ known_weather_conditions)); [done |].
    assert (c ∈ CleanWeatherDimension.missing_conditions fact_conditions) as Hin
      by (by apply Hmiss).
    rewrite Hempty in Hin. by apply not_elem_of_empty in Hin.
  - intros Hall. apply set_eq. intros c. rewrite Hmiss. split.
    + intros [Hc Hn]. destruct Hn. by apply Hall.
    + by intros Hc%not_elem_of_empty.
Qed.

(** ** Route ranking *)

Lemma length_filter_strict {A : Type} (P Q : A -> Prop)
    `{forall x, Decision (P x)} `{forall x, Decision (Q x)} (l : list A) (z : A) :
  (forall x, P x -> Q x) -> z ∈ l -> Q z -> ~ P z ->
  (length (filter P l) < length (filter Q l))%nat.
Proof.
  intros HPQ. induction l as [| a l IH]; intros Hz HQ HnP; [by apply elem_of_nil in Hz |].
  assert (length (filter P l) <= length (filter Q l))%nat as Hle.
  { clear -HPQ. induction l as [| b l IH]; [done |].
    rewrite !filter_cons. destruct (decide (P b)) as [Hb | Hb].
    - rewrite decide_True by auto. simpl. lia.
    - case_decide; simpl; lia. }
  rewrite !filter_cons. apply elem_of_cons in Hz as [<- | Hz].
  - rewrite decide_False, decide_True by done. simpl. lia.
  - specialize (IH Hz HQ HnP). destruct (decide (P a)) as [Ha | Ha].
    + rewrite decide_True by auto. simpl. lia.
    + case_decide; simpl; lia.
Qed.

Lemma Qc_list_max (l : list Qc) :
  l <> [] -> exists m, m ∈ l /\ forall x, x ∈ l -> (x <= m)%Qc.
Proof.
  induction l as [| a l IH]; [done |]. intros _.
  destruct l as [| b l].
  - exists a. split; [left |]. intros x ->%list_elem_of_singleton. apply Qcle_refl.
  - destruct IH as (m & Hm & Hmax); [done |].
    destruct (decide (a <= m)%Qc) as [Ham | Ham].
    + exists m. split; [by right |]. intros x [-> | Hx]%elem_of_cons; auto.
    + exists a. split; [left |]. intros x [-> | Hx]%elem_of_cons; [apply Qcle_refl |].
      apply Qcle_trans with m; [auto |]. apply Qclt_le_weak. by apply Qcnot_le_lt.
Qed.

Lemma route_revenue_column (ties : tie_breaks string)
    (fact : list QuickAnalysis.fact_row) :
  RouteRanking.rr_total_revenue <$> RouteRanking.route_revenue ties fact
  = (fun a : string * (Qc * nat * Qc) => a.2.1.1) <$> RouteRanking.route_aggregates ties fact.
Proof. unfold RouteRanking.route_revenue. by rewrite <- list_fmap_compose. Qed.

Lemma route_revenue_rank (ties : tie_breaks string) (fact : list QuickAnalysis.fact_row)
    (row : RouteRanking.route_revenue_row) :
  row ∈ RouteRanking.route_revenue ties fact ->
  RouteRanking.rr_revenue_rank row
  = RouteRanking.rank_min_desc
      (RouteRanking.rr_total_revenue <$> RouteRanking.route_revenue ties fact)
      (RouteRanking.rr_total_revenue row).
Proof.
  rewrite route_revenue_column. unfold RouteRanking.route_revenue.
  by intros (a & -> & _)%list_elem_of_fmap.
Qed.

(** X21. In the route ranking every route has a rank between 1 and the
    number of routes; a route with a strictly larger (rounded) revenue has a
    strictly smaller rank and equal revenues share a rank; the routes of
    rank 1 are exactly those whose revenue no other route exceeds, and a
    non-empty fact table has at least one. *)
Theorem route_ranking (ties : tie_breaks string) (fact : list QuickAnalysis.fact_row) :
  (forall row, row ∈ RouteRanking.route_revenue ties fact ->
     (1 <= RouteRanking.rr_revenue_rank row <= length (RouteRanking.route_revenue ties fact))%nat) /\
  (forall row row',
     row ∈ RouteRanking.route_revenue ties fact -> row' ∈ RouteRanking.route_revenue ties fact ->
     ((RouteRanking.rr_total_revenue row' < RouteRanking.rr_total_revenue row)%Qc ->
      (RouteRanking.rr_revenue_rank row < RouteRanking.rr_revenue_rank row')%nat) /\
     (RouteRanking.rr_total_revenue row' = RouteRanking.rr_total_revenue row ->
      RouteRanking.rr_revenue_rank row = RouteRanking.rr_revenue_rank row')) /\
  (forall row, row ∈ RouteRanking.route_revenue ties fact ->
     (RouteRanking.rr_revenue_rank row = 1%nat <->
      forall row', row' ∈ RouteRanking.route_revenue ties fact ->
        (RouteRanking.rr_total_revenue row' <= RouteRanking.rr_total_revenue row)%Qc)) /\
  (fact <> [] ->
   exists row, row ∈ RouteRanking.route_revenue ties fact /\
               RouteRanking.rr_revenue_rank row = 1%nat).
Proof.
  set (rows := RouteRanking.route_revenue ties fact).
  set (revenues := RouteRanking.rr_total_revenue <$> rows).
  assert (forall row, row ∈ rows ->
            RouteRanking.rr_revenue_rank row
            = S (length (filter (fun y => (RouteRanking.rr_total_revenue row < y)%Qc)
                                revenues))) as Hrank
    by (intros row Hrow; by rewrite (route_revenue_rank ties fact row Hrow)).
  assert (forall row, row ∈ rows -> RouteRanking.rr_total_revenue row ∈ revenues) as Hin
    by (intros row Hrow; by apply list_elem_of_fmap_2).
  assert (forall row, row ∈ rows ->
            (RouteRanking.rr_revenue_rank row = 1%nat <->
             forall row', row' ∈ rows ->
               (RouteRanking.rr_total_revenue row' <= RouteRanking.rr_total_revenue row)%Qc))
    as Htop.
  { intros row Hrow. rewrite (Hrank row Hrow). split.
    - intros [= Hlen] row' Hrow'. apply Qcnot_lt_le. intros Hlt.
      apply length_zero_iff_nil in Hlen.
      eapply (filter_nil_not_elem_of _ revenues); [exact Hlen | exact Hlt |].
      by apply Hin.
    - intros Hmax. f_equal. apply length_zero_iff_nil, filter_nil_iff.
      intros y (row' & -> & Hrow')%list_elem_of_fmap. apply Qcle_not_lt. by apply Hmax. }
  split; [| split; [| split]].
  - intros row Hrow. rewrite (Hrank row Hrow). split; [lia |].
    assert (length rows = length revenues) as -> by (unfold revenues; by rewrite length_fmap).
    apply (length_filter_lt _ revenues (RouteRanking.rr_total_revenue row)); [by apply Hin |].
    intros Hlt. by apply (Qclt_not_eq _ _ Hlt).
  - intros row row' Hrow Hrow'. rewrite (Hrank row Hrow), (Hrank row' Hrow'). split.
    + intros Hlt. apply -> Nat.succ_lt_mono.
      apply (length_filter_strict _ _ revenues (RouteRanking.rr_total_revenue row)).
      * intros y Hy. by apply Qclt_trans with (RouteRanking.rr_total_revenue row).
      * by apply Hin.
      * done.
      * intros Hxx. by apply (Qclt_not_eq _ _ Hxx).
    + by intros ->.
  - done.
  - intros Hne.
    assert (revenues <> []) as Hrev.
    { unfold revenues, rows. rewrite route_revenue_column.
      unfold RouteRanking.route_aggregates. rewrite <- list_fmap_compose.
      destruct fact as [| f0 fact']; [done |].
      assert (QuickAnalysis.f_route f0
                ∈ group_keys (QuickAnalysis.f_route <$> f0 :: fact')) as Hk
        by (apply elem_of_group_keys; left).
      intros Hnil%fmap_nil_inv. rewrite Hnil in Hk. by apply elem_of_nil in Hk. }
    destruct (Qc_list_max revenues Hrev) as (m & (row & -> & Hrow)%list_elem_of_fmap & Hmax).
    exists row. split; [done |]. apply Htop; [done |].
    intros row' Hrow'. by apply Hmax, Hin.
Qed.

(** ** More of quick_analysis.py *)




Lemma categorize_university (location : string) :
  PowerBIDims.categorize_location location = "University"
  <-> str_contains "VIT" location = true.
Proof.
  unfold PowerBIDims.categorize_location.
  destruct (str_contains "VIT" location); [done |].
  repeat match goal with
         | |- context [ if ?b then _ else _ ] => destruct b
         end; split; discriminate.
Qed.

(** X23. The VIT selection of the analyses holds exactly the rides whose
    origin or destination the location dimension categorizes as
    "University"; in particular the match is case-sensitive, as the
    categorizer's. *)
Theorem vit_routes_are_university_rides (df : frame) (r : ride) :
  r ∈ QuickAnalysisMore.vit_routes df <->
  r ∈ df /\
  (PowerBIDims.categorize_location (from_location r) = "University" \/
   PowerBIDims.categorize_location (to_location r) = "University").
Proof.
  unfold QuickAnalysisMore.vit_routes.
  rewrite list_elem_of_filter, orb_true_iff, !categorize_university. tauto.
Qed.

(** ** Minimum and maximum of a group *)

Lemma foldl_Qc_min_spec (l : list Qc) (a : Qc) :
  (foldl Qc_min a l = a \/ foldl Qc_min a l ∈ l) /\
  (foldl Qc_min a l <= a)%Qc /\
  forall x, x ∈ l -> (foldl Qc_min a l <= x)%Qc.
Proof.
  revert a. induction l as [| y l IH]; intros a; cbn [foldl].
  - split; [by left |]. split; [apply Qcle_refl |]. by intros x Hx%elem_of_nil.
  - destruct (IH (Qc_min a y)) as (Hin & Hle & Hall).
    assert (Qc_min a y <= a)%Qc as Hma
      by (unfold Qc_min; case_decide; [apply Qcle_refl | by apply Qclt_le_weak, Qcnot_le_lt]).
    assert (Qc_min a y <= y)%Qc as Hmy
      by (unfold Qc_min; case_decide; [done | apply Qcle_refl]).
    split; [| split].
    + destruct Hin as [Heq | Hin]; [| right; by right].
      rewrite Heq. unfold Qc_min. case_decide; [by left | right; left].
    + by apply Qcle_trans with (Qc_min a y).
    + intros x [-> | Hx]%elem_of_cons; [by apply Qcle_trans with (Qc_min a y) | by apply Hall].
Qed.

Lemma foldl_Qc_max_spec (l : list Qc) (a : Qc) :
  (foldl Qc_max a l = a \/ foldl Qc_max a l ∈ l) /\
  (a <= foldl Qc_max a l)%Qc /\
  forall x, x ∈ l -> (x <= foldl Qc_max a l)%Qc.
Proof.
  revert a. induction l as [| y l IH]; intros a; cbn [foldl].
  - split; [by left |]. split; [apply Qcle_refl |]. by intros x Hx%elem_of_nil.
  - destruct (IH (Qc_max a y)) as (Hin & Hle & Hall).
    assert (a <= Qc_max a y)%Qc as Hma
      by (unfold Qc_max; case_decide; [done | apply Qcle_refl]).
    assert (y <= Qc_max a y)%Qc as Hmy
      by (unfold Qc_max; case_decide; [apply Qcle_refl | by apply Qclt_le_weak, Qcnot_le_lt]).
    split; [| split].
    + destruct Hin as [Heq | Hin]; [| right; by right].
      rewrite Heq. unfold Qc_max. case_decide; [right; left | by left].
    + by apply Qcle_trans with (Qc_max a y).
    + intros x [-> | Hx]%elem_of_cons; [by apply Qcle_trans with (Qc_max a y) | by apply Hall].
Qed.

Lemma measure_min_spec (l : list Qc) :
  l <> [] ->
  exists m, measure_min l = Fin m /\ m ∈ l /\ forall x, x ∈ l -> (m <= x)%Qc.
Proof.
  destruct l as [| a l]; [done |]. intros _.
  destruct (foldl_Qc_min_spec l a) as (Hin & Hle & Hall).
  exists (foldl Qc_min a l). split; [done |]. split.
  - destruct Hin as [-> | Hin]; [left | by right].
  - intros x [-> | Hx]%elem_of_cons; [done | by apply Hall].
Qed.

Lemma measure_max_spec (l : list Qc) :
  l <> [] ->
  exists m, measure_max l = Fin m /\ m ∈ l /\ forall x, x ∈ l -> (x <= m)%Qc.
Proof.
  destruct l as [| a l]; [done |]. intros _.
  destruct (foldl_Qc_max_spec l a) as (Hin & Hle & Hall).
  exists (foldl Qc_max a l). split; [done |]. split.
  - destruct Hin as [-> | Hin]; [left | by right].
  - intros x [-> | Hx]%elem_of_cons; [done | by apply Hall].
Qed.

(** X24. In every row of the route dimension the minimum and the maximum
    distance are the distances of two rides of that route, the shortest and
    the longest one, each rounded to a hundredth within 0.005 of it. *)
Theorem route_distance_extremes (ties : tie_breaks string) (df : frame)
    (row : PowerBIDims.route_row) :
  row ∈ PowerBIDims.route_dim ties df ->
  exists shortest longest : ride,
    (shortest ∈ df /\
     PowerBI.location_route_id shortest = PowerBIDims.r_location_route_id row) /\
    (longest ∈ df /\
     PowerBI.location_route_id longest = PowerBIDims.r_location_route_id row) /\
    (forall r, r ∈ df ->
       PowerBI.location_route_id r = PowerBIDims.r_location_route_id row ->
       (distance_km shortest <= distance_km r)%Qc /\
       (distance_km r <= distance_km longest)%Qc) /\
    exists mn mx : Qc,
      PowerBIDims.s_min_distance (PowerBIDims.r_stats row) = Fin mn /\
      PowerBIDims.s_max_distance (PowerBIDims.r_stats row) = Fin mx /\
      mn = round2 (ties "min_distance" (PowerBIDims.r_location_route_id row))
                  (distance_km shortest) /\
      mx = round2 (ties "max_distance" (PowerBIDims.r_location_route_id row))
                  (distance_km longest) /\
      (mn - Q2Qc (1 # 200) <= distance_km shortest)%Qc /\
      (distance_km shortest <= mn + Q2Qc (1 # 200))%Qc /\
      (mx - Q2Qc (1 # 200) <= distance_km longest)%Qc /\
      (distance_km longest <= mx + Q2Qc (1 # 200))%Qc.
Proof.
  rewrite route_dim_rows. intros (ir & -> & Hir)%list_elem_of_fmap.
  apply route_combinations_rides in Hir as [_ Hr]. cbn zeta.
  cbn [PowerBIDims.r_stats PowerBIDims.r_location_route_id PowerBIDims.agg_route
       PowerBIDims.s_min_distance PowerBIDims.s_max_distance].
  set (id := PowerBI.location_route_id ir.2).
  set (g := PowerBIDims.rides_of_route id df).
  assert (ir.2 ∈ g) as Hg by (by apply list_elem_of_filter).
  assert (distance_km <$> g <> []) as Hne.
  { intros Hnil%fmap_nil_inv. rewrite Hnil in Hg. by apply elem_of_nil in Hg. }
  destruct (measure_min_spec (distance_km <$> g) Hne) as (mn & -> & Hmn & Hlo).
  destruct (measure_max_spec (distance_km <$> g) Hne) as (mx & -> & Hmx & Hhi).
  apply list_elem_of_fmap in Hmn as (r1 & -> & [Hid1 Hr1]%list_elem_of_filter).
  apply list_elem_of_fmap in Hmx as (r2 & -> & [Hid2 Hr2]%list_elem_of_filter).
  exists r1, r2. split; [done |]. split; [done |]. split.
  - intros r Hrdf Hrid.
    assert (distance_km r ∈ distance_km <$> g) as Hin
      by (apply list_elem_of_fmap_2; by apply list_elem_of_filter).
    split; [by apply Hlo | by apply Hhi].
  - cbn [fround2]. eexists _, _. split; [reflexivity |]. split; [reflexivity |].
    split; [reflexivity |]. split; [reflexivity |].
    split; [apply round2_close |]. split; [apply round2_close |].
    apply round2_close.
Qed.

Lemma route_distance_extremes_witness :
  exists row mn mx,
    row ∈ PowerBIDims.route_dim ties_up mixed_trips /\
    PowerBIDims.r_location_route_id row = "VIT Main Gate → Katpadi Station" /\
    PowerBIDims.s_min_distance (PowerBIDims.r_stats row) = Fin mn /\
    PowerBIDims.s_max_distance (PowerBIDims.r_stats row) = Fin mx.
Proof.
  destruct (route_dim_covers ties_up mixed_trips
              (sample_trip "T1" "bike" "VIT Main Gate" "Katpadi Station"
                 19748 8 false 6 60 90 3))
    as (row & Hrow & _ & _ & Hid); [unfold mixed_trips; in_list |].
  destruct (route_distance_extremes ties_up mixed_trips row Hrow)
    as (_ & _ & _ & _ & _ & mn & mx & Hmn & Hmx & _).
  by exists row, mn, mx.
Defined.
